(** * SpoonOS agents: the ReAct loop and the fixed-stage analysis workflow

    A shallow embedding of [agents/react_agent.py], [agents/graph_agent.py]
    and of the tools they use: [tools/notification_tools.py],
    [tools/crypto_tools.py] and [tools/search_tools.py].

    Conventions of the embedding.
    - Python values that travel through the agents (JSON documents, tool
      results, the workflow state) are terms of [pyval].  A [str] is a
      [string] whose characters are code points below 256; a [float] is an
      extended rational ([pyfloat]): only comparisons are made on floats,
      and Python compares numbers by their exact value.
    - Code that can raise returns a [res]; code that talks to the outside
      (LLM, tools, webhooks, console) threads a world through the monad [M].
    - The Python runtime ([json.loads], [json.dumps], [str], the texts of
      the errors of a call) and the outside collaborators are parameters.
    - Printing on the console goes through rich, which reads the tags of a
      text and raises [MarkupError] on a closing tag that matches no open
      one; none of the texts printed is escaped.  Every print whose text
      carries data of the run (the question, a symbol, a thought, an
      observation, a decision, the cells of the price table, a message) is
      modelled, and may raise.  The prints made of literals of the source
      and of integers only (the panels that announce a stage, the table of
      the indicators, the count of the news, the iteration number, the
      closing line of the notify stage) are left out, as are the lines of
      the logger. *)

From Stdlib Require Import ZArith QArith Lia Bool Ascii.
From Stdlib Require DecimalString.
From stdpp Require Import gmap strings list.


(** ** Python values *)

Inductive pyfloat :=
| FNan
| FInf (pos : bool)
| FFin (q : Q).

#[warnings="-register-all"]
Inductive pyval :=
| VNone
| VBool (b : bool)
| VInt (z : Z)
| VFloat (f : pyfloat)
| VStr (s : string)
| VList (l : list pyval)
| VDict (d : list (string * pyval)).

(** Exceptions: the class and the text of [str(e)]. *)
Inductive exn_class :=
| TypeError | AttributeError | KeyError | IndexError | JSONDecodeError
| MarkupError | OtherException.

Record exn := Exn { exn_cls : exn_class; exn_msg : string }.

Inductive res (A : Type) :=
| Ok (a : A)
| Raise (e : exn).
Arguments Ok {A} a.
Arguments Raise {A} e.

Definition res_bind {A B} (r : res A) (k : A -> res B) : res B :=
  match r with
  | Ok a => k a
  | Raise e => Raise e
  end.

Declare Scope res_scope.
Delimit Scope res_scope with res.
Notation "x <- c ;; k" := (res_bind c (fun x => k))
  (at level 100, c at next level, right associativity) : res_scope.

(** [type(v).__name__] *)
Definition type_name (v : pyval) : string :=
  match v with
  | VNone => "NoneType"
  | VBool _ => "bool"
  | VInt _ => "int"
  | VFloat _ => "float"
  | VStr _ => "str"
  | VList _ => "list"
  | VDict _ => "dict"
  end.

(** The exception of [x.name] on a value without that attribute. *)
Definition no_attribute (x : pyval) (name : string) : exn :=
  Exn AttributeError
      ("'" +:+ type_name x +:+ "' object has no attribute '" +:+ name +:+ "'").

(** Truth value of a Python object, as tested by [if x:] and [x and y]. *)
Definition float_is_zero (f : pyfloat) : bool :=
  match f with
  | FFin q => Qeq_bool q 0
  | _ => false
  end.

Definition truthy (v : pyval) : bool :=
  match v with
  | VNone => false
  | VBool b => b
  | VInt z => negb (z =? 0)%Z
  | VFloat f => negb (float_is_zero f)
  | VStr s => negb (String.eqb s EmptyString)
  | VList l => match l with [] => false | _ => true end
  | VDict d => match d with [] => false | _ => true end
  end.

(** *** Numbers and their comparison *)

(** The numeric value of an [int], [bool] or [float]. *)
Definition as_float (v : pyval) : option pyfloat :=
  match v with
  | VBool b => Some (FFin (if b then 1 else 0))
  | VInt z => Some (FFin (inject_Z z))
  | VFloat f => Some f
  | _ => None
  end.

(** Three-way comparison of two floats; [None] when a NaN is involved. *)
Definition float_cmp (a b : pyfloat) : option comparison :=
  match a, b with
  | FNan, _ | _, FNan => None
  | FInf p, FInf q => Some (if Bool.eqb p q then Eq else if p then Gt else Lt)
  | FInf p, FFin _ => Some (if p then Gt else Lt)
  | FFin _, FInf p => Some (if p then Lt else Gt)
  | FFin x, FFin y => Some (x ?= y)%Q
  end.

(** [a > b] *)
Definition float_gt (a b : pyfloat) : bool :=
  match float_cmp a b with Some Gt => true | _ => false end.

(** [a > c] where [c] is a numeric literal of type [c_type]: a left operand
    that is not a number raises [TypeError]. *)
Definition num_gt (a : pyval) (c : pyfloat) (c_type : string) : res bool :=
  match as_float a with
  | Some x => Ok (float_gt x c)
  | None =>
      Raise (Exn TypeError
                 ("'>' not supported between instances of '" +:+ type_name a
                  +:+ "' and '" +:+ c_type +:+ "'"))
  end.

(** *** Dictionaries (insertion ordered) *)

Fixpoint dict_lookup (d : list (string * pyval)) (k : string) : option pyval :=
  match d with
  | [] => None
  | (k', v) :: d' => if String.eqb k' k then Some v else dict_lookup d' k
  end.

(** [d[k] = v] *)
Fixpoint dict_set (d : list (string * pyval)) (k : string) (v : pyval)
  : list (string * pyval) :=
  match d with
  | [] => [(k, v)]
  | (k', v') :: d' =>
      if String.eqb k' k then (k', v) :: d' else (k', v') :: dict_set d' k v
  end.

(** [x.get(k, dflt)]: only a [dict] has the method. *)
Definition py_get (x : pyval) (k : string) (dflt : pyval) : res pyval :=
  match x with
  | VDict d => Ok (default dflt (dict_lookup d k))
  | _ => Raise (no_attribute x "get")
  end.

(** ** The workflow state of [graph_agent.py] *)

(** [AgentState] is a [dict] keyed by field name. *)
Abbreviation AgentState := (gmap string pyval).

(** [state.get(k, dflt)] *)
Definition state_get (state : AgentState) (k : string) (dflt : pyval) : pyval :=
  default dflt (state !! k).

(** The integer and float literals of the signal rule. *)
Definition lit (z : Z) : pyfloat := FFin (inject_Z z).
Definition lit_1e9 : pyfloat := FFin (inject_Z 1000000000).

(** The [try] block of [technical_analysis_node]: the indicators derived from
    the collected price data. *)
Definition derive_indicators (price_data : pyval) : res (list (string * pyval)) :=
  (current_price <- py_get price_data "current_price" (VInt 0) ;;
   price_change_24h <- py_get price_data "price_change_percentage_24h" (VInt 0) ;;
   volume_24h <- py_get price_data "total_volume" (VInt 0) ;;
   let indicators := [] in
   indicators <-
     (up5 <- num_gt price_change_24h (lit 5) "int" ;;
      if up5 then
        Ok (dict_set (dict_set indicators "trend" (VStr "Strong Uptrend"))
                     "signal" (VStr "BUY"))
      else
        up0 <- num_gt price_change_24h (lit 0) "int" ;;
        if up0 then
          Ok (dict_set (dict_set indicators "trend" (VStr "Uptrend"))
                       "signal" (VStr "HOLD"))
        else
          upm5 <- num_gt price_change_24h (lit (-5)) "int" ;;
          if upm5 then
            Ok (dict_set (dict_set indicators "trend" (VStr "Downtrend"))
                         "signal" (VStr "HOLD"))
          else
            Ok (dict_set (dict_set indicators "trend" (VStr "Strong Downtrend"))
                         "signal" (VStr "SELL"))) ;;
   high <- num_gt volume_24h lit_1e9 "float" ;;
   Ok (dict_set indicators "volume_status"
                (VStr (if high then "High" else "Normal"))))%res.

(** ** Python strings *)

Definition nl : string := String "010"%char EmptyString.
Definition dq : string := String "034"%char EmptyString.

(** [str.isspace] on the code points below 256. *)
Definition isspace (c : ascii) : bool :=
  let n := nat_of_ascii c in
  ((9 <=? n) && (n <=? 13)) || ((28 <=? n) && (n <=? 32))
  || (n =? 133) || (n =? 160).

Fixpoint lstrip (s : string) : string :=
  match s with
  | String c s' => if isspace c then lstrip s' else s
  | EmptyString => EmptyString
  end.

Fixpoint rstrip (s : string) : string :=
  match s with
  | String c s' =>
      let r := rstrip s' in
      match r with
      | EmptyString => if isspace c then EmptyString else String c EmptyString
      | String _ _ => String c r
      end
  | EmptyString => EmptyString
  end.

(** [s.strip()] *)
Definition strip (s : string) : string := rstrip (lstrip s).

(** [s.startswith(p)] *)
Fixpoint startswith (p s : string) : bool :=
  match p, s with
  | EmptyString, _ => true
  | String a p', String b s' => if Ascii.eqb a b then startswith p' s' else false
  | String _ _, EmptyString => false
  end.

(** [sub in s] *)
Fixpoint contains (sub s : string) : bool :=
  startswith sub s ||
  match s with
  | String _ s' => contains sub s'
  | EmptyString => false
  end.

(** [s.find(sub)]: the lowest index where [sub] starts, if any. *)
Fixpoint find (sub s : string) : option nat :=
  if startswith sub s then Some 0
  else match s with
       | String _ s' => S <$> find sub s'
       | EmptyString => None
       end.

(** [s[:n]] and [s[n:]] *)
Fixpoint str_take (n : nat) (s : string) : string :=
  match n, s with
  | S n', String c s' => String c (str_take n' s')
  | _, _ => EmptyString
  end.

Fixpoint str_drop (n : nat) (s : string) : string :=
  match n, s with
  | S n', String _ s' => str_drop n' s'
  | _, _ => s
  end.

(** [s.split(sep)] for a non-empty [sep]: the separators are found from
    left to right, without overlap.  [skip] counts the characters of a
    separator that has just been matched and is still to be passed over. *)
Fixpoint split_from (sep : string) (skip : nat) (s : string) : list string :=
  match s with
  | EmptyString => [EmptyString]
  | String c s' =>
      match skip with
      | S k => split_from sep k s'
      | O =>
          if startswith sep s then
            EmptyString :: split_from sep (String.length sep - 1) s'
          else
            match split_from sep 0 s' with
            | piece :: pieces => String c piece :: pieces
            | [] => [String c EmptyString]
            end
      end
  end.

Definition split (sep s : string) : list string := split_from sep 0 s.

(** [sep.join(pieces)] *)
Fixpoint join (sep : string) (pieces : list string) : string :=
  match pieces with
  | [] => EmptyString
  | [p] => p
  | p :: rest => p +:+ sep +:+ join sep rest
  end.

(** [s.replace(old, new)] for a non-empty [old]: every occurrence found by
    [split] is replaced. *)
Definition replace (old new s : string) : string := join new (split old s).

(** [str(i)] for a natural number. *)
Definition str_of_nat (n : nat) : string :=
  DecimalString.NilZero.string_of_uint (Nat.to_uint n).

(** [l[i]] *)
Definition list_index {A} (l : list A) (i : nat) : res A :=
  match l !! i with
  | Some x => Ok x
  | None => Raise (Exn IndexError "list index out of range")
  end.

(** ** Effects *)

(** A computation over a state [S] that returns or raises; the state
    reached is kept either way. *)
Definition M (S A : Type) : Type := S -> res A * S.

Definition ret {S A} (a : A) : M S A := fun s => (Ok a, s).

Definition raise {S A} (e : exn) : M S A := fun s => (Raise e, s).

Definition bind {S A B} (m : M S A) (k : A -> M S B) : M S B :=
  fun s =>
    match m s with
    | (Ok a, s') => k a s'
    | (Raise e, s') => (Raise e, s')
    end.

Definition lift_res {S A} (r : res A) : M S A := fun s => (r, s).

(** [try: body except Exception as e: handler e] *)
Definition try_except {S A} (body : M S A) (handler : exn -> M S A) : M S A :=
  fun s =>
    match body s with
    | (Ok a, s') => (Ok a, s')
    | (Raise e, s') => handler e s'
    end.

Declare Scope monad_scope.
Delimit Scope monad_scope with M.
Notation "x <- c ;; k" := (bind c (fun x => k))
  (at level 100, c at next level, right associativity) : monad_scope.
Notation "c ;;; k" := (bind c (fun _ => k))
  (at level 100, right associativity) : monad_scope.

(** [if b: body] *)
Definition when {S} (b : bool) (body : M S unit) : M S unit :=
  if b then body else ret tt.

(** What the code hands to [console.print]: a panel around a text that may
    carry tags, a panel around a Markdown document, a table with a title
    and two columns.  Titles of panels, border styles and column headers
    are literals of the source. *)
Inductive renderable :=
| Panel (text : string)
| PanelMarkdown (text : string)
| Table (title : string) (rows : list (string * string)).

(** What can be wrong when [f] is called with the items of [x] as its
    keyword arguments: [x] is not a mapping, a keyword of [x] is no
    parameter of [f], a parameter of [f] is left without a value. *)
Inductive call_fault :=
| NotAMapping (x : pyval)
| UnexpectedKeyword (keyword : string)
| MissingArgument (parameter : string).

(** The Python runtime and the outside world [W]. *)
Class Runtime (W : Type) := {
  (** [json.loads]; a malformed document raises [JSONDecodeError] *)
  json_loads : string -> res pyval;
  (** [json.dumps] *)
  json_dumps : pyval -> string;
  (** [json.dumps(x, indent=2)] *)
  json_dumps_indent : pyval -> string;
  (** [str(x)], also used by f-strings *)
  py_str : pyval -> string;
  (** [console.print(r)]: it draws [r], or raises (rich raises
      [MarkupError] when a text of [r] has a closing tag that matches no
      open tag) *)
  console_print : renderable -> M W unit;
  (** [requests.post(url, json=payload, timeout=10)] followed by
      [raise_for_status()] *)
  requests_post : string -> pyval -> M W unit;
  (** the text of the [TypeError] that the interpreter raises for a call of
      a method, given the module and the qualified name of the method, with
      the fault given *)
  call_error : string -> string -> call_fault -> string;
}.

(** A value in an f-string: a [str] stands for itself. *)
Definition py_format {W} `{Runtime W} (x : pyval) : string :=
  match x with
  | VStr s => s
  | _ => py_str x
  end.

(** [len(x)] *)
Definition py_len (x : pyval) : res Z :=
  match x with
  | VStr s => Ok (Z.of_nat (String.length s))
  | VList l => Ok (Z.of_nat (length l))
  | VDict d => Ok (Z.of_nat (length d))
  | _ => Raise (Exn TypeError ("object of type '" +:+ type_name x +:+ "' has no len()"))
  end.

(** [x[:n]]: sequences can be sliced, a [dict] and the scalars cannot (a
    [dict] takes the slice for a key, which up to Python 3.11 cannot be
    hashed; the callers catch every exception). *)
Definition py_slice_to (x : pyval) (n : nat) : res pyval :=
  match x with
  | VStr s => Ok (VStr (str_take n s))
  | VList l => Ok (VList (take n l))
  | VDict _ => Raise (Exn TypeError "unhashable type: 'slice'")
  | _ => Raise (Exn TypeError ("'" +:+ type_name x +:+ "' object is not subscriptable"))
  end.

(** The items visited by [for item in x]. *)
Definition py_iter (x : pyval) : res (list pyval) :=
  match x with
  | VList l => Ok l
  | VStr s => Ok (map (fun c => VStr (String c EmptyString)) (String.list_ascii_of_string s))
  | VDict d => Ok (map (fun kv => VStr (fst kv)) d)
  | _ => Raise (Exn TypeError ("'" +:+ type_name x +:+ "' object is not iterable"))
  end.

Fixpoint res_map {A B} (f : A -> res B) (l : list A) : res (list B) :=
  match l with
  | [] => Ok []
  | x :: l' => (y <- f x ;; ys <- res_map f l' ;; Ok (y :: ys))%res
  end.

(** ** [tools/notification_tools.py] *)

Module NotificationTool.

(** The webhook addresses read from the environment by [__init__]. *)
Record self := { slack_webhook : string; discord_webhook : string }.

Section Methods.
Context {W : Type} `{Runtime W}.

Definition failure (channel : pyval) (error : string) : pyval :=
  VDict [("success", VBool false); ("channel", channel); ("error", VStr error)].

Definition delivered (channel message : string) : pyval :=
  VDict [("success", VBool true); ("channel", VStr channel);
         ("message", VStr message)].

Definition _send_console (message : string) : M W pyval :=
  (console_print (Panel message) ;;;
   ret (delivered "console" message))%M.

Definition _send_slack (tool : self) (message : string) : M W pyval :=
  if String.eqb (slack_webhook tool) EmptyString then
    ret (failure (VStr "slack") "Webhook not configured")
  else
    try_except
      (let payload := VDict [("text", VStr message)] in
       requests_post (slack_webhook tool) payload ;;;
       ret (delivered "slack" message))%M
      (fun e => ret (failure (VStr "slack") (exn_msg e))).

Definition _send_discord (tool : self) (message : string) : M W pyval :=
  if String.eqb (discord_webhook tool) EmptyString then
    ret (failure (VStr "discord") "Webhook not configured")
  else
    try_except
      (let payload := VDict [("content", VStr message)] in
       requests_post (discord_webhook tool) payload ;;;
       ret (delivered "discord" message))%M
      (fun e => ret (failure (VStr "discord") (exn_msg e))).

Definition run (tool : self) (message : string) (channel : string) : M W pyval :=
  try_except
    (if String.eqb channel "console" then _send_console message
     else if String.eqb channel "slack" then _send_slack tool message
     else if String.eqb channel "discord" then _send_discord tool message
     else _send_console message)
    (fun e => ret (failure (VStr channel) (exn_msg e))).
End Methods.

End NotificationTool.

(** ** [agents/graph_agent.py] *)

(** The result of a run; [ar_symbol] is its field [symbol]. *)
Record AnalysisResult := {
  ar_symbol : string;
  recommendation : pyval;
  confidence : Q;
  reasoning : pyval;
  data : list (string * pyval);
}.

Module CryptoAnalysisGraph.

Section Methods.
Context {W : Type} `{Runtime W}.

(** The agent object: its flag and its collaborators ([self.llm_client]
    behind the provider branches, the two data tools, the notifier). *)
Record self := {
  verbose : bool;
  llm_client : string -> M W string;
  price_tool : pyval -> M W pyval;
  news_tool : pyval -> M W pyval;
  notification_tool : NotificationTool.self;
}.

(** The same agent around another LLM. *)
Definition with_llm_client (g : self) (llm : string -> M W string) : self :=
  {| verbose := verbose g;
     llm_client := llm;
     price_tool := price_tool g;
     news_tool := news_tool g;
     notification_tool := notification_tool g |}.

(** [state[k]] *)
Definition state_item (state : AgentState) (k : string) : M W pyval :=
  match state !! k with
  | Some v => ret v
  | None => raise (Exn KeyError ("'" +:+ k +:+ "'"))
  end.

(** The banner of the collect stage. *)
Definition collect_banner (symbol : pyval) : string :=
  "[cyan]Collecting data for " +:+ py_format symbol +:+ "...[/cyan]".

(** The table of the collect stage: a row for each item of
    [price_data.items()], with [str] of the key and of the value. *)
Definition price_table (symbol price_data : pyval) : res renderable :=
  match price_data with
  | VDict d =>
      Ok (Table (py_format symbol +:+ " Price Data")
                (map (fun kv => (fst kv, py_str (snd kv))) d))
  | _ => Raise (no_attribute price_data "items")
  end.

(** The two verbose blocks of the collect stage. *)
Definition announce_collect (g : self) (symbol : pyval) : M W unit :=
  when (verbose g) (console_print (Panel (collect_banner symbol))).

Definition show_prices (g : self) (symbol price_data : pyval) : M W unit :=
  when (verbose g)
    (table <- lift_res (price_table symbol price_data) ;;
     console_print table)%M.

(** Node 1: collect price and market data.  The banner is printed outside
    the [try]; the table inside it, after the price data has been stored,
    so that a table that cannot be drawn leaves an empty [price_data]. *)
Definition collect_data_node (g : self) (state : AgentState) : M W AgentState :=
  (symbol <- state_item state "symbol" ;;
   announce_collect g symbol ;;;
   try_except
     (price_data <- price_tool g symbol ;;
      let state' := <["price_data" := price_data]> state in
      show_prices g symbol price_data ;;;
      ret state')
     (fun e => ret (<["price_data" := VDict []]> state)))%M.

(** Node 2: technical analysis.  Any exception of the [try] block
    leaves an empty mapping. *)
Definition technical_analysis_node (g : self) (state : AgentState) : M W AgentState :=
  let price_data := state_get state "price_data" (VDict []) in
  try_except
    (indicators <- lift_res (derive_indicators price_data) ;;
     ret (<["technical_indicators" := VDict indicators]> state))%M
    (fun e => ret (<["technical_indicators" := VDict []]> state)).

(** The [sentiment] literal built from the news. *)
Definition sentiment_of (news_data : pyval) : res pyval :=
  (articles <- py_get news_data "articles" (VList []) ;;
   news_count <- py_len articles ;;
   articles <- py_get news_data "articles" (VList []) ;;
   first3 <- py_slice_to articles 3 ;;
   items <- py_iter first3 ;;
   headlines <- res_map (fun article => py_get article "title" (VStr EmptyString)) items ;;
   Ok (VDict [("news_count", VInt news_count);
              ("overall_sentiment", VStr "Neutral");
              ("news_headlines", VList headlines)]))%res.

(** Node 3: sentiment from the news. *)
Definition sentiment_analysis_node (g : self) (state : AgentState) : M W AgentState :=
  (symbol <- state_item state "symbol" ;;
   try_except
     (news_data <- news_tool g symbol ;;
      sentiment <- lift_res (sentiment_of news_data) ;;
      ret (<["sentiment_data" := sentiment]> state))
     (fun e => ret (<["sentiment_data" := VDict []]> state)))%M.

(** The prompt of the decision stage. *)
Definition decision_context (symbol price_data indicators sentiment : pyval) : string :=
  nl +:+ "Analyze the following cryptocurrency data and provide an investment recommendation:" +:+ nl
  +:+ nl +:+ "Symbol: " +:+ py_str symbol +:+ nl
  +:+ nl +:+ "Price Data:" +:+ nl +:+ py_str price_data +:+ nl
  +:+ nl +:+ "Technical Indicators:" +:+ nl +:+ py_str indicators +:+ nl
  +:+ nl +:+ "Sentiment Data:" +:+ nl +:+ py_str sentiment +:+ nl
  +:+ nl +:+ "Provide a clear recommendation (BUY/HOLD/SELL) with reasoning and confidence level (0-100%)." +:+ nl
  +:+ "Format your response as JSON:" +:+ nl
  +:+ "{" +:+ nl
  +:+ "    " +:+ dq +:+ "recommendation" +:+ dq +:+ ": " +:+ dq +:+ "BUY/HOLD/SELL" +:+ dq +:+ "," +:+ nl
  +:+ "    " +:+ dq +:+ "confidence" +:+ dq +:+ ": 85," +:+ nl
  +:+ "    " +:+ dq +:+ "reasoning" +:+ dq +:+ ": " +:+ dq +:+ "Your detailed reasoning here" +:+ dq +:+ nl
  +:+ "}" +:+ nl.

(** The verbose block of the decision stage. *)
Definition show_decision (g : self) (decision_text : string) : M W unit :=
  when (verbose g) (console_print (Panel decision_text)).

(** Node 4: the decision text of the LLM, stored as it comes and then
    shown; when the LLM raises, or the text cannot be shown, the decision
    is the error text. *)
Definition generate_decision_node (g : self) (state : AgentState) : M W AgentState :=
  (symbol <- state_item state "symbol" ;;
   let context :=
     decision_context symbol
       (state_get state "price_data" (VDict []))
       (state_get state "technical_indicators" (VDict []))
       (state_get state "sentiment_data" (VDict [])) in
   try_except
     (decision_text <- llm_client g context ;;
      let state' := <["decision" := VStr decision_text]> state in
      show_decision g decision_text ;;;
      ret state')
     (fun e => ret (<["decision" := VStr "Error generating decision"]> state)))%M.

Definition notification_message (symbol decision signal trend : pyval) : string :=
  nl +:+ "Crypto Analysis Complete: " +:+ py_str symbol +:+ nl
  +:+ nl +:+ "Decision: " +:+ py_str decision +:+ nl
  +:+ nl +:+ "Technical Signal: " +:+ py_str signal +:+ nl
  +:+ "Trend: " +:+ py_str trend +:+ nl
  +:+ nl +:+ "This is an automated analysis. Always do your own research before investing." +:+ nl.

(** Node 5: the summary goes to the console channel; nothing is raised
    (the notifier reports a console that raises, it does not raise) and the
    state is returned as it came. *)
Definition notification_node (g : self) (state : AgentState) : M W AgentState :=
  (try_except
     (symbol <- state_item state "symbol" ;;
      let decision := state_get state "decision" (VStr "N/A") in
      signal <- lift_res (py_get (state_get state "technical_indicators" (VDict []))
                                 "signal" (VStr "N/A")) ;;
      trend <- lift_res (py_get (state_get state "technical_indicators" (VDict []))
                                "trend" (VStr "N/A")) ;;
      let message := notification_message symbol decision signal trend in
      NotificationTool.run (notification_tool g) message "console" ;;;
      ret tt)
     (fun e => ret tt) ;;;
   ret state)%M.

Definition initial_state (symbol action : string) : AgentState :=
  <["symbol" := VStr symbol]>
  (<["action" := VStr action]>
  (<["price_data" := VDict []]>
  (<["technical_indicators" := VDict []]>
  (<["sentiment_data" := VDict []]>
  (<["analysis_result" := VStr EmptyString]>
  (<["decision" := VStr EmptyString]>
  (<["messages" := VList []]> ∅))))))).

(** The five stages, as the sequential fallback of [run] calls them.  The
    compiled LangGraph ([self.graph.invoke]) is outside the repository; its
    edges, set in [_build_graph], chain the same nodes in the same order. *)
Definition workflow (g : self) (state : AgentState) : M W AgentState :=
  (state <- collect_data_node g state ;;
   state <- technical_analysis_node g state ;;
   state <- sentiment_analysis_node g state ;;
   state <- generate_decision_node g state ;;
   state <- notification_node g state ;;
   ret state)%M.

Definition make_result (symbol : string) (final_state : AgentState) : res AnalysisResult :=
  (signal <- py_get (state_get final_state "technical_indicators" (VDict []))
                    "signal" (VStr "HOLD") ;;
   Ok {| ar_symbol := symbol;
         recommendation := signal;
         confidence := 0.75;
         reasoning := state_get final_state "decision" (VStr EmptyString);
         data := [("price_data", state_get final_state "price_data" (VDict []));
                  ("technical_indicators",
                    state_get final_state "technical_indicators" (VDict []));
                  ("sentiment_data", state_get final_state "sentiment_data" (VDict []))]
      |})%res.

(** The banner of a run. *)
Definition start_banner (symbol : string) : string :=
  "[bold]Starting analysis for " +:+ symbol +:+ "[/bold]".

Definition run (g : self) (symbol action : string) : M W AnalysisResult :=
  (console_print (Panel (start_banner symbol)) ;;;
   final_state <- workflow g (initial_state symbol action) ;;
   lift_res (make_result symbol final_state))%M.
End Methods.

Arguments self W : clear implicits.

End CryptoAnalysisGraph.

(** ** [agents/react_agent.py] *)

(** One step of the ReAct loop.  [action_input] is [VNone] for [None]. *)
Record AgentStep := {
  thought : string;
  action : option string;
  action_input : pyval;
  observation : option string;
}.

(** What a run does to the outside, in order. *)
Inductive event :=
| LLMCall (prompt : string)
| ToolCall (name : string) (kwargs : list (string * pyval)).

Definition is_llm_call (e : event) : bool :=
  match e with LLMCall _ => true | ToolCall _ _ => false end.

(** The number of LLM invocations among the events. *)
Fixpoint llm_calls (es : list event) : nat :=
  match es with
  | [] => 0
  | e :: es' => (if is_llm_call e then 1 else 0) + llm_calls es'
  end.

(** The text of a response between its first final-answer marker, at index
    [i], and the next marker; or the end of the response when there is no
    other marker. *)
Definition up_to_marker (sep s : string) : string :=
  match find sep s with
  | Some j => str_take j s
  | None => s
  end.

Definition after_marker (sep : string) (i : nat) (s : string) : string :=
  str_drop (i + String.length sep) s.

(** Truth value of an [Optional[str]]. *)
Definition truthy_str (o : option string) : bool :=
  match o with
  | Some s => negb (String.eqb s EmptyString)
  | None => false
  end.

Module CryptoReActAgent.

Section Methods.
Context {W : Type} `{Runtime W}.

(** A tool: its description and its [run] method, called with keyword
    arguments; [run_module] and [run_name] are the module and the qualified
    name under which the interpreter reports the method. *)
Record Tool := {
  description : string;
  run_module : string;
  run_name : string;
  tool_run : list (string * pyval) -> M W pyval;
}.

(** The agent object.  [tools] is the dictionary built by [_init_tools],
    in insertion order. *)
Record self := {
  max_iterations : Z;
  verbose : bool;
  llm_client : string -> M W string;
  search : Tool;
  get_crypto_price : Tool;
  get_crypto_news : Tool;
}.

Definition tools (agent : self) : list (string * Tool) :=
  [("search", search agent);
   ("get_crypto_price", get_crypto_price agent);
   ("get_crypto_news", get_crypto_news agent)].

Fixpoint tools_lookup (ts : list (string * Tool)) (name : string) : option Tool :=
  match ts with
  | [] => None
  | (n, t) :: ts' => if String.eqb n name then Some t else tools_lookup ts' name
  end.

(** The mutable part of a run: the outside world, [self.history], and
    the record of the calls made so far. *)
Record state := {
  world : W;
  history : list AgentStep;
  events : list event;
}.

Definition on_world {A} (m : M W A) : M state A :=
  fun s =>
    let '(r, w) := m (world s) in
    (r, {| world := w; history := history s; events := events s |}).

Definition emit (e : event) : M state unit :=
  fun s =>
    (Ok tt, {| world := world s; history := history s;
               events := events s ++ [e] |}).

Definition set_history (h : list AgentStep) : M state unit :=
  fun s => (Ok tt, {| world := world s; history := h; events := events s |}).

Definition get_history : M state (list AgentStep) :=
  fun s => (Ok (history s), s).

Definition REACT_PROMPT_TEMPLATE (tools tool_names question history : string) : string :=
  "You are a cryptocurrency analysis assistant with access to various tools.

Available Tools:
" +:+ tools +:+ "

Use the following format:

Thought: Think about what information you need
Action: the action to take, should be one of [" +:+ tool_names +:+ "]
Action Input: the input to the action (JSON format)
Observation: the result of the action
... (this Thought/Action/Action Input/Observation can repeat N times)
Thought: I now know the final answer
Final Answer: the final answer to the original question

Begin!

Question: " +:+ question +:+ nl +:+ history +:+ nl +:+ "Thought:".

Definition _format_tools (agent : self) : string :=
  join nl (map (fun nt => "- " +:+ fst nt +:+ ": " +:+ description (snd nt))
               (tools agent)).

Definition format_step (step : AgentStep) : list string :=
  ["Thought: " +:+ thought step]
  ++ (if truthy_str (action step) then
        ["Action: " +:+ default EmptyString (action step);
         "Action Input: " +:+ json_dumps (action_input step)]
      else [])
  ++ (if truthy_str (observation step) then
        ["Observation: " +:+ default EmptyString (observation step)]
      else []).

Definition _format_history (h : list AgentStep) : string :=
  match h with
  | [] => EmptyString
  | _ => join nl (concat (map format_step h))
  end.

Definition _call_llm (agent : self) (prompt : string) : M state string :=
  (emit (LLMCall prompt) ;;; on_world (llm_client agent prompt))%M.

(** The lines of [_parse_action], read in order; a later line
    overwrites what an earlier one set. *)
Fixpoint parse_lines (lines : list string) (action : option string)
         (action_input : pyval) : res (option string * pyval) :=
  match lines with
  | [] => Ok (action, action_input)
  | line :: rest =>
      if startswith "Action:" line then
        (a <- list_index (split "Action:" line) 1 ;;
         parse_lines rest (Some (strip a)) action_input)%res
      else if startswith "Action Input:" line then
        (t <- list_index (split "Action Input:" line) 1 ;;
         let input_text := strip t in
         match json_loads input_text with
         | Ok v => parse_lines rest action v
         | Raise e =>
             match exn_cls e with
             | JSONDecodeError =>
                 parse_lines rest action (VDict [("query", VStr input_text)])
             | _ => Raise e
             end
         end)%res
      else parse_lines rest action action_input
  end.

Definition _parse_action (text : string) : res (option string * pyval) :=
  parse_lines (split nl (strip text)) None VNone.

Definition _execute_tool (agent : self) (action : string) (action_input : pyval)
  : M state string :=
  match tools_lookup (tools agent) action with
  | None => ret ("Error: Tool '" +:+ action +:+ "' not found.")
  | Some tool =>
      try_except
        (match action_input with
         | VDict kwargs =>
             (emit (ToolCall action kwargs) ;;;
              result <- on_world (tool_run tool kwargs) ;;
              ret (py_str result))%M
         | _ =>
             raise (Exn TypeError
                        (call_error (run_module tool) (run_name tool)
                                    (NotAMapping action_input)))
         end)
        (fun e => ret ("Error executing " +:+ action +:+ ": " +:+ exn_msg e))
  end.

(** The panels of [_display_step]: the thought, then the action with its
    input, then the observation. *)
Definition action_panel (step : AgentStep) : string :=
  "[yellow]" +:+ default EmptyString (action step) +:+ "[/yellow]" +:+ nl
  +:+ "Input: " +:+ json_dumps_indent (action_input step).

Definition _display_step (agent : self) (step : AgentStep) : M W unit :=
  when (verbose agent)
    (console_print (Panel (thought step)) ;;;
     when (truthy_str (action step))
       (console_print (Panel (action_panel step))) ;;;
     when (truthy_str (observation step))
       (console_print (Panel (default EmptyString (observation step)))))%M.

(** What the [try] of [run] extracts from a response that is not final. *)
Definition parse_response (response : string) : string * option string * pyval :=
  match
    (first <- list_index (split "Action:" response) 0 ;;
     let thought := strip (replace "Thought:" EmptyString first) in
     parsed <- _parse_action response ;;
     Ok (thought, fst parsed, snd parsed))%res
  with
  | Ok r => r
  | Raise _ => ("Reasoning...", None, VNone)
  end.

(** The prompt of an iteration, from the history so far. *)
Definition prompt_for (agent : self) (question : string) (h : list AgentStep)
  : string :=
  REACT_PROMPT_TEMPLATE (_format_tools agent)
    (join ", " (map fst (tools agent))) question (_format_history h).

(** The step made of a response that is not final: what was parsed, and
    the observation of the tool when one is run. *)
Definition make_step (agent : self) (response : string) : M state AgentStep :=
  (let '(thought, action, action_input) := parse_response response in
   observation <-
     (if truthy_str action && truthy action_input then
        o <- _execute_tool agent (default EmptyString action) action_input ;;
        ret (Some o)
      else ret None) ;;
   ret {| thought := thought; action := action;
          action_input := action_input; observation := observation |})%M.

(** The body of the [for] loop: [Some answer] when it returns. *)
Definition iteration (agent : self) (question : string) : M state (option string) :=
  (h <- get_history ;;
   let prompt := prompt_for agent question h in
   response <- _call_llm agent prompt ;;
   if contains "Final Answer:" response then
     final_answer <- lift_res (list_index (split "Final Answer:" response) 1) ;;
     let final_answer := strip final_answer in
     on_world (console_print (PanelMarkdown final_answer)) ;;;
     ret (Some final_answer)
   else
     step <- make_step agent response ;;
     h <- get_history ;;
     set_history (h ++ [step]) ;;;
     on_world (_display_step agent step) ;;;
     ret None)%M.

Fixpoint loop (agent : self) (question : string) (n : nat) : M state string :=
  match n with
  | O => ret "Max iterations reached."
  | S n' =>
      (r <- iteration agent question ;;
       match r with
       | Some final_answer => ret final_answer
       | None => loop agent question n'
       end)%M
  end.

(** The banner of a run. *)
Definition question_banner (question : string) : string :=
  "[bold]" +:+ question +:+ "[/bold]".

(** [range(n)] runs [n] times, and not at all for [n <= 0]. *)
Definition run (agent : self) (question : string) : M state string :=
  (set_history [] ;;;
   on_world (console_print (Panel (question_banner question))) ;;;
   loop agent question (Z.to_nat (max_iterations agent)))%M.

(** The states a run goes through: after the reset and the banner, and
    after each iteration of the loop, up to the one that returns or
    raises. *)
Fixpoint loop_states (agent : self) (question : string) (n : nat) (s : state)
  : list state :=
  s :: match n with
       | O => []
       | S n' =>
           match iteration agent question s with
           | (Ok None, s') => loop_states agent question n' s'
           | (_, s') => [s']
           end
       end.

Definition run_states (agent : self) (question : string) (s : state) : list state :=
  match on_world (console_print (Panel (question_banner question)))
                 (snd (set_history [] s)) with
  | (Ok _, s0) => loop_states agent question (Z.to_nat (max_iterations agent)) s0
  | (Raise _, s0) => [s0]
  end.

(** The state once the LLM has been called on [prompt] and has left
    the world [w]; and the state with one more step in the history. *)
Definition called (s : state) (prompt : string) (w : W) : state :=
  {| world := w; history := history s;
     events := events s ++ [LLMCall prompt] |}.

Definition appended (s : state) (step : AgentStep) : state :=
  {| world := world s; history := history s ++ [step]; events := events s |}.

Definition with_world (s : state) (w : W) : state :=
  {| world := w; history := history s; events := events s |}.

(** How an iteration ends once its step is appended: the step is displayed
    from the world [w], and the loop goes on unless the display raises. *)
Definition displayed (agent : self) (step : AgentStep) (w : W)
  : res (option string) * W :=
  match _display_step agent step w with
  | (Ok _, w') => (Ok None, w')
  | (Raise e, w') => (Raise e, w')
  end.

(** Every step made of [response] is displayed without an error. *)
Definition shows (agent : self) (response : string) : Prop :=
  forall (s : state) (step : AgentStep) (s' : state),
    make_step agent response s = (Ok step, s') ->
    exists w, _display_step agent step (world s') = (Ok tt, w).

Definition reset (agent : self) : M state unit := set_history [].
End Methods.

Arguments Tool W : clear implicits.
Arguments self W : clear implicits.
Arguments state W : clear implicits.

End CryptoReActAgent.

(** ** Reading the results *)

(** An entry of [state["technical_indicators"]]. *)
Definition indicator (state : AgentState) (k : string) : option pyval :=
  match state !! "technical_indicators" with
  | Some (VDict d) => dict_lookup d k
  | _ => None
  end.

(** The order of the numbers, as the rule of the spec reads it: [c < x] and
    [x <= c] for an integer bound [c].  A NaN is on neither side. *)
Definition above (c : Z) (x : pyfloat) : Prop :=
  match x with
  | FFin q => (inject_Z c < q)%Q
  | FInf pos => pos = true
  | FNan => False
  end.

Definition at_most (c : Z) (x : pyfloat) : Prop :=
  match x with
  | FFin q => (q <= inject_Z c)%Q
  | FInf pos => pos = false
  | FNan => False
  end.

(** The fields of the collected price data that the signal rule reads,
    with the defaults of the code. *)
Definition price_change_of (pd : list (string * pyval)) : pyval :=
  default (VInt 0) (dict_lookup pd "price_change_percentage_24h").

Definition volume_of (pd : list (string * pyval)) : pyval :=
  default (VInt 0) (dict_lookup pd "total_volume").

(** ** Scripted collaborators, for the examples *)

Module Demo.

(** A world with a scripted LLM (the responses still to come) and what has
    been drawn on the console. *)
Record world := {
  script : list string;
  console : list renderable;
}.

(** A console that reads the tags of a text the way rich does when no
    bracket is escaped: a tag runs from a bracket to the next closing
    bracket, has no bracket inside and starts with a lower-case letter or
    one of [#], [/] and [@]; a closing tag has to name a tag that is open,
    and [[/]] closes the last one opened. *)
Definition is_tag_start (c : ascii) : bool :=
  let n := nat_of_ascii c in
  ((97 <=? n) && (n <=? 122)) || (n =? 35) || (n =? 47) || (n =? 64).

Fixpoint close_tag (name : string) (opened : list string) : option (list string) :=
  match opened with
  | [] => None
  | t :: rest =>
      if String.eqb t name then Some rest else cons t <$> close_tag name rest
  end.

(** [tag] is the tag being read, with the index of its bracket; [opened]
    the tags still open, the last one first. *)
Fixpoint markup_error_from (s : string) (pos : nat) (tag : option (nat * string))
         (opened : list string) : option string :=
  match s with
  | EmptyString => None
  | String c s' =>
      if Ascii.eqb c "["%char then
        markup_error_from s' (S pos) (Some (pos, EmptyString)) opened
      else
        match tag with
        | None => markup_error_from s' (S pos) None opened
        | Some (start, body) =>
            if Ascii.eqb c "]"%char then
              match body with
              | EmptyString => markup_error_from s' (S pos) None opened
              | String c0 name =>
                  if Ascii.eqb c0 "/"%char then
                    if String.eqb (strip name) EmptyString then
                      match opened with
                      | [] =>
                          Some ("closing tag '[/]' at position "
                                +:+ str_of_nat start +:+ " has nothing to close")
                      | _ :: rest => markup_error_from s' (S pos) None rest
                      end
                    else
                      match close_tag (strip name) opened with
                      | Some rest => markup_error_from s' (S pos) None rest
                      | None =>
                          Some ("closing tag '[" +:+ body +:+ "]' at position "
                                +:+ str_of_nat start
                                +:+ " doesn't match any open tag")
                      end
                  else if is_tag_start c0 then
                    markup_error_from s' (S pos) None (body :: opened)
                  else markup_error_from s' (S pos) None opened
              end
            else
              markup_error_from s' (S pos)
                (Some (start, body +:+ String c EmptyString)) opened
        end
  end.

Definition markup_error (text : string) : option string :=
  markup_error_from text 0 None [].

(** The texts of a renderable whose tags are read; a Markdown document has
    none. *)
Definition texts_of (r : renderable) : list string :=
  match r with
  | Panel text => [text]
  | PanelMarkdown _ => []
  | Table title rows => title :: concat (map (fun row => [fst row; snd row]) rows)
  end.

Fixpoint first_error (texts : list string) : option string :=
  match texts with
  | [] => None
  | text :: rest =>
      match markup_error text with
      | Some msg => Some msg
      | None => first_error rest
      end
  end.

(** Nothing is drawn when a text is refused. *)
Definition print (r : renderable) : M world unit :=
  fun w =>
    match first_error (texts_of r) with
    | Some msg => (Raise (Exn MarkupError msg), w)
    | None => (Ok tt, {| script := script w; console := console w ++ [r] |})
    end.

(** The texts of the interpreter: the module is named only when the
    argument is not a mapping. *)
Definition type_error_text (module method : string) (fault : call_fault) : string :=
  match fault with
  | NotAMapping x =>
      module +:+ "." +:+ method
      +:+ "() argument after ** must be a mapping, not " +:+ type_name x
  | UnexpectedKeyword keyword =>
      method +:+ "() got an unexpected keyword argument '" +:+ keyword +:+ "'"
  | MissingArgument parameter =>
      method +:+ "() missing 1 required positional argument: '" +:+ parameter +:+ "'"
  end.

(** [json.loads] on the documents the examples use: the empty object, the
    empty array and null are decoded, the other texts of the examples are
    not JSON. *)
Definition decode (s : string) : res pyval :=
  if String.eqb s "{}" then Ok (VDict [])
  else if String.eqb s "[]" then Ok (VList [])
  else if String.eqb s "null" then Ok VNone
  else Raise (Exn JSONDecodeError "Expecting value").

(** A stand-in for [str] and [json.dumps]: texts stand for themselves and
    integers are written in decimal. *)
Definition show (v : pyval) : string :=
  match v with
  | VStr s => s
  | VNone => "None"
  | VInt z => DecimalString.NilZero.string_of_int (Z.to_int z)
  | VDict [] => "{}"
  | VList [] => "[]"
  | _ => "<object>"
  end.

#[global] Instance runtime : Runtime world := {|
  json_loads := decode;
  json_dumps := show;
  json_dumps_indent := show;
  py_str := show;
  console_print := print;
  requests_post := fun url payload =>
    raise (Exn OtherException "ConnectionError");
  call_error := type_error_text;
|}.

(** The LLM reads its next response from the script. *)
Definition scripted_llm (prompt : string) : M world string :=
  fun w =>
    match script w with
    | r :: rest => (Ok r, {| script := rest; console := console w |})
    | [] => (Raise (Exn OtherException "script exhausted"), w)
    end.

(** The LLM that gives the same response for ever. *)
Definition constant_llm (response : string) (prompt : string) : M world string :=
  ret response.

Definition failing_tool : pyval -> M world pyval :=
  fun _ => raise (Exn OtherException "price service down").

Definition empty_news : pyval -> M world pyval :=
  fun _ => ret (VDict [("articles", VList [])]).

Definition start (responses : list string) : world :=
  {| script := responses; console := [] |}.

Definition graph (llm : string -> M world string)
  : CryptoAnalysisGraph.self world :=
  {| CryptoAnalysisGraph.verbose := true;
     CryptoAnalysisGraph.llm_client := llm;
     CryptoAnalysisGraph.price_tool := failing_tool;
     CryptoAnalysisGraph.news_tool := empty_news;
     CryptoAnalysisGraph.notification_tool :=
       {| NotificationTool.slack_webhook := EmptyString;
          NotificationTool.discord_webhook := EmptyString |} |}.

(** A tool that answers with its own keyword arguments. *)
Definition echo_tool : CryptoReActAgent.Tool world :=
  {| CryptoReActAgent.description := "echo";
     CryptoReActAgent.run_module := "demo";
     CryptoReActAgent.run_name := "EchoTool.run";
     CryptoReActAgent.tool_run := fun kwargs => ret (VDict kwargs) |}.

Definition agent (budget : Z) : CryptoReActAgent.self world :=
  {| CryptoReActAgent.max_iterations := budget;
     CryptoReActAgent.verbose := true;
     CryptoReActAgent.llm_client := scripted_llm;
     CryptoReActAgent.search := echo_tool;
     CryptoReActAgent.get_crypto_price := echo_tool;
     CryptoReActAgent.get_crypto_news := echo_tool |}.

Definition fresh (responses : list string) : CryptoReActAgent.state world :=
  {| CryptoReActAgent.world := start responses;
     CryptoReActAgent.history := [];
     CryptoReActAgent.events := [] |}.

(** An agent whose LLM never concludes: every response names a tool and
    gives an input that is not JSON. *)
Definition undecided : string :=
  "Thought: more data" +:+ nl +:+ "Action: search" +:+ nl
  +:+ "Action Input: {bitcoin price".

Definition stubborn_agent (budget : Z) : CryptoReActAgent.self world :=
  {| CryptoReActAgent.max_iterations := budget;
     CryptoReActAgent.verbose := true;
     CryptoReActAgent.llm_client := constant_llm undecided;
     CryptoReActAgent.search := echo_tool;
     CryptoReActAgent.get_crypto_price := echo_tool;
     CryptoReActAgent.get_crypto_news := echo_tool |}.

(** An agent whose LLM never concludes and writes a closing tag that
    nothing opens. *)
Definition stray_tag : string := "see [/b] here".

Definition rambling_agent (budget : Z) : CryptoReActAgent.self world :=
  {| CryptoReActAgent.max_iterations := budget;
     CryptoReActAgent.verbose := true;
     CryptoReActAgent.llm_client := constant_llm stray_tag;
     CryptoReActAgent.search := echo_tool;
     CryptoReActAgent.get_crypto_price := echo_tool;
     CryptoReActAgent.get_crypto_news := echo_tool |}.

(** The world after some renderables have been drawn and the script has
    been read. *)
Definition drawn (rs : list renderable) : world :=
  {| script := []; console := rs |}.

(** Responses used in the examples. *)
Definition answer_42 : string :=
  "Thought: I now know the final answer" +:+ nl +:+ "Final Answer: 42".

Definition answer_twice : string := "Final Answer: 42 Final Answer: 43".

Definition search_nothing : string :=
  "Thought: look it up" +:+ nl +:+ "Action: search" +:+ nl +:+ "Action Input: {}".

Definition search_bitcoin : string :=
  "Thought: look it up" +:+ nl +:+ "Action: search" +:+ nl
  +:+ "Action Input: bitcoin".

(** The mock record of the price tool, as far as the signal rule reads it. *)
Definition mock_price_data : list (string * pyval) :=
  [("symbol", VStr "BTC"); ("current_price", VInt 50000);
   ("total_volume", VInt 50000000000);
   ("price_change_percentage_24h", VFloat (FFin 1.2))].

Definition no_webhooks : NotificationTool.self :=
  {| NotificationTool.slack_webhook := EmptyString;
     NotificationTool.discord_webhook := EmptyString |}.

End Demo.

(** ** Counting the calls of a run *)

Definition is_tool_call (e : event) : bool :=
  match e with ToolCall _ _ => true | LLMCall _ => false end.

(** The number of tool invocations among the events. *)
Fixpoint tool_calls (es : list event) : nat :=
  match es with
  | [] => 0
  | e :: es' => (if is_tool_call e then 1 else 0) + tool_calls es'
  end.

(** A line that [_parse_action] passes over. *)
Definition plain_line (line : string) : Prop :=
  startswith "Action:" line = false /\ startswith "Action Input:" line = false.

(** ** Reading articles *)

(** The title read from an article that is a mapping, the empty text when
    it has none. *)
Definition title_of (article : pyval) : pyval :=
  match article with
  | VDict d => default (VStr EmptyString) (dict_lookup d "title")
  | _ => VNone
  end.

Definition is_dict (v : pyval) : Prop :=
  match v with VDict _ => True | _ => False end.

(** The three labels of a recommendation. *)
Definition is_label (v : pyval) : Prop :=
  v = VStr "BUY" \/ v = VStr "HOLD" \/ v = VStr "SELL".

(** ** The services behind the data tools *)

(** What the tools of [tools/crypto_tools.py], [tools/search_tools.py] and
    the e-mail notifier reach outside the repository. *)
Class Services (W : Type) := {
  (** [str.upper] and [str.lower] *)
  str_upper : string -> string;
  str_lower : string -> string;
  (** [requests.get(url, params=..., headers=..., timeout=10)], then
      [raise_for_status()], then [response.json()] *)
  requests_get_json : string -> pyval -> pyval -> M W pyval;
  (** [requests.post(url, json=payload, timeout=10)], then
      [raise_for_status()], then [response.json()] *)
  requests_post_json : string -> pyval -> M W pyval;
  (** whether an exception that came from outside is a
      [requests.exceptions.RequestException] *)
  from_requests : exn -> bool;
  (** [format(value, ",.2f")], as the f-string of the log line does *)
  format_money : pyval -> res string;
  (** the float [0.9 - (i * 0.1)] *)
  mock_score : nat -> pyfloat;
  (** an SMTP session on host and port: [starttls], [login] with the user
      and the password, [send_message] *)
  smtp_send : string -> Z -> string -> string -> pyval -> M W unit;
}.

(** [isinstance(e, RequestException)]: the exceptions raised by the code
    modelled here ([TypeError], [AttributeError], ...) are not. *)
Definition is_request_exception {W} `{Services W} (e : exn) : bool :=
  match exn_cls e with
  | OtherException => from_requests e
  | _ => false
  end.

(** [try: body except cls as e: handler e], for the class that [catches]
    recognises; the other exceptions go through. *)
Definition try_except_class {S A} (catches : exn -> bool) (body : M S A)
           (handler : exn -> M S A) : M S A :=
  fun s =>
    match body s with
    | (Ok a, s') => (Ok a, s')
    | (Raise e, s') => if catches e then handler e s' else (Raise e, s')
    end.

(** The indices of [range(n)]: [n] has to be an [int] (a [bool] is one). *)
Definition py_range (n : pyval) : res (list nat) :=
  match n with
  | VInt z => Ok (seq 0 (Z.to_nat z))
  | VBool b => Ok (seq 0 (if b then 1 else 0))
  | _ => Raise (Exn TypeError ("'" +:+ type_name n +:+ "' object cannot be interpreted as an integer"))
  end.

(** [x.upper()]: only a [str] has the method. *)
Definition py_upper {W} `{Services W} (x : pyval) : res string :=
  match x with
  | VStr s => Ok (str_upper s)
  | _ => Raise (no_attribute x "upper")
  end.

Definition py_lower {W} `{Services W} (x : pyval) : res string :=
  match x with
  | VStr s => Ok (str_lower s)
  | _ => Raise (no_attribute x "lower")
  end.

(** The doubles written [1.2] and [0.5]. *)
Definition double_1_2 : pyfloat := FFin (5404319552844595 # 4503599627370496).
Definition double_0_5 : pyfloat := FFin (1 # 2).

(** The first keyword argument that the signature does not name. *)
Fixpoint first_unexpected (params : list string) (kwargs : list (string * pyval))
  : option string :=
  match kwargs with
  | [] => None
  | (k, _) :: rest =>
      if existsb (String.eqb k) params then first_unexpected params rest
      else Some k
  end.

(** ** [tools/crypto_tools.py] *)

Module CryptoPriceTool.

(** The key read from the environment by [__init__]. *)
Record self := { api_key : string }.

Definition name : string := "get_crypto_price".
Definition run_module : string := "tools.crypto_tools".
Definition run_name : string := "CryptoPriceTool.run".
Definition description : string :=
  "Get current price, market cap, volume, and 24h change for a cryptocurrency. Input should be a symbol like 'BTC' or 'ETH'.".
Definition base_url : string := "https://api.coingecko.com/api/v3".

Definition symbol_map : list (string * string) :=
  [("BTC", "bitcoin"); ("ETH", "ethereum"); ("BNB", "binancecoin");
   ("SOL", "solana"); ("ADA", "cardano"); ("XRP", "ripple");
   ("DOT", "polkadot"); ("DOGE", "dogecoin"); ("AVAX", "avalanche-2");
   ("MATIC", "matic-network"); ("LINK", "chainlink"); ("UNI", "uniswap");
   ("ATOM", "cosmos"); ("LTC", "litecoin"); ("BCH", "bitcoin-cash")].

Fixpoint map_lookup (m : list (string * string)) (k : string) : option string :=
  match m with
  | [] => None
  | (k', v) :: m' => if String.eqb k' k then Some v else map_lookup m' k
  end.

Section Methods.
Context {W : Type} `{Runtime W} `{Services W}.

(** [symbol_map.get(symbol.upper(), symbol.lower())]: both arguments are
    evaluated. *)
Definition _get_coin_id (symbol : pyval) : res string :=
  (up <- py_upper symbol ;;
   low <- py_lower symbol ;;
   Ok (default low (map_lookup symbol_map up)))%res.

(** [market_data.get(field, {}).get("usd", 0)] *)
Definition usd_of (market_data : pyval) (field : string) : res pyval :=
  (quotes <- py_get market_data field (VDict []) ;;
   py_get quotes "usd" (VInt 0))%res.

(** The record built from the answer of the API. *)
Definition live_record (symbol data : pyval) : res pyval :=
  (market_data <- py_get data "market_data" (VDict []) ;;
   up <- py_upper symbol ;;
   name <- py_get data "name" (VStr EmptyString) ;;
   current_price <- usd_of market_data "current_price" ;;
   market_cap <- usd_of market_data "market_cap" ;;
   total_volume <- usd_of market_data "total_volume" ;;
   price_change_24h <- py_get market_data "price_change_24h" (VInt 0) ;;
   price_change_percentage_24h <-
     py_get market_data "price_change_percentage_24h" (VInt 0) ;;
   market_cap_rank <- py_get market_data "market_cap_rank" (VInt 0) ;;
   high_24h <- usd_of market_data "high_24h" ;;
   low_24h <- usd_of market_data "low_24h" ;;
   ath <- usd_of market_data "ath" ;;
   atl <- usd_of market_data "atl" ;;
   Ok (VDict [("symbol", VStr up); ("name", name);
              ("current_price", current_price); ("market_cap", market_cap);
              ("total_volume", total_volume);
              ("price_change_24h", price_change_24h);
              ("price_change_percentage_24h", price_change_percentage_24h);
              ("market_cap_rank", market_cap_rank);
              ("high_24h", high_24h); ("low_24h", low_24h);
              ("ath", ath); ("atl", atl)]))%res.

(** The record returned when the request has failed. *)
Definition mock_record (symbol : pyval) : res pyval :=
  (up <- py_upper symbol ;;
   let btc := String.eqb up "BTC" in
   Ok (VDict [("symbol", VStr up); ("name", symbol);
              ("current_price", VInt (if btc then 50000 else 3000));
              ("market_cap", VInt 1000000000000);
              ("total_volume", VInt 50000000000);
              ("price_change_24h", VInt 500);
              ("price_change_percentage_24h", VFloat double_1_2);
              ("market_cap_rank", VInt 1);
              ("high_24h", VInt (if btc then 51000 else 3100));
              ("low_24h", VInt (if btc then 49000 else 2900));
              ("ath", VInt (if btc then 69000 else 4800));
              ("atl", if btc then VInt 100 else VFloat double_0_5);
              ("_note", VStr "Mock data - API error occurred")]))%res.

Definition request_params : pyval :=
  VDict [("localization", VStr "false"); ("tickers", VStr "false");
         ("market_data", VStr "true"); ("community_data", VStr "false");
         ("developer_data", VStr "false")].

Definition request_headers (tool : self) : pyval :=
  if String.eqb (api_key tool) EmptyString then VDict []
  else VDict [("x-cg-pro-api-key", VStr (api_key tool))].

(** [run(symbol)]: only a [RequestException] leads to the mock record. *)
Definition run (tool : self) (symbol : pyval) : M W pyval :=
  try_except_class is_request_exception
    (coin_id <- lift_res (_get_coin_id symbol) ;;
     let url := base_url +:+ "/coins/" +:+ coin_id in
     data <- requests_get_json url request_params (request_headers tool) ;;
     result <- lift_res (live_record symbol data) ;;
     (* the log line formats the current price *)
     lift_res (format_money
                 (match result with
                  | VDict d => default VNone (dict_lookup d "current_price")
                  | _ => VNone
                  end)) ;;;
     ret result)%M
    (fun e => lift_res (mock_record symbol)).

(** [run], called with keyword arguments: a keyword that is no parameter
    is refused first, then a missing [symbol]. *)
Definition call (tool : self) (kwargs : list (string * pyval)) : M W pyval :=
  match first_unexpected ["symbol"] kwargs with
  | Some keyword =>
      raise (Exn TypeError (call_error run_module run_name (UnexpectedKeyword keyword)))
  | None =>
      match dict_lookup kwargs "symbol" with
      | Some symbol => run tool symbol
      | None =>
          raise (Exn TypeError (call_error run_module run_name (MissingArgument "symbol")))
      end
  end.
End Methods.

End CryptoPriceTool.

Module CryptoNewsTool.

Definition name : string := "get_crypto_news".
Definition run_module : string := "tools.crypto_tools".
Definition run_name : string := "CryptoNewsTool.run".
Definition description : string :=
  "Get latest news articles about a cryptocurrency. Input should be a symbol like 'BTC' or 'ETH'.".

Section Methods.
Context {W : Type} `{Runtime W} `{Services W}.

Definition news_templates (symbol : pyval) : list string :=
  [py_format symbol +:+ " reaches new milestone as institutional adoption grows";
   "Analysts predict bullish trend for " +:+ py_format symbol +:+ " in coming weeks";
   "Major exchange lists " +:+ py_format symbol +:+ " trading pairs";
   py_format symbol +:+ " network upgrade scheduled for next month";
   "Whale activity detected in " +:+ py_format symbol +:+ " markets"].

Definition article (templates : list string) (i : nat) : pyval :=
  VDict [("title", VStr (nth (i mod length templates) templates EmptyString));
         ("source", VStr "CryptoNews");
         ("url", VStr ("https://example.com/news/" +:+ str_of_nat i));
         ("published_at", VStr "2024-01-15");
         ("sentiment", VStr "neutral")].

(** [run(symbol, limit=5)] *)
Definition run (symbol limit : pyval) : res pyval :=
  match
    (let templates := news_templates symbol in
     indices <- py_range limit ;;
     let articles := map (article templates) indices in
     up <- py_upper symbol ;;
     Ok (VDict [("symbol", VStr up);
                ("article_count", VInt (Z.of_nat (length articles)));
                ("articles", VList articles)]))%res
  with
  | Ok result => Ok result
  | Raise _ =>
      (up <- py_upper symbol ;;
       Ok (VDict [("symbol", VStr up); ("article_count", VInt 0);
                  ("articles", VList [])]))%res
  end.

(** [run], called with keyword arguments. *)
Definition call (kwargs : list (string * pyval)) : M W pyval :=
  match first_unexpected ["symbol"; "limit"] kwargs with
  | Some keyword =>
      raise (Exn TypeError (call_error run_module run_name (UnexpectedKeyword keyword)))
  | None =>
      match dict_lookup kwargs "symbol" with
      | Some symbol =>
          lift_res (run symbol (default (VInt 5) (dict_lookup kwargs "limit")))
      | None =>
          raise (Exn TypeError (call_error run_module run_name (MissingArgument "symbol")))
      end
  end.
End Methods.

End CryptoNewsTool.

(** ** [tools/search_tools.py] *)

Module TavilySearchTool.

(** The key read from the environment by [__init__]. *)
Record self := { api_key : string }.

Definition name : string := "search".
Definition run_module : string := "tools.search_tools".
Definition run_name : string := "TavilySearchTool.run".
Definition description : string :=
  "Search the web for information. Input should be a search query string.".
Definition base_url : string := "https://api.tavily.com/search".

Section Methods.
Context {W : Type} `{Runtime W} `{Services W}.

Definition mock_result (query : pyval) (i : nat) : pyval :=
  VDict [("title", VStr ("Result " +:+ str_of_nat (i + 1) +:+ " for "
                         +:+ py_format query));
         ("url", VStr ("https://example.com/result-" +:+ str_of_nat (i + 1)));
         ("content", VStr ("This is mock content for result "
                           +:+ str_of_nat (i + 1) +:+ " about "
                           +:+ py_format query +:+ "."));
         ("score", VFloat (mock_score i))].

Definition _mock_search (query max_results : pyval) : res pyval :=
  (let answer :=
     "This is a simulated answer for: " +:+ py_format query
     +:+ ". The Tavily API key is not configured." in
   indices <- py_range max_results ;;
   Ok (VDict [("query", query); ("answer", VStr answer);
              ("results", VList (map (mock_result query) indices))]))%res.

Definition live_result (result : pyval) : res pyval :=
  (title <- py_get result "title" (VStr EmptyString) ;;
   url <- py_get result "url" (VStr EmptyString) ;;
   content <- py_get result "content" (VStr EmptyString) ;;
   score <- py_get result "score" (VInt 0) ;;
   Ok (VDict [("title", title); ("url", url); ("content", content);
              ("score", score)]))%res.

Definition live_results (query data : pyval) : res pyval :=
  (answer <- py_get data "answer" (VStr EmptyString) ;;
   found <- py_get data "results" (VList []) ;;
   items <- py_iter found ;;
   results <- res_map live_result items ;;
   Ok (VDict [("query", query); ("answer", answer);
              ("results", VList results)]))%res.

Definition request_payload (tool : self) (query max_results : pyval) : pyval :=
  VDict [("api_key", VStr (api_key tool)); ("query", query);
         ("max_results", max_results); ("search_depth", VStr "basic");
         ("include_answer", VBool true)].

(** [run(query, max_results=5)] *)
Definition run (tool : self) (query max_results : pyval) : M W pyval :=
  if String.eqb (api_key tool) EmptyString then
    lift_res (_mock_search query max_results)
  else
    try_except
      (data <- requests_post_json base_url (request_payload tool query max_results) ;;
       lift_res (live_results query data))%M
      (fun e => lift_res (_mock_search query max_results)).

(** [run], called with keyword arguments. *)
Definition call (tool : self) (kwargs : list (string * pyval)) : M W pyval :=
  match first_unexpected ["query"; "max_results"] kwargs with
  | Some keyword =>
      raise (Exn TypeError (call_error run_module run_name (UnexpectedKeyword keyword)))
  | None =>
      match dict_lookup kwargs "query" with
      | Some query =>
          run tool query (default (VInt 5) (dict_lookup kwargs "max_results"))
      | None =>
          raise (Exn TypeError (call_error run_module run_name (MissingArgument "query")))
      end
  end.
End Methods.

End TavilySearchTool.

(** ** [EmailNotificationTool] of [tools/notification_tools.py] *)

Module EmailNotificationTool.

(** The SMTP settings read from the environment by [__init__]. *)
Record self := {
  smtp_host : string;
  smtp_port : Z;
  smtp_user : string;
  smtp_password : string;
}.

Section Methods.
Context {W : Type} `{Runtime W} `{Services W}.

(** [run(to, subject, body, from_email=None)]; [from_email] is [None] or a
    text, and [from_email or self.smtp_user] takes the user for both
    [None] and the empty text. *)
Definition run (tool : self) (to subject body : string) (from_email : option string)
  : M W pyval :=
  if String.eqb (smtp_user tool) EmptyString
     || String.eqb (smtp_password tool) EmptyString then
    ret (VDict [("success", VBool false);
                ("error", VStr "Email credentials not configured")])
  else
    try_except
      (let sender := if truthy_str from_email then default EmptyString from_email
                     else smtp_user tool in
       let msg := VDict [("From", VStr sender); ("To", VStr to);
                         ("Subject", VStr subject); ("body", VStr body)] in
       smtp_send (smtp_host tool) (smtp_port tool) (smtp_user tool)
                 (smtp_password tool) msg ;;;
       ret (VDict [("success", VBool true); ("to", VStr to);
                   ("subject", VStr subject)]))%M
      (fun e => ret (VDict [("success", VBool false); ("error", VStr (exn_msg e))])).
End Methods.

End EmailNotificationTool.

(** ** The agents with the tools of the repository *)

Section Wiring.
Context {W : Type} `{Runtime W} `{Services W}.

(** [_init_tools] of [CryptoAnalysisGraph]: the nodes call
    [run(symbol=symbol)] on the price tool and on the news tool. *)
Definition graph_with_tools (verbose : bool) (llm : string -> M W string)
           (price : CryptoPriceTool.self) (notifier : NotificationTool.self)
  : CryptoAnalysisGraph.self W :=
  {| CryptoAnalysisGraph.verbose := verbose;
     CryptoAnalysisGraph.llm_client := llm;
     CryptoAnalysisGraph.price_tool := CryptoPriceTool.run price;
     CryptoAnalysisGraph.news_tool :=
       fun symbol => lift_res (CryptoNewsTool.run symbol (VInt 5));
     CryptoAnalysisGraph.notification_tool := notifier |}.

(** [_init_tools] of [CryptoReActAgent]: the three tools under their names. *)
Definition agent_with_tools (max_iterations : Z) (verbose : bool)
           (llm : string -> M W string)
           (search : TavilySearchTool.self) (price : CryptoPriceTool.self)
  : CryptoReActAgent.self W :=
  {| CryptoReActAgent.max_iterations := max_iterations;
     CryptoReActAgent.verbose := verbose;
     CryptoReActAgent.llm_client := llm;
     CryptoReActAgent.search :=
       {| CryptoReActAgent.description := TavilySearchTool.description;
          CryptoReActAgent.run_module := TavilySearchTool.run_module;
          CryptoReActAgent.run_name := TavilySearchTool.run_name;
          CryptoReActAgent.tool_run := TavilySearchTool.call search |};
     CryptoReActAgent.get_crypto_price :=
       {| CryptoReActAgent.description := CryptoPriceTool.description;
          CryptoReActAgent.run_module := CryptoPriceTool.run_module;
          CryptoReActAgent.run_name := CryptoPriceTool.run_name;
          CryptoReActAgent.tool_run := CryptoPriceTool.call price |};
     CryptoReActAgent.get_crypto_news :=
       {| CryptoReActAgent.description := CryptoNewsTool.description;
          CryptoReActAgent.run_module := CryptoNewsTool.run_module;
          CryptoReActAgent.run_name := CryptoNewsTool.run_name;
          CryptoReActAgent.tool_run := CryptoNewsTool.call |} |}.
End Wiring.

(** ** Scripted services, for the examples *)

Module Lab.

(** Upper case of the ASCII letters. *)
Definition upper_char (c : ascii) : ascii :=
  let n := nat_of_ascii c in
  if (97 <=? n) && (n <=? 122) then ascii_of_nat (n - 32) else c.

Definition lower_char (c : ascii) : ascii :=
  let n := nat_of_ascii c in
  if (65 <=? n) && (n <=? 90) then ascii_of_nat (n + 32) else c.

Fixpoint map_chars (f : ascii -> ascii) (s : string) : string :=
  match s with
  | EmptyString => EmptyString
  | String c s' => String (f c) (map_chars f s')
  end.

(** Services with the network down: every request fails with a
    [RequestException]; mail goes through. *)
#[global] Instance offline : Services Demo.world := {|
  str_upper := map_chars upper_char;
  str_lower := map_chars lower_char;
  requests_get_json := fun url params headers =>
    raise (Exn OtherException "ConnectionError");
  requests_post_json := fun url payload =>
    raise (Exn OtherException "ConnectionError");
  from_requests := fun e => true;
  format_money := fun v => Ok "0.00";
  mock_score := fun i => FFin (9 # 10);
  smtp_send := fun host port user password msg => ret tt;
|}.

Definition coingecko : CryptoPriceTool.self := {| CryptoPriceTool.api_key := EmptyString |}.
Definition tavily : TavilySearchTool.self := {| TavilySearchTool.api_key := EmptyString |}.

Definition failing_llm (prompt : string) : M Demo.world string :=
  raise (Exn OtherException "APIConnectionError").

Definition graph (llm : string -> M Demo.world string)
  : CryptoAnalysisGraph.self Demo.world :=
  graph_with_tools true llm coingecko Demo.no_webhooks.

Definition agent (budget : Z) : CryptoReActAgent.self Demo.world :=
  agent_with_tools budget true Demo.scripted_llm tavily coingecko.

Definition musing : string := "I wonder what the user means.".

Definition two_actions : string :=
  "Action: search" +:+ nl +:+ "Action: get_crypto_price" +:+ nl
  +:+ "Action Input: {}".

Definition price_bitcoin : string :=
  "Action: get_crypto_price" +:+ nl +:+ "Action Input: BTC".

(** A price tool that quotes a fixed record. *)
Definition quoting (record : list (string * pyval)) : pyval -> M Demo.world pyval :=
  fun _ => ret (VDict record).

(** A record whose 24h change is the null of the API. *)
Definition null_change : list (string * pyval) :=
  [("symbol", VStr "BTC"); ("current_price", VInt 50000);
   ("total_volume", VInt 50000000000);
   ("price_change_percentage_24h", VNone)].

(** A record of a rally: +7.5 %. *)
Definition rally : list (string * pyval) :=
  [("symbol", VStr "BTC"); ("current_price", VInt 50000);
   ("total_volume", VInt 50000000000);
   ("price_change_percentage_24h", VFloat (FFin (15 # 2)))].

Definition graph_of (price news : pyval -> M Demo.world pyval)
           (llm : string -> M Demo.world string)
  : CryptoAnalysisGraph.self Demo.world :=
  {| CryptoAnalysisGraph.verbose := true;
     CryptoAnalysisGraph.llm_client := llm;
     CryptoAnalysisGraph.price_tool := price;
     CryptoAnalysisGraph.news_tool := news;
     CryptoAnalysisGraph.notification_tool := Demo.no_webhooks |}.

(** Four news items, the last of which is not a mapping. *)
Definition four_items : list pyval :=
  [VDict [("title", VStr "BTC up")]; VDict [("source", VStr "wire")];
   VDict [("title", VStr "ETH flat")]; VStr "advertisement"].

(** An answer of the price service: Bitcoin, up 6.25 %. *)
Definition bitcoin_answer : pyval :=
  VDict [("name", VStr "Bitcoin");
         ("market_data",
           VDict [("current_price", VDict [("usd", VInt 50000)]);
                  ("total_volume", VDict [("usd", VInt 20000000000)]);
                  ("price_change_percentage_24h", VFloat (FFin (25 # 4)))])].

(** Services whose price service answers. *)
Definition online : Services Demo.world := {|
  str_upper := map_chars upper_char;
  str_lower := map_chars lower_char;
  requests_get_json := fun url params headers => ret bitcoin_answer;
  requests_post_json := fun url payload =>
    raise (Exn OtherException "ConnectionError");
  from_requests := fun e => true;
  format_money := fun v => Ok "50,000.00";
  mock_score := fun i => FFin (9 # 10);
  smtp_send := fun host port user password msg => ret tt;
|}.

(** Services whose price service answers with a list. *)
Definition confused : Services Demo.world := {|
  str_upper := map_chars upper_char;
  str_lower := map_chars lower_char;
  requests_get_json := fun url params headers => ret (VList []);
  requests_post_json := fun url payload =>
    raise (Exn OtherException "ConnectionError");
  from_requests := fun e => true;
  format_money := fun v => Ok "0.00";
  mock_score := fun i => FFin (9 # 10);
  smtp_send := fun host port user password msg => ret tt;
|}.

(** A record of a rally whose name carries a closing tag that nothing
    opens. *)
Definition tagged_rally : list (string * pyval) :=
  [("symbol", VStr "BTC"); ("name", VStr "[/x]"); ("current_price", VInt 50000);
   ("total_volume", VInt 50000000000);
   ("price_change_percentage_24h", VFloat (FFin (15 # 2)))].

(** A decision with such a tag. *)
Definition tagged_decision : string := "BUY [/b] now".

(** What a verbose run on [symbol] has drawn when the collect stage calls
    the price tool, and the table of a record. *)
Definition banners (symbol : string) : list renderable :=
  [Panel (CryptoAnalysisGraph.start_banner symbol);
   Panel (CryptoAnalysisGraph.collect_banner (VStr symbol))].

Definition table_of (symbol : string) (record : list (string * pyval)) : renderable :=
  Table (symbol +:+ " Price Data")
        (map (fun kv => (fst kv, Demo.show (snd kv))) record).

Definition mailer : EmailNotificationTool.self :=
  {| EmailNotificationTool.smtp_host := "smtp.gmail.com";
     EmailNotificationTool.smtp_port := 587;
     EmailNotificationTool.smtp_user := EmptyString;
     EmailNotificationTool.smtp_password := EmptyString |}.

End Lab.

(** * Properties *)

(** ** Numbers *)

Lemma float_gt_above (c : Z) (x : pyfloat) :
  float_gt x (lit c) = true <-> above c x.
Proof.
  unfold float_gt, lit; destruct x as [|pos|q]; simpl.
  - split; [discriminate | tauto].
  - destruct pos; split; auto; discriminate.
  - rewrite Qlt_alt.
    rewrite <- (Qcompare_antisym q (inject_Z c)).
    destruct (q ?= inject_Z c)%Q; simpl; split; auto; discriminate.
Qed.

Lemma at_most_not_above (c : Z) (x : pyfloat) : at_most c x -> ~ above c x.
Proof.
  destruct x as [|pos|q]; simpl; auto.
  - intros ->; discriminate.
  - intros Hle Hlt. exact (Qlt_not_le _ _ Hlt Hle).
Qed.

Lemma at_most_mono (c c' : Z) (x : pyfloat) :
  (c <= c')%Z -> at_most c x -> at_most c' x.
Proof.
  intros Hc; destruct x as [|pos|q]; simpl; auto.
  intros Hq. apply Qle_trans with (inject_Z c); [exact Hq|].
  rewrite <- Zle_Qle. exact Hc.
Qed.

Lemma num_gt_above (c : Z) (v : pyval) (x : pyfloat) (c_type : string) :
  as_float v = Some x -> above c x -> num_gt v (lit c) c_type = Ok true.
Proof.
  intros Hv Hx. unfold num_gt. rewrite Hv. f_equal.
  apply float_gt_above. exact Hx.
Qed.

Lemma num_gt_at_most (c : Z) (v : pyval) (x : pyfloat) (c_type : string) :
  as_float v = Some x -> at_most c x -> num_gt v (lit c) c_type = Ok false.
Proof.
  intros Hv Hx. unfold num_gt. rewrite Hv. f_equal.
  apply not_true_is_false. rewrite float_gt_above.
  apply at_most_not_above. exact Hx.
Qed.

Lemma num_gt_number (v : pyval) (x c : pyfloat) (c_type : string) :
  as_float v = Some x -> num_gt v c c_type = Ok (float_gt x c).
Proof. intros Hv. unfold num_gt. now rewrite Hv. Qed.

(** ** The technical signal deriver *)

(** A case of the rule either is the branch taken, or contradicts what the
    comparisons of the branch have established. *)
Ltac order_case :=
  first
    [ solve [split; reflexivity]
    | exfalso;
      repeat match goal with Hc : _ /\ _ |- _ => destruct Hc end;
      first
        [ tauto
        | match goal with
          | Ha : above ?c ?x, Hm : at_most ?c' ?x |- _ =>
              apply (at_most_not_above c x);
              [apply (at_most_mono c' c); [lia | exact Hm] | exact Ha]
          end ] ].

Section SignalRule.
Context {W : Type} `{Runtime W}.

Variable pd : list (string * pyval).
Variables x y : pyfloat.
Hypothesis change_is : as_float (price_change_of pd) = Some x.
Hypothesis volume_is : as_float (volume_of pd) = Some y.

(** The indicators for a numeric change and a numeric volume: the three
    entries, in the order they are written. *)
Lemma derive_indicators_numeric :
  exists trend signal,
    derive_indicators (VDict pd)
    = Ok [("trend", VStr trend); ("signal", VStr signal);
          ("volume_status",
            VStr (if float_gt y lit_1e9 then "High" else "Normal"))]
    /\ (above 5 x -> trend = "Strong Uptrend" /\ signal = "BUY")
    /\ (above 0 x /\ at_most 5 x -> trend = "Uptrend" /\ signal = "HOLD")
    /\ (above (-5) x /\ at_most 0 x -> trend = "Downtrend" /\ signal = "HOLD")
    /\ (at_most (-5) x -> trend = "Strong Downtrend" /\ signal = "SELL").
Proof.
  unfold derive_indicators, py_get; simpl.
  fold (price_change_of pd) (volume_of pd).
  rewrite (num_gt_number _ _ lit_1e9 _ volume_is).
  rewrite !(num_gt_number _ _ _ _ change_is); simpl.
  destruct (float_gt x (lit 5)) eqn:E5; simpl;
    [apply float_gt_above in E5
    |apply not_true_iff_false in E5; rewrite float_gt_above in E5;
     destruct (float_gt x (lit 0)) eqn:E0; simpl;
     [apply float_gt_above in E0
     |apply not_true_iff_false in E0; rewrite float_gt_above in E0;
      destruct (float_gt x (lit (-5))) eqn:Em; simpl;
      [apply float_gt_above in Em
      |apply not_true_iff_false in Em; rewrite float_gt_above in Em]]].
  all: eexists _, _; split; [reflexivity|].
  all: split; [|split; [|split]]; intros Hc; order_case.
Qed.
End SignalRule.

Section TechnicalAnalysis.
Context {W : Type} `{Runtime W}.
Import CryptoAnalysisGraph.

Lemma indicator_insert (state : AgentState) (d : list (string * pyval)) (k : string) :
  indicator (<["technical_indicators" := VDict d]> state) k = dict_lookup d k.
Proof. unfold indicator. now rewrite lookup_insert_eq. Qed.

(** The node on a numeric change and a numeric volume: it returns, and
    stores the three indicators. *)
Lemma technical_analysis_numeric (g : self W) (state : AgentState) (w : W)
      (pd : list (string * pyval)) (x y : pyfloat) :
  state_get state "price_data" (VDict []) = VDict pd ->
  as_float (price_change_of pd) = Some x ->
  as_float (volume_of pd) = Some y ->
  exists trend signal,
    technical_analysis_node g state w
    = (Ok (<["technical_indicators" :=
               VDict [("trend", VStr trend); ("signal", VStr signal);
                      ("volume_status",
                        VStr (if float_gt y lit_1e9 then "High" else "Normal"))]]>
             state), w)
    /\ (above 5 x -> trend = "Strong Uptrend" /\ signal = "BUY")
    /\ (above 0 x /\ at_most 5 x -> trend = "Uptrend" /\ signal = "HOLD")
    /\ (above (-5) x /\ at_most 0 x -> trend = "Downtrend" /\ signal = "HOLD")
    /\ (at_most (-5) x -> trend = "Strong Downtrend" /\ signal = "SELL").
Proof.
  intros Hpd Hx Hy.
  destruct (derive_indicators_numeric pd x y Hx Hy)
    as (trend & signal & Hd & Hrule).
  exists trend, signal. split; [|exact Hrule].
  unfold technical_analysis_node, try_except, bind, lift_res, ret.
  rewrite Hpd, Hd. reflexivity.
Qed.

(** C1. The technical signal deriver, on any numeric 24h percentage
    change [x] (whatever the current price, and for any numeric volume):
    BUY and "Strong Uptrend" when x > 5; HOLD and "Uptrend" when
    0 < x <= 5; HOLD and "Downtrend" when -5 < x <= 0; SELL and
    "Strong Downtrend" when x <= -5. *)
Theorem technical_signal_rule (g : self W) (state : AgentState) (w : W)
        (pd : list (string * pyval)) (x y : pyfloat) :
  state_get state "price_data" (VDict []) = VDict pd ->
  as_float (price_change_of pd) = Some x ->
  as_float (volume_of pd) = Some y ->
  exists state',
    technical_analysis_node g state w = (Ok state', w)
    /\ (above 5 x ->
        indicator state' "signal" = Some (VStr "BUY")
        /\ indicator state' "trend" = Some (VStr "Strong Uptrend"))
    /\ (above 0 x /\ at_most 5 x ->
        indicator state' "signal" = Some (VStr "HOLD")
        /\ indicator state' "trend" = Some (VStr "Uptrend"))
    /\ (above (-5) x /\ at_most 0 x ->
        indicator state' "signal" = Some (VStr "HOLD")
        /\ indicator state' "trend" = Some (VStr "Downtrend"))
    /\ (at_most (-5) x ->
        indicator state' "signal" = Some (VStr "SELL")
        /\ indicator state' "trend" = Some (VStr "Strong Downtrend")).
Proof.
  intros Hpd Hx Hy.
  destruct (technical_analysis_numeric g state w pd x y Hpd Hx Hy)
    as (trend & signal & Hrun & H1 & H2 & H3 & H4).
  eexists; split; [exact Hrun|].
  rewrite !indicator_insert; simpl.
  repeat apply conj; intros Hc;
    [destruct (H1 Hc) as [-> ->] | destruct (H2 Hc) as [-> ->]
    |destruct (H3 Hc) as [-> ->] | destruct (H4 Hc) as [-> ->]];
    split; reflexivity.
Qed.

(** C6. The volume status is "High" exactly when the 24h volume [y] is
    above 1,000,000,000, and "Normal" otherwise; at 1e9 itself it is
    "Normal". *)
Theorem volume_status_rule (g : self W) (state : AgentState) (w : W)
        (pd : list (string * pyval)) (x y : pyfloat) :
  state_get state "price_data" (VDict []) = VDict pd ->
  as_float (price_change_of pd) = Some x ->
  as_float (volume_of pd) = Some y ->
  exists state',
    technical_analysis_node g state w = (Ok state', w)
    /\ (indicator state' "volume_status" = Some (VStr "High")
        <-> above 1000000000 y)
    /\ (indicator state' "volume_status" = Some (VStr "Normal")
        <-> ~ above 1000000000 y)
    /\ (y = lit 1000000000 ->
        indicator state' "volume_status" = Some (VStr "Normal")).
Proof.
  intros Hpd Hx Hy.
  destruct (technical_analysis_numeric g state w pd x y Hpd Hx Hy)
    as (trend & signal & Hrun & _).
  eexists; split; [exact Hrun|].
  rewrite !indicator_insert; simpl.
  change lit_1e9 with (lit 1000000000).
  pose proof (float_gt_above 1000000000 y) as Hgt.
  assert (Hb : y = lit 1000000000 -> float_gt y (lit 1000000000) = false).
  { intros ->. reflexivity. }
  destruct (float_gt y (lit 1000000000)) eqn:E.
  - split; [|split].
    + split; [intros _; now apply Hgt | reflexivity].
    + split; [discriminate | intros Hn; exfalso; apply Hn; now apply Hgt].
    + intros Heq. specialize (Hb Heq). discriminate.
  - assert (Hn : ~ above 1000000000 y).
    { intros Ha. apply Hgt in Ha. discriminate. }
    split; [|split].
    + split; [discriminate | intros Ha; contradiction].
    + split; [intros _; exact Hn | reflexivity].
    + reflexivity.
Qed.
End TechnicalAnalysis.

(** ** Handlers that swallow *)

(** A [try] whose handler returns, returns. *)
Lemma try_except_returns {S A} (body : M S A) (handler : exn -> M S A) (s : S) :
  (forall e s', exists a s'', handler e s' = (Ok a, s'')) ->
  exists a s', try_except body handler s = (Ok a, s').
Proof.
  intros Hh. unfold try_except.
  destruct (body s) as [[a|e] s']; [eexists _, _; reflexivity | apply Hh].
Qed.

(** ** The notification tool *)

Section Notification.
Context {W : Type} `{Runtime W}.

(** A message that goes to the console: the tool reports what the console
    did with it, and does not raise. *)
Lemma run_on_console
      (tool : NotificationTool.self) (message channel : string) (w : W) :
  channel <> "slack" -> channel <> "discord" ->
  NotificationTool.run tool message channel w
  = match console_print (Panel message) w with
    | (Ok _, w') => (Ok (NotificationTool.delivered "console" message), w')
    | (Raise e, w') =>
        (Ok (NotificationTool.failure (VStr channel) (exn_msg e)), w')
    end.
Proof.
  intros Hs Hd.
  unfold NotificationTool.run, NotificationTool._send_console, try_except, bind, ret.
  apply String.eqb_neq in Hs, Hd. rewrite Hs, Hd.
  destruct (String.eqb channel "console");
    destruct (console_print (Panel message) w) as [[u|e] w']; reflexivity.
Qed.

(** C10, as the code has it. A channel name outside console, slack and
    discord does not make [NotificationTool.run] raise: the message goes to
    the console.  When the console draws it, the mapping returned has
    success = True, channel = "console" and the message; when the console
    raises, the mapping has success = False, the channel name that was
    given and the text of the error. *)
Theorem unknown_channel_goes_to_console
        (tool : NotificationTool.self) (message channel : string) (w : W) :
  channel <> "console" -> channel <> "slack" -> channel <> "discord" ->
  (forall w', console_print (Panel message) w = (Ok tt, w') ->
     NotificationTool.run tool message channel w
     = (Ok (VDict [("success", VBool true); ("channel", VStr "console");
                   ("message", VStr message)]), w'))
  /\ (forall e w', console_print (Panel message) w = (Raise e, w') ->
        NotificationTool.run tool message channel w
        = (Ok (VDict [("success", VBool false); ("channel", VStr channel);
                      ("error", VStr (exn_msg e))]), w')).
Proof.
  intros _ Hs Hd. rewrite (run_on_console tool message channel w Hs Hd).
  split; [intros w' -> | intros e w' ->]; reflexivity.
Qed.
End Notification.

(** ** The fixed-stage workflow *)

Section Workflow.
Context {W : Type} `{Runtime W}.
Import CryptoAnalysisGraph.

Variable g : self W.

(** What each node returns: the state it was given, with its own field
    written; or it raises, before any write, when the symbol is missing or
    (collect stage) when its banner cannot be drawn. *)
Lemma collect_data_node_shape (state : AgentState) (w : W) :
  match state !! "symbol" with
  | Some symbol =>
      match announce_collect g symbol w with
      | (Ok _, w0) =>
          exists price_data w',
            collect_data_node g state w
            = (Ok (<["price_data" := price_data]> state), w')
            /\ (forall e w1, price_tool g symbol w0 = (Raise e, w1) ->
                price_data = VDict [] /\ w' = w1)
      | (Raise e, w0) => collect_data_node g state w = (Raise e, w0)
      end
  | None => exists e, collect_data_node g state w = (Raise e, w)
  end.
Proof.
  unfold collect_data_node, state_item, bind, try_except, ret, raise.
  destruct (state !! "symbol") as [symbol|]; [|eexists; reflexivity].
  destruct (announce_collect g symbol w) as [[u|e] w0]; [|reflexivity].
  destruct (price_tool g symbol w0) as [[pd|e] w1] eqn:Etool.
  - destruct (show_prices g symbol pd w1) as [[u'|e] w2];
      eexists _, _; (split; [reflexivity | intros ? ? [=]]).
  - eexists _, _; split; [reflexivity|]. intros ? ? [= <- <-]. now split.
Qed.

Lemma technical_analysis_node_shape (state : AgentState) (w : W) :
  exists indicators,
    technical_analysis_node g state w
    = (Ok (<["technical_indicators" := VDict indicators]> state), w).
Proof.
  unfold technical_analysis_node, bind, try_except, ret, lift_res.
  destruct (derive_indicators _); eexists; reflexivity.
Qed.

Lemma sentiment_analysis_node_shape (state : AgentState) (w : W) :
  match state !! "symbol" with
  | Some symbol =>
      exists sentiment w',
        sentiment_analysis_node g state w
        = (Ok (<["sentiment_data" := sentiment]> state), w')
  | None => exists e, sentiment_analysis_node g state w = (Raise e, w)
  end.
Proof.
  unfold sentiment_analysis_node, state_item, bind, try_except, ret, raise, lift_res.
  destruct (state !! "symbol") as [symbol|]; [|eexists; reflexivity].
  destruct (news_tool g symbol w) as [[news|e] w1].
  - destruct (sentiment_of news); eexists _, _; reflexivity.
  - eexists _, _; reflexivity.
Qed.

Lemma generate_decision_node_shape (state : AgentState) (w : W) :
  match state !! "symbol" with
  | Some symbol =>
      exists decision w',
        generate_decision_node g state w
        = (Ok (<["decision" := VStr decision]> state), w')
  | None => exists e, generate_decision_node g state w = (Raise e, w)
  end.
Proof.
  unfold generate_decision_node, state_item, bind, try_except, ret, raise.
  destruct (state !! "symbol") as [symbol|]; [|eexists; reflexivity].
  destruct (llm_client g _ w) as [[text|e] w1]; [|eexists _, _; reflexivity].
  destruct (show_decision g text w1) as [[u|e] w2]; eexists _, _; reflexivity.
Qed.

Lemma notification_node_shape (state : AgentState) (w : W) :
  exists w', notification_node g state w = (Ok state, w').
Proof.
  unfold notification_node.
  match goal with
  | |- context [try_except ?body ?handler] =>
      destruct (try_except_returns body handler w) as (u & w' & Hm)
  end.
  { intros e s. eexists _, _. reflexivity. }
  unfold bind at 1. rewrite Hm. eexists; reflexivity.
Qed.
End Workflow.

Section WorkflowFrame.
Context {W : Type} `{Runtime W}.
Import CryptoAnalysisGraph.

(** C8. Each stage writes only its own field of the state: collect only
    [price_data], technical analysis only [technical_indicators],
    sentiment only [sentiment_data], decision only [decision], and notify
    none; every other field (symbol, action, messages, analysis_result and
    the fields of the other stages) is as the stage found it. *)
Theorem stages_write_own_field
        (g : self W) (state state' : AgentState) (w w' : W) (k : string) :
  (collect_data_node g state w = (Ok state', w') ->
   k <> "price_data" -> state' !! k = state !! k)
  /\ (technical_analysis_node g state w = (Ok state', w') ->
      k <> "technical_indicators" -> state' !! k = state !! k)
  /\ (sentiment_analysis_node g state w = (Ok state', w') ->
      k <> "sentiment_data" -> state' !! k = state !! k)
  /\ (generate_decision_node g state w = (Ok state', w') ->
      k <> "decision" -> state' !! k = state !! k)
  /\ (notification_node g state w = (Ok state', w') -> state' = state).
Proof.
  repeat apply conj.
  - intros Hrun Hk.
    pose proof (collect_data_node_shape g state w) as Hs.
    destruct (state !! "symbol") as [symbol|] eqn:Esym.
    + destruct (announce_collect g symbol w) as [[u|e] w0].
      * destruct Hs as (pd & w1 & Heq & _). rewrite Heq in Hrun.
        injection Hrun as <- _. now rewrite lookup_insert_ne.
      * rewrite Hs in Hrun. discriminate.
    + destruct Hs as (e & Heq). rewrite Heq in Hrun. discriminate.
  - intros Hrun Hk.
    destruct (technical_analysis_node_shape g state w) as (ind & Heq).
    rewrite Heq in Hrun. injection Hrun as <- _. now rewrite lookup_insert_ne.
  - intros Hrun Hk.
    pose proof (sentiment_analysis_node_shape g state w) as Hs.
    destruct (state !! "symbol") eqn:Esym.
    + destruct Hs as (sd & w1 & Heq). rewrite Heq in Hrun.
      injection Hrun as <- _. now rewrite lookup_insert_ne.
    + destruct Hs as (e & Heq). rewrite Heq in Hrun. discriminate.
  - intros Hrun Hk.
    pose proof (generate_decision_node_shape g state w) as Hs.
    destruct (state !! "symbol") eqn:Esym.
    + destruct Hs as (d & w1 & Heq). rewrite Heq in Hrun.
      injection Hrun as <- _. now rewrite lookup_insert_ne.
    + destruct Hs as (e & Heq). rewrite Heq in Hrun. discriminate.
  - intros Hrun.
    destruct (notification_node_shape g state w) as (w1 & Heq).
    rewrite Heq in Hrun. now injection Hrun as <- _.
Qed.
End WorkflowFrame.

Section WorkflowRun.
Context {W : Type} `{Runtime W}.
Import CryptoAnalysisGraph.

Lemma initial_state_symbol (symbol action : string) :
  initial_state symbol action !! "symbol" = Some (VStr symbol).
Proof. unfold initial_state. apply lookup_insert_eq. Qed.

(** With no price data the indicators are those of a zero change and a
    zero volume. *)
Lemma technical_analysis_no_data (g : self W) (state : AgentState) (w : W) :
  state !! "price_data" = Some (VDict []) ->
  technical_analysis_node g state w
  = (Ok (<["technical_indicators" :=
             VDict [("trend", VStr "Downtrend"); ("signal", VStr "HOLD");
                    ("volume_status", VStr "Normal")]]> state), w).
Proof.
  intros Hpd. unfold technical_analysis_node, state_get.
  rewrite Hpd. reflexivity.
Qed.

(** The result is read from the final state. *)
Lemma make_result_of (symbol : string) (state : AgentState)
      (indicators : list (string * pyval)) :
  state !! "technical_indicators" = Some (VDict indicators) ->
  make_result symbol state
  = Ok {| ar_symbol := symbol;
          recommendation := default (VStr "HOLD") (dict_lookup indicators "signal");
          confidence := 0.75;
          reasoning := state_get state "decision" (VStr EmptyString);
          data := [("price_data", state_get state "price_data" (VDict []));
                   ("technical_indicators", VDict indicators);
                   ("sentiment_data", state_get state "sentiment_data" (VDict []))] |}.
Proof.
  intros Hti. unfold make_result, state_get. rewrite Hti. reflexivity.
Qed.

(** A run, once its banner is drawn, is its workflow and the reading of
    the result. *)
Lemma run_after_banner (g : self W) (symbol action : string) (w w0 : W) :
  console_print (Panel (start_banner symbol)) w = (Ok tt, w0) ->
  run g symbol action w
  = match workflow g (initial_state symbol action) w0 with
    | (Ok final_state, w') => (make_result symbol final_state, w')
    | (Raise e, w') => (Raise e, w')
    end.
Proof.
  intros Hb. unfold run. unfold bind at 1. rewrite Hb. unfold bind, lift_res.
  destruct (workflow g _ w0) as [[final|e] w']; reflexivity.
Qed.


(** The stages before the decision do not depend on the LLM: either they
    raise (the banner of the collect stage), whatever the LLM, or they
    reach a state in which the workflow ends with the decision written,
    whatever the LLM. *)
Lemma workflow_shape (g : self W) (symbol action : string) (w : W) :
  (exists e w', forall llm,
      workflow (with_llm_client g llm) (initial_state symbol action) w
      = (Raise e, w'))
  \/ (exists (s3 : AgentState) (indicators : list (string * pyval)),
        s3 !! "technical_indicators" = Some (VDict indicators)
        /\ forall llm, exists d w5,
            workflow (with_llm_client g llm) (initial_state symbol action) w
            = (Ok (<["decision" := VStr d]> s3), w5)).
Proof.
  set (s0 := initial_state symbol action).
  assert (Hsym0 : s0 !! "symbol" = Some (VStr symbol))
    by apply initial_state_symbol.
  pose proof (collect_data_node_shape g s0 w) as Hc.
  rewrite Hsym0 in Hc.
  destruct (announce_collect g (VStr symbol) w) as [[u|e] w0].
  2:{ left. exists e, w0. intros llm. unfold workflow, bind.
      change (collect_data_node (with_llm_client g llm) s0 w)
        with (collect_data_node g s0 w).
      now rewrite Hc. }
  right. destruct Hc as (pd & w1 & Hc & _).
  set (s1 := <["price_data" := pd]> s0) in *.
  destruct (technical_analysis_node_shape g s1 w1) as (ind & Ht).
  set (s2 := <["technical_indicators" := VDict ind]> s1) in *.
  assert (Hsym2 : s2 !! "symbol" = Some (VStr symbol)).
  { subst s2 s1. rewrite !lookup_insert_ne by discriminate. exact Hsym0. }
  pose proof (sentiment_analysis_node_shape g s2 w1) as Hs.
  rewrite Hsym2 in Hs. destruct Hs as (sd & w3 & Hs).
  set (s3 := <["sentiment_data" := sd]> s2) in *.
  assert (Hsym3 : s3 !! "symbol" = Some (VStr symbol)).
  { subst s3. rewrite lookup_insert_ne by discriminate. exact Hsym2. }
  exists s3, ind. split.
  { subst s3 s2. rewrite lookup_insert_ne by discriminate. apply lookup_insert_eq. }
  intros llm.
  pose proof (generate_decision_node_shape (with_llm_client g llm) s3 w3) as Hd.
  rewrite Hsym3 in Hd. destruct Hd as (d & w4 & Hd).
  destruct (notification_node_shape (with_llm_client g llm)
              (<["decision" := VStr d]> s3) w4) as (w5 & Hn).
  exists d, w5.
  unfold workflow, bind. fold s0.
  change (collect_data_node (with_llm_client g llm) s0 w)
    with (collect_data_node g s0 w).
  rewrite Hc.
  change (technical_analysis_node (with_llm_client g llm) s1 w1)
    with (technical_analysis_node g s1 w1).
  rewrite Ht.
  change (sentiment_analysis_node (with_llm_client g llm) s2 w1)
    with (sentiment_analysis_node g s2 w1).
  rewrite Hs, Hd, Hn. reflexivity.
Qed.

(** C9. Two runs that differ only in the LLM of the decision stage: when
    one returns a result, so does the other, with the same recommendation
    and the same confidence, the constant 0.75; the symbol and the data are
    the same too: the text of the LLM reaches the reasoning field only. *)
Theorem decision_text_reaches_reasoning_only
        (g : self W) (llm1 llm2 : string -> M W string)
        (symbol action : string) (w : W) (r1 : AnalysisResult) (w1 : W) :
  run (with_llm_client g llm1) symbol action w = (Ok r1, w1) ->
  exists r2 w2,
    run (with_llm_client g llm2) symbol action w = (Ok r2, w2)
    /\ recommendation r1 = recommendation r2
    /\ confidence r1 = 0.75%Q
    /\ confidence r2 = 0.75%Q
    /\ ar_symbol r1 = ar_symbol r2
    /\ data r1 = data r2.
Proof.
  intros Hrun1.
  destruct (console_print (Panel (start_banner symbol)) w) as [[[]|e] w0] eqn:Hb.
  2:{ unfold run in Hrun1. unfold bind at 1 in Hrun1. rewrite Hb in Hrun1.
      discriminate. }
  rewrite (run_after_banner _ symbol action w w0 Hb) in Hrun1.
  rewrite (run_after_banner _ symbol action w w0 Hb).
  destruct (workflow_shape g symbol action w0)
    as [(e & w' & Hraise) | (s3 & ind & Hti & Hrun)].
  { rewrite Hraise in Hrun1. discriminate. }
  destruct (Hrun llm1) as (d1 & w1' & H1).
  destruct (Hrun llm2) as (d2 & w2 & H2).
  assert (Hres : forall d,
    make_result symbol (<["decision" := VStr d]> s3)
    = Ok {| ar_symbol := symbol;
            recommendation := default (VStr "HOLD") (dict_lookup ind "signal");
            confidence := 0.75;
            reasoning := VStr d;
            data := [("price_data", state_get s3 "price_data" (VDict []));
                     ("technical_indicators", VDict ind);
                     ("sentiment_data", state_get s3 "sentiment_data" (VDict []))] |}).
  { intros d. rewrite (make_result_of symbol _ ind).
    - unfold state_get. rewrite lookup_insert_eq.
      rewrite !lookup_insert_ne by discriminate. reflexivity.
    - rewrite lookup_insert_ne by discriminate. exact Hti. }
  rewrite H1, Hres in Hrun1. rewrite H2, Hres.
  injection Hrun1 as <- _.
  eexists _, w2. split; [reflexivity|]. repeat split.
Qed.
End WorkflowRun.

(** ** Strings *)

Section Splitting.
Variable sep : string.
Hypothesis sep_nonempty : sep <> EmptyString.

Lemma startswith_empty : startswith sep EmptyString = false.
Proof. destruct sep; [contradiction | reflexivity]. Qed.

Lemma split_from_skip (k : nat) (s : string) :
  split_from sep k s = split_from sep 0 (str_drop k s).
Proof.
  revert k; induction s as [|c s IH]; intros [|k]; try reflexivity.
  simpl. apply IH.
Qed.

Lemma split_from_nonempty (k : nat) (s : string) : split_from sep k s <> [].
Proof.
  revert k; induction s as [|c s IH]; intros k; simpl; [discriminate|].
  destruct k as [|k]; [|apply IH].
  destruct (startswith sep (String c s)); [discriminate|].
  destruct (split_from sep 0 s); discriminate.
Qed.

(** [split] by [find]: the text before the first separator, then the
    pieces of what follows it. *)
Lemma split_find (s : string) :
  split sep s
  = match find sep s with
    | None => [s]
    | Some j => str_take j s :: split sep (str_drop (j + String.length sep) s)
    end.
Proof.
  unfold split. induction s as [|c s IH].
  - simpl. rewrite startswith_empty. reflexivity.
  - cbn [split_from find].
    destruct (startswith sep (String c s)) eqn:E.
    + rewrite split_from_skip.
      destruct sep as [|a sep']; [contradiction|].
      cbn [String.length Nat.sub Nat.add str_drop str_take].
      now rewrite Nat.sub_0_r.
    + rewrite IH. destruct (find sep s) as [j|]; reflexivity.
Qed.

Lemma split_head (s : string) :
  split sep s !! 0 = Some (up_to_marker sep s).
Proof.
  rewrite split_find. unfold up_to_marker.
  destruct (find sep s); reflexivity.
Qed.

(** [s.split(sep)[1]] when [sep] first occurs at index [i]. *)
Lemma split_second (s : string) (i : nat) :
  find sep s = Some i ->
  split sep s !! 1 = Some (up_to_marker sep (after_marker sep i s)).
Proof.
  intros Hi. rewrite split_find, Hi. cbn [lookup list_lookup].
  apply split_head.
Qed.

Lemma contains_find (s : string) :
  contains sep s = true <-> exists i, find sep s = Some i.
Proof.
  induction s as [|c s IH]; cbn [contains find].
  - rewrite startswith_empty. split; [discriminate | intros [i [=]]].
  - destruct (startswith sep (String c s)); simpl.
    + split; eauto.
    + rewrite IH. split; intros [i Hi].
      * rewrite Hi. eexists; reflexivity.
      * destruct (find sep s); [eauto | discriminate].
Qed.
End Splitting.

(** ** The ReAct loop *)

Section ReAct.
Context {W : Type} `{Runtime W}.
Import CryptoReActAgent.

Variable agent : self W.
Variable question : string.

(** A tool execution, spelled out: it always returns an observation. *)
Lemma _execute_tool_eq (a : string) (action_input : pyval) (s : state W) :
  _execute_tool agent a action_input s
  = match tools_lookup (tools agent) a with
    | None => (Ok ("Error: Tool '" +:+ a +:+ "' not found."), s)
    | Some tool =>
        match action_input with
        | VDict kwargs =>
            let events' := events s ++ [ToolCall a kwargs] in
            match tool_run tool kwargs (world s) with
            | (Ok result, w) =>
                (Ok (py_str result),
                 {| world := w; history := history s; events := events' |})
            | (Raise e, w) =>
                (Ok ("Error executing " +:+ a +:+ ": " +:+ exn_msg e),
                 {| world := w; history := history s; events := events' |})
            end
        | _ => (Ok ("Error executing " +:+ a +:+ ": "
                    +:+ call_error (run_module tool) (run_name tool)
                                 (NotAMapping action_input)), s)
        end
    end.
Proof.
  unfold _execute_tool.
  destruct (tools_lookup (tools agent) a) as [tool|]; [|reflexivity].
  unfold try_except, bind, emit, on_world, raise, ret.
  destruct action_input; try reflexivity.
  cbn [world history events].
  destruct (tool_run tool d (world s)) as [[result|e] w]; reflexivity.
Qed.

Lemma llm_calls_app (es es' : list event) :
  llm_calls (es ++ es') = llm_calls es + llm_calls es'.
Proof. induction es as [|e es IH]; simpl; [reflexivity | rewrite IH; lia]. Qed.

Lemma _execute_tool_returns (a : string) (action_input : pyval) (s : state W) :
  exists o s',
    _execute_tool agent a action_input s = (Ok o, s')
    /\ history s' = history s
    /\ llm_calls (events s') = llm_calls (events s).
Proof.
  rewrite _execute_tool_eq.
  destruct (tools_lookup (tools agent) a) as [tool|];
    [|eexists _, _; repeat apply conj; reflexivity].
  destruct action_input;
    try (eexists _, _; repeat apply conj; reflexivity).
  cbv zeta.
  destruct (tool_run tool d (world s)) as [[result|e] w];
    eexists _, _; (split; [reflexivity|]); cbn [history events];
    rewrite llm_calls_app; simpl; split; auto; lia.
Qed.

(** The step of a response that is not final, spelled out. *)
Lemma make_step_eq (response : string) (s : state W) :
  make_step agent response s
  = let '(thought, action, action_input) := parse_response response in
    if truthy_str action && truthy action_input then
      match _execute_tool agent (default EmptyString action) action_input s with
      | (Ok o, s') =>
          (Ok {| thought := thought; action := action;
                 action_input := action_input; observation := Some o |}, s')
      | (Raise e, s') => (Raise e, s')
      end
    else
      (Ok {| thought := thought; action := action;
             action_input := action_input; observation := None |}, s).
Proof.
  unfold make_step.
  destruct (parse_response response) as [[thought action] action_input].
  unfold bind, ret.
  destruct (truthy_str action && truthy action_input); [|reflexivity].
  destruct (_execute_tool agent _ action_input s) as [[o|e] s']; reflexivity.
Qed.

(** Making a step never raises and leaves the history alone. *)
Lemma make_step_returns (response : string) (s : state W) :
  exists step s',
    make_step agent response s = (Ok step, s')
    /\ history s' = history s
    /\ llm_calls (events s') = llm_calls (events s).
Proof.
  rewrite make_step_eq.
  destruct (parse_response response) as [[thought action] action_input].
  destruct (truthy_str action && truthy action_input).
  - destruct (_execute_tool_returns (default EmptyString action) action_input s)
      as (o & s' & -> & Hh & Hc).
    eexists _, s'. repeat apply conj; [reflexivity | exact Hh | exact Hc].
  - eexists _, s. repeat apply conj; reflexivity.
Qed.

(** One iteration, spelled out. *)
Lemma iteration_eq (s : state W) :
  iteration agent question s
  = let prompt := prompt_for agent question (history s) in
    match llm_client agent prompt (world s) with
    | (Raise e, w1) => (Raise e, called s prompt w1)
    | (Ok response, w1) =>
        let s1 := called s prompt w1 in
        if contains "Final Answer:" response then
          match list_index (split "Final Answer:" response) 1 with
          | Ok final_answer =>
              match console_print (PanelMarkdown (strip final_answer)) w1 with
              | (Ok _, w2) => (Ok (Some (strip final_answer)), with_world s1 w2)
              | (Raise e, w2) => (Raise e, with_world s1 w2)
              end
          | Raise e => (Raise e, s1)
          end
        else
          match make_step agent response s1 with
          | (Ok step, s2) =>
              let '(r, w3) := displayed agent step (world s2) in
              (r, with_world (appended s2 step) w3)
          | (Raise e, s2) => (Raise e, s2)
          end
    end.
Proof.
  unfold iteration, _call_llm. unfold bind at 1. unfold get_history.
  unfold bind at 1. unfold bind at 1. unfold emit, on_world at 1.
  cbn [world history events]. unfold called.
  destruct (llm_client agent _ (world s)) as [[response|e] w1]; [|reflexivity].
  destruct (contains "Final Answer:" response).
  - unfold bind, lift_res, ret, on_world. cbn [world history events].
    destruct (list_index _ 1) as [final_answer|e]; [|reflexivity].
    destruct (console_print _ w1) as [[u|e] w2]; reflexivity.
  - unfold bind at 1.
    destruct (make_step agent response _) as [[step|e] s2]; [|reflexivity].
    unfold bind, get_history, set_history, on_world, ret, displayed.
    cbn [world history events].
    destruct (_display_step agent step (world s2)) as [[u|e] w3]; reflexivity.
Qed.

(** An iteration leaves the history as it was, or appends one step to
    it. *)
Lemma iteration_history (s : state W) :
  history (snd (iteration agent question s)) = history s
  \/ exists step,
      history (snd (iteration agent question s)) = history s ++ [step].
Proof.
  rewrite iteration_eq. cbv zeta.
  destruct (llm_client agent _ (world s)) as [[response|e] w1]; [|left; reflexivity].
  destruct (contains "Final Answer:" response).
  { destruct (list_index _ 1); [|left; reflexivity].
    destruct (console_print _ w1) as [[u|e] w2]; left; reflexivity. }
  match goal with |- context [make_step agent response ?s1] =>
    destruct (make_step_returns response s1) as (step & s2 & -> & Hh & _) end.
  destruct (displayed agent step (world s2)) as [r w3].
  right. exists step. cbn [snd with_world appended history]. now rewrite Hh.
Qed.
End ReAct.

Section ReActRun.
Context {W : Type} `{Runtime W}.
Import CryptoReActAgent.

Variable agent : self W.
Variable question : string.

Lemma final_answer_marker_nonempty : "Final Answer:" <> EmptyString.
Proof. discriminate. Qed.

(** A run, spelled out: the history is emptied, the banner drawn, and the
    loop entered unless the banner has raised. *)
Lemma run_eq (s : state W) :
  run agent question s
  = match console_print (Panel (question_banner question)) (world s) with
    | (Ok _, w0) =>
        loop agent question (Z.to_nat (max_iterations agent))
             {| world := w0; history := []; events := events s |}
    | (Raise e, w0) =>
        (Raise e, {| world := w0; history := []; events := events s |})
    end.
Proof.
  unfold run. unfold bind at 1. cbn [set_history].
  unfold bind at 1. unfold on_world. cbn [world history events].
  destruct (console_print _ (world s)) as [[u|e] w0]; reflexivity.
Qed.

Lemma run_after_banner_loop (s : state W) (w0 : W) :
  console_print (Panel (question_banner question)) (world s) = (Ok tt, w0) ->
  run agent question s
  = loop agent question (Z.to_nat (max_iterations agent))
         {| world := w0; history := []; events := events s |}.
Proof. intros Hb. rewrite run_eq, Hb. reflexivity. Qed.

(** An iteration whose response carries the marker. *)
Lemma iteration_final (s : state W) (response : string) (w1 : W) (i : nat) :
  llm_client agent (prompt_for agent question (history s)) (world s)
  = (Ok response, w1) ->
  find "Final Answer:" response = Some i ->
  let answer :=
    strip (up_to_marker "Final Answer:" (after_marker "Final Answer:" i response)) in
  iteration agent question s
  = match console_print (PanelMarkdown answer) w1 with
    | (Ok _, w2) =>
        (Ok (Some answer),
         with_world (called s (prompt_for agent question (history s)) w1) w2)
    | (Raise e, w2) =>
        (Raise e,
         with_world (called s (prompt_for agent question (history s)) w1) w2)
    end.
Proof.
  intros Hllm Hfind. rewrite iteration_eq. cbv zeta. rewrite Hllm.
  assert (Hc : contains "Final Answer:" response = true).
  { apply contains_find; [discriminate | eauto]. }
  rewrite Hc. unfold list_index.
  rewrite (split_second _ final_answer_marker_nonempty _ _ Hfind).
  reflexivity.
Qed.

(** C2, as the code has it. When the response of the LLM contains
    "Final Answer:", and the console draws the panel of the answer, the
    iteration returns at once, without adding a step to the history, the
    trimmed text that stands between the first occurrence of the marker and
    the next one (the end of the response when the marker does not occur
    again).  When this happens in the first iteration of a run with a
    positive budget, whose banner the console has drawn, [run] returns that
    text after one LLM call and the history is empty; it is exactly "42"
    when the response ends, after its first marker, with " 42". *)
Theorem final_answer_returned
        (s : state W) (response : string) (w0 w1 w2 : W) (i : nat) :
  find "Final Answer:" response = Some i ->
  let answer :=
    strip (up_to_marker "Final Answer:" (after_marker "Final Answer:" i response)) in
  (llm_client agent (prompt_for agent question (history s)) (world s)
   = (Ok response, w1) ->
   console_print (PanelMarkdown answer) w1 = (Ok tt, w2) ->
   exists s', iteration agent question s = (Ok (Some answer), s')
              /\ history s' = history s)
  /\ (console_print (Panel (question_banner question)) (world s) = (Ok tt, w0) ->
      llm_client agent (prompt_for agent question []) w0 = (Ok response, w1) ->
      console_print (PanelMarkdown answer) w1 = (Ok tt, w2) ->
      (0 < max_iterations agent)%Z ->
      exists s', run agent question s = (Ok answer, s')
                 /\ history s' = []
                 /\ llm_calls (events s') = llm_calls (events s) + 1)
  /\ (after_marker "Final Answer:" i response = " 42" -> answer = "42").
Proof.
  intros Hfind answer. split; [|split; [|subst answer; intros ->; reflexivity]].
  - intros Hllm Hshow.
    rewrite (iteration_final s response w1 i Hllm Hfind). cbv zeta.
    fold answer. rewrite Hshow. eexists; split; reflexivity.
  - intros Hbanner Hllm Hshow Hmax.
    rewrite (run_after_banner_loop s w0 Hbanner).
    destruct (Z.to_nat (max_iterations agent)) as [|n] eqn:En; [lia|].
    cbn [loop]. unfold bind at 1.
    rewrite (iteration_final _ response w1 i); [|exact Hllm | exact Hfind].
    cbv zeta. fold answer. rewrite Hshow.
    eexists; split; [reflexivity|]. split; [reflexivity|].
    cbn [with_world called events]. rewrite llm_calls_app. reflexivity.
Qed.

(** The loop when no response is final and every step is displayed. *)
Lemma loop_without_final_answer (n : nat) (s : state W) :
  (forall prompt w, exists response w',
      llm_client agent prompt w = (Ok response, w')
      /\ contains "Final Answer:" response = false
      /\ shows agent response) ->
  exists s',
    loop agent question n s = (Ok "Max iterations reached.", s')
    /\ llm_calls (events s') = llm_calls (events s) + n.
Proof.
  intros Hllm. revert s; induction n as [|n IH]; intros s.
  { eexists; split; [reflexivity|]. lia. }
  cbn [loop]. unfold bind at 1. rewrite iteration_eq. cbv zeta.
  destruct (Hllm (prompt_for agent question (history s)) (world s))
    as (response & w1 & Hr & Hc & Hshows).
  rewrite Hr, Hc.
  set (s1 := called s _ w1).
  assert (Hs1 : llm_calls (events s1) = llm_calls (events s) + 1).
  { subst s1. cbn [called events]. now rewrite llm_calls_app. }
  destruct (make_step_returns agent response s1) as (step & s2 & Hstep & _ & Hcalls).
  rewrite Hstep.
  destruct (Hshows s1 step s2 Hstep) as (w3 & Hdisplay).
  unfold displayed. rewrite Hdisplay.
  match goal with |- context [loop agent question n ?s3] =>
    destruct (IH s3) as (s' & Hloop & Hn) end.
  exists s'. split; [exact Hloop|].
  rewrite Hn. cbn [with_world appended events]. lia.
Qed.

(** C3, as the code has it. Let the console draw the banner of the run
    and every step (nothing is displayed by an agent that is not verbose).
    When no response of the LLM contains "Final Answer:", [run] returns
    the fixed message "Max iterations reached." after exactly
    [max_iterations] invocations of the LLM. *)
Theorem budget_exhausted (s : state W) (w0 : W) :
  console_print (Panel (question_banner question)) (world s) = (Ok tt, w0) ->
  (forall prompt w, exists response w',
      llm_client agent prompt w = (Ok response, w')
      /\ contains "Final Answer:" response = false
      /\ shows agent response) ->
  exists s',
    run agent question s = (Ok "Max iterations reached.", s')
    /\ llm_calls (events s')
       = llm_calls (events s) + Z.to_nat (max_iterations agent)
    /\ ((0 <= max_iterations agent)%Z ->
        (Z.of_nat (llm_calls (events s')) - Z.of_nat (llm_calls (events s))
         = max_iterations agent)%Z).
Proof.
  intros Hbanner Hllm. rewrite (run_after_banner_loop s w0 Hbanner).
  match goal with |- context [loop agent question ?n ?s0] =>
    destruct (loop_without_final_answer n s0 Hllm) as (s' & Hloop & Hn) end.
  exists s'. split; [exact Hloop|].
  cbn [events] in Hn. split; [exact Hn|]. intros Hmax. lia.
Qed.

(** An agent that is not verbose displays nothing. *)
Lemma quiet_agent_shows (response : string) :
  verbose agent = false -> shows agent response.
Proof.
  intros Hq s step s' _. unfold _display_step, when. rewrite Hq.
  eexists; reflexivity.
Qed.
End ReActRun.

Section ReActSteps.
Context {W : Type} `{Runtime W}.
Import CryptoReActAgent.

Variable agent : self W.
Variable question : string.

(** The registry is searched by exact name. *)
Lemma tools_lookup_In (a : string) (tool : Tool W) :
  tools_lookup (tools agent) a = Some tool <-> In (a, tool) (tools agent).
Proof.
  unfold tools. cbn [tools_lookup In].
  destruct (String.eqb_spec "search" a) as [<-|N1].
  { split; [intros [= <-]; auto|].
    intros [[= <-]|[[=]|[[=]|[]]]]. reflexivity. }
  destruct (String.eqb_spec "get_crypto_price" a) as [<-|N2].
  { split; [intros [= <-]; auto|].
    intros [[=]|[[= <-]|[[=]|[]]]]. reflexivity. }
  destruct (String.eqb_spec "get_crypto_news" a) as [<-|N3].
  { split; [intros [= <-]; auto|].
    intros [[=]|[[=]|[[= <-]|[]]]]. reflexivity. }
  split; [discriminate|].
  intros [[= E _]|[[= E _]|[[= E _]|[]]]]; congruence.
Qed.

(** The thought is what precedes the first "Action:", without the word
    "Thought:" and trimmed. *)
Lemma parse_response_of (response : string) (a : option string) (v : pyval) :
  _parse_action response = Ok (a, v) ->
  parse_response response
  = (strip (replace "Thought:" EmptyString (up_to_marker "Action:" response)), a, v).
Proof.
  intros Hp. unfold parse_response, list_index.
  rewrite split_head by discriminate.
  cbn [res_bind]. rewrite Hp. reflexivity.
Qed.

(** C4, as the code has it. Let the parser extract an action name [a] and
    an action input from a response that is not final. The iteration adds
    one step, with that name and that input. A tool is looked up only when
    the name is not empty and the input is truthy: then a registered tool
    of exactly that name is called with the input as keyword arguments and
    the observation is its serialized result, or the text of the error
    when it raises or when the input is not a mapping; and a name that is
    not registered gives the observation "Error: Tool '...' not found.".
    With an empty name or a falsy input (such as an empty mapping) no tool
    is called and the step has no observation.  Once the step is in the
    history it is displayed, and the iteration goes on to the next one
    unless the display raises. *)
Theorem action_dispatch (s : state W) (response : string) (w1 : W)
        (a : string) (action_input : pyval) :
  let prompt := prompt_for agent question (history s) in
  llm_client agent prompt (world s) = (Ok response, w1) ->
  contains "Final Answer:" response = false ->
  _parse_action response = Ok (Some a, action_input) ->
  exists s' r obs,
    let step :=
      {| thought :=
           strip (replace "Thought:" EmptyString (up_to_marker "Action:" response));
         action := Some a; action_input := action_input; observation := obs |} in
    iteration agent question s = (r, s')
    /\ history s' = history s ++ [step]
    /\ (a = EmptyString \/ truthy action_input = false ->
        obs = None /\ events s' = events s ++ [LLMCall prompt]
        /\ displayed agent step w1 = (r, world s'))
    /\ (a <> EmptyString -> truthy action_input = true ->
        ((forall tool, ~ In (a, tool) (tools agent)) ->
         obs = Some ("Error: Tool '" +:+ a +:+ "' not found.")
         /\ events s' = events s ++ [LLMCall prompt]
         /\ displayed agent step w1 = (r, world s'))
        /\ (forall tool, In (a, tool) (tools agent) ->
            match action_input with
            | VDict kwargs =>
                events s' = events s ++ [LLMCall prompt; ToolCall a kwargs]
                /\ match tool_run tool kwargs w1 with
                   | (Ok result, w2) =>
                       obs = Some (py_str result)
                       /\ displayed agent step w2 = (r, world s')
                   | (Raise e, w2) =>
                       obs = Some ("Error executing " +:+ a +:+ ": " +:+ exn_msg e)
                       /\ displayed agent step w2 = (r, world s')
                   end
            | _ =>
                obs = Some ("Error executing " +:+ a +:+ ": "
                            +:+ call_error (run_module tool) (run_name tool)
                                 (NotAMapping action_input))
                /\ events s' = events s ++ [LLMCall prompt]
                /\ displayed agent step w1 = (r, world s')
            end)).
Proof.
  intros prompt Hllm Hc Hp.
  rewrite iteration_eq. cbv zeta. fold prompt. rewrite Hllm, Hc.
  rewrite make_step_eq, (parse_response_of response _ _ Hp).
  change (default EmptyString (Some a)) with a. cbn [truthy_str].
  destruct (String.eqb_spec a EmptyString) as [Ea|Na]; cbn [negb andb].
  { match goal with |- context [displayed agent ?step ?w] =>
      destruct (displayed agent step w) as [r w3] eqn:Ed end.
    eexists _, r, None. split; [reflexivity|]. split; [reflexivity|].
    split; [intros _; repeat apply conj; try reflexivity; exact Ed
           | intros N; contradiction]. }
  destruct (truthy action_input) eqn:Et.
  2:{ match goal with |- context [displayed agent ?step ?w] =>
        destruct (displayed agent step w) as [r w3] eqn:Ed end.
      eexists _, r, None. split; [reflexivity|]. split; [reflexivity|].
      split; [intros _; repeat apply conj; try reflexivity; exact Ed
             | intros _ [=]]. }
  rewrite _execute_tool_eq. cbn [called world history events].
  destruct (tools_lookup (tools agent) a) as [tool|] eqn:El.
  - apply tools_lookup_In in El.
    assert (Huniq : forall tool', In (a, tool') (tools agent) -> tool' = tool).
    { intros tool' Hin. apply tools_lookup_In in Hin, El. congruence. }
    destruct action_input as [| | | | |l|kwargs].
    1-6: match goal with |- context [displayed agent ?step ?w] =>
           destruct (displayed agent step w) as [r w3] eqn:Ed end;
      eexists _, r, _; (split; [reflexivity|]); (split; [reflexivity|]);
      (split; [intros [E|E]; [contradiction|discriminate]|]); intros _ _;
      (split; [intros Hno; destruct (Hno tool El)|]);
      intros tool' Hin; rewrite (Huniq tool' Hin);
      repeat apply conj; try reflexivity; exact Ed.
    cbv zeta.
    destruct (tool_run tool kwargs w1) as [[result|e] w2] eqn:Erun;
      cbn [world];
      match goal with |- context [displayed agent ?step ?w] =>
        destruct (displayed agent step w) as [r w3] eqn:Ed end;
      eexists _, r, _; (split; [reflexivity|]); (split; [reflexivity|]);
      (split; [intros [E|E]; [contradiction|discriminate]|]); intros _ _;
      (split; [intros Hno; destruct (Hno tool El)|]);
      intros tool' Hin; rewrite (Huniq tool' Hin), Erun;
      cbn [with_world appended events world]; rewrite <- app_assoc;
      repeat apply conj; try reflexivity; exact Ed.
  - match goal with |- context [displayed agent ?step ?w] =>
      destruct (displayed agent step w) as [r w3] eqn:Ed end.
    eexists _, r, _. split; [reflexivity|]. split; [reflexivity|].
    split; [intros [E|E]; [contradiction|discriminate]|]. intros _ _.
    split; [intros _; repeat apply conj; try reflexivity; exact Ed|].
    intros tool Hin. apply tools_lookup_In in Hin. congruence.
Qed.

(** The states of the loop: the i-th one has made at most i steps. *)
Lemma loop_states_bound (n : nat) (s : state W) (i : nat) (si : state W) :
  loop_states agent question n s !! i = Some si ->
  i <= n /\ length (history si) <= length (history s) + i.
Proof.
  revert s i; induction n as [|n IH]; intros s i Hi.
  { destruct i as [|i]; [|discriminate]. injection Hi as <-. lia. }
  destruct i as [|i]; [injection Hi as <-; lia|].
  cbn [loop_states] in Hi. rewrite lookup_cons_ne_0 in Hi by lia.
  cbn [Nat.pred] in Hi.
  pose proof (iteration_history agent question s) as Hh.
  destruct (iteration agent question s) as [[[a|]|e] s'] eqn:Eit;
    cbn [snd] in Hh.
  - destruct i; [|discriminate]. injection Hi as <-.
    destruct Hh as [->|(step & ->)]; [|rewrite length_app; cbn [length]]; lia.
  - apply IH in Hi. destruct Hh as [Hh|(step & Hh)]; rewrite Hh in Hi;
      [|rewrite length_app in Hi; cbn [length] in Hi]; lia.
  - destruct i; [|discriminate]. injection Hi as <-.
    destruct Hh as [->|(step & ->)]; [|rewrite length_app; cbn [length]]; lia.
Qed.

Lemma loop_states_adjacent (n : nat) (s : state W) (i : nat) (si sj : state W) :
  loop_states agent question n s !! i = Some si ->
  loop_states agent question n s !! S i = Some sj ->
  history sj = history si \/ exists step, history sj = history si ++ [step].
Proof.
  revert s i; induction n as [|n IH]; intros s i Hi Hj; [discriminate|].
  cbn [loop_states] in Hi, Hj. rewrite lookup_cons_ne_0 in Hj by lia.
  cbn [Nat.pred] in Hj.
  pose proof (iteration_history agent question s) as Hh.
  destruct i as [|i].
  - injection Hi as <-.
    assert (Hsj : sj = snd (iteration agent question s)).
    { destruct (iteration agent question s) as [[[a|]|e] s'];
        [injection Hj as <-; reflexivity
        |destruct n; injection Hj as <-; reflexivity
        |injection Hj as <-; reflexivity]. }
    rewrite Hsj. exact Hh.
  - rewrite lookup_cons_ne_0 in Hi by lia. cbn [Nat.pred] in Hi.
    destruct (iteration agent question s) as [[[a|]|e] s'].
    + destruct i; discriminate.
    + exact (IH s' i Hi Hj).
    + destruct i; discriminate.
Qed.

Lemma loop_states_last (n : nat) (s : state W) :
  last (loop_states agent question n s) = Some (snd (loop agent question n s)).
Proof.
  revert s; induction n as [|n IH]; intros s; [reflexivity|].
  cbn [loop_states loop]. unfold bind.
  destruct (iteration agent question s) as [[[a|]|e] s']; try reflexivity.
  rewrite <- IH. destruct n; reflexivity.
Qed.

(** C5. A run starts from an empty history, each iteration adds at most
    one step to it, and at no point of the run, nor at its end, is the
    history longer than the budget [max_iterations]. *)
Theorem history_within_budget (s0 : state W) :
  let states := run_states agent question s0 in
  (exists s, states !! 0 = Some s /\ history s = [])
  /\ (forall i si sj, states !! i = Some si -> states !! S i = Some sj ->
      history sj = history si \/ exists step, history sj = history si ++ [step])
  /\ (forall i si, states !! i = Some si ->
      length (history si) <= i
      /\ length (history si) <= Z.to_nat (max_iterations agent)
      /\ ((0 <= max_iterations agent)%Z ->
          (Z.of_nat (length (history si)) <= max_iterations agent)%Z))
  /\ last states = Some (snd (run agent question s0)).
Proof.
  unfold run_states, run. unfold bind at 1. cbn [set_history snd].
  unfold bind at 1. unfold on_world. cbn [world history events].
  destruct (console_print (Panel (question_banner question)) (world s0))
    as [[u|e] w0].
  - set (start := {| world := w0; history := []; events := events s0 |}).
    repeat apply conj.
    + exists start. split; [|reflexivity].
      destruct (Z.to_nat (max_iterations agent)); reflexivity.
    + intros i si sj. apply loop_states_adjacent.
    + intros i si Hi. apply loop_states_bound in Hi.
      cbn [start history length] in Hi.
      repeat apply conj; [lia | lia | intros Hmax; lia].
    + rewrite loop_states_last. reflexivity.
  - repeat apply conj.
    + eexists. split; reflexivity.
    + intros i si sj _ Hj. discriminate.
    + intros [|i] si Hi; [|discriminate]. injection Hi as <-.
      cbn [history length]. repeat apply conj; [lia | lia | intros Hmax; lia].
    + reflexivity.
Qed.
End ReActSteps.

(** * Examples *)

(** On the mock record of the price tool (+1.2 %, 50e9 of volume) the
    signal is HOLD in an uptrend. *)
Lemma technical_signal_rule_witness :
  exists state',
    CryptoAnalysisGraph.technical_analysis_node
      (Demo.graph (Demo.constant_llm "HOLD"))
      (<["price_data" := VDict Demo.mock_price_data]> ∅) (Demo.start [])
    = (Ok state', Demo.start [])
    /\ indicator state' "signal" = Some (VStr "HOLD")
    /\ indicator state' "trend" = Some (VStr "Uptrend").
Proof.
  destruct (technical_signal_rule
              (Demo.graph (Demo.constant_llm "HOLD"))
              (<["price_data" := VDict Demo.mock_price_data]> ∅) (Demo.start [])
              Demo.mock_price_data (FFin 1.2) (FFin (inject_Z 50000000000)))
    as (state' & Hrun & _ & Hup & _);
    [vm_compute; reflexivity | reflexivity | reflexivity |].
  exists state'. split; [exact Hrun|].
  apply Hup. split; [reflexivity | discriminate].
Defined.

(** The same record has a high volume. *)
Lemma volume_status_rule_witness :
  exists state',
    CryptoAnalysisGraph.technical_analysis_node
      (Demo.graph (Demo.constant_llm "HOLD"))
      (<["price_data" := VDict Demo.mock_price_data]> ∅) (Demo.start [])
    = (Ok state', Demo.start [])
    /\ indicator state' "volume_status" = Some (VStr "High").
Proof.
  destruct (volume_status_rule
              (Demo.graph (Demo.constant_llm "HOLD"))
              (<["price_data" := VDict Demo.mock_price_data]> ∅) (Demo.start [])
              Demo.mock_price_data (FFin 1.2) (FFin (inject_Z 50000000000)))
    as (state' & Hrun & Hhigh & _);
    [vm_compute; reflexivity | reflexivity | reflexivity |].
  exists state'. split; [exact Hrun|].
  apply Hhigh. reflexivity.
Defined.

(** A message for the channel "email" ends on the console. *)
Lemma unknown_channel_goes_to_console_witness :
  NotificationTool.run Demo.no_webhooks "BTC is up" "email" (Demo.start [])
  = (Ok (VDict [("success", VBool true); ("channel", VStr "console");
                ("message", VStr "BTC is up")]),
     Demo.drawn [Panel "BTC is up"]).
Proof.
  destruct (unknown_channel_goes_to_console Demo.no_webhooks "BTC is up" "email"
              (Demo.start [])) as [Hdrawn _]; [discriminate ..|].
  apply Hdrawn. reflexivity.
Defined.

(** C10, as stated, fails on a message with a closing tag that nothing
    opens: rich raises on "BTC [/b] is up", nothing is drawn, and the
    mapping returned reports a failure on the channel "email". *)
Lemma unknown_channel_reports_console_failure :
  "email" <> "console" /\ "email" <> "slack" /\ "email" <> "discord"
  /\ NotificationTool.run Demo.no_webhooks "BTC [/b] is up" "email" (Demo.start [])
     = (Ok (VDict [("success", VBool false); ("channel", VStr "email");
                   ("error",
                     VStr "closing tag '[/b]' at position 4 doesn't match any open tag")]),
        Demo.start [])
  /\ fst (NotificationTool.run Demo.no_webhooks "BTC [/b] is up" "email"
            (Demo.start []))
     <> Ok (VDict [("success", VBool true); ("channel", VStr "console");
                   ("message", VStr "BTC [/b] is up")]).
Proof.
  split; [discriminate|]. split; [discriminate|]. split; [discriminate|].
  split; [reflexivity|]. vm_compute. discriminate.
Qed.

(** The collect stage of a run on BTC, with the price service down, leaves
    the symbol as it was. *)
Lemma stages_write_own_field_witness :
  exists state',
    CryptoAnalysisGraph.collect_data_node
      (Demo.graph (Demo.constant_llm "HOLD"))
      (CryptoAnalysisGraph.initial_state "BTC" "analyze") (Demo.start [])
    = (Ok state', Demo.drawn [Panel "[cyan]Collecting data for BTC...[/cyan]"])
    /\ state' !! "symbol"
       = CryptoAnalysisGraph.initial_state "BTC" "analyze" !! "symbol".
Proof.
  exists (<["price_data" := VDict []]>
            (CryptoAnalysisGraph.initial_state "BTC" "analyze")).
  assert (Hrun :
    CryptoAnalysisGraph.collect_data_node
      (Demo.graph (Demo.constant_llm "HOLD"))
      (CryptoAnalysisGraph.initial_state "BTC" "analyze") (Demo.start [])
    = (Ok (<["price_data" := VDict []]>
             (CryptoAnalysisGraph.initial_state "BTC" "analyze")),
       Demo.drawn [Panel "[cyan]Collecting data for BTC...[/cyan]"]))
    by (vm_compute; reflexivity).
  split; [exact Hrun|].
  destruct (stages_write_own_field
              (Demo.graph (Demo.constant_llm "HOLD"))
              (CryptoAnalysisGraph.initial_state "BTC" "analyze")
              (<["price_data" := VDict []]>
                 (CryptoAnalysisGraph.initial_state "BTC" "analyze"))
              (Demo.start [])
              (Demo.drawn [Panel "[cyan]Collecting data for BTC...[/cyan]"])
              "symbol") as (Hcollect & _).
  apply Hcollect; [exact Hrun | discriminate].
Defined.



(** One LLM says BUY, the other SELL: the recommendation is HOLD in both
    runs. *)
Lemma decision_text_reaches_reasoning_only_witness :
  exists r1 r2 w1 w2,
    CryptoAnalysisGraph.run (Demo.graph (Demo.constant_llm "BUY"))
                            "BTC" "analyze" (Demo.start [])
    = (Ok r1, w1)
    /\ CryptoAnalysisGraph.run (Demo.graph (Demo.constant_llm "SELL"))
                               "BTC" "analyze" (Demo.start [])
       = (Ok r2, w2)
    /\ reasoning r1 = VStr "BUY" /\ reasoning r2 = VStr "SELL"
    /\ recommendation r1 = recommendation r2
    /\ data r1 = data r2.
Proof.
  destruct (CryptoAnalysisGraph.run (Demo.graph (Demo.constant_llm "BUY"))
              "BTC" "analyze" (Demo.start [])) as [[r1|e] w1] eqn:Hrun1;
    [|vm_compute in Hrun1; discriminate].
  destruct (decision_text_reaches_reasoning_only
              (Demo.graph (Demo.constant_llm "HOLD"))
              (Demo.constant_llm "BUY") (Demo.constant_llm "SELL")
              "BTC" "analyze" (Demo.start []) r1 w1 Hrun1)
    as (r2 & w2 & Hrun2 & Hrec & _ & _ & _ & Hdata).
  exists r1, r2, w1, w2. split; [reflexivity|]. split; [exact Hrun2|].
  split; [vm_compute in Hrun1; now injection Hrun1 as <- _|].
  split; [vm_compute in Hrun2; now injection Hrun2 as <- _|].
  split; [exact Hrec | exact Hdata].
Defined.

(** The LLM answers at once. *)
Lemma final_answer_returned_witness :
  exists s',
    CryptoReActAgent.run (Demo.agent 10) "What is six times seven?"
                         (Demo.fresh [Demo.answer_42])
    = (Ok "42", s')
    /\ CryptoReActAgent.history s' = [].
Proof.
  destruct (final_answer_returned (Demo.agent 10) "What is six times seven?"
              (Demo.fresh [Demo.answer_42]) Demo.answer_42
              {| Demo.script := [Demo.answer_42];
                 Demo.console := [Panel "[bold]What is six times seven?[/bold]"] |}
              (Demo.drawn [Panel "[bold]What is six times seven?[/bold]"])
              (Demo.drawn [Panel "[bold]What is six times seven?[/bold]";
                           PanelMarkdown "42"])
              37 eq_refl)
    as (_ & Hrun & _).
  destruct Hrun as (s' & Hr & Hh & _);
    [vm_compute; reflexivity | reflexivity | vm_compute; reflexivity | reflexivity |].
  exists s'. split; [exact Hr | exact Hh].
Defined.

(** C2, as stated, fails when the marker occurs twice: the text after the
    first marker is "42 Final Answer: 43", and the run returns "42". *)
Lemma final_answer_cut_at_second_marker :
  find "Final Answer:" Demo.answer_twice = Some 0
  /\ strip (after_marker "Final Answer:" 0 Demo.answer_twice)
     = "42 Final Answer: 43"
  /\ fst (CryptoReActAgent.run (Demo.agent 10) "What is six times seven?"
            (Demo.fresh [Demo.answer_twice]))
     = Ok "42"
  /\ fst (CryptoReActAgent.run (Demo.agent 10) "What is six times seven?"
            (Demo.fresh [Demo.answer_twice]))
     <> Ok (strip (after_marker "Final Answer:" 0 Demo.answer_twice)).
Proof.
  repeat apply conj; [reflexivity | reflexivity | reflexivity |].
  vm_compute. discriminate.
Qed.

(** Three iterations for a budget of three. *)
Lemma budget_exhausted_witness :
  exists s',
    CryptoReActAgent.run (Demo.stubborn_agent 3) "What is the price of BTC?"
                         (Demo.fresh [])
    = (Ok "Max iterations reached.", s')
    /\ llm_calls (CryptoReActAgent.events s') = 3.
Proof.
  destruct (budget_exhausted (Demo.stubborn_agent 3) "What is the price of BTC?"
              (Demo.fresh [])
              (Demo.drawn [Panel "[bold]What is the price of BTC?[/bold]"]))
    as (s' & Hrun & Hcalls & _).
  { vm_compute; reflexivity. }
  { intros prompt w. exists Demo.undecided, w.
    split; [reflexivity|]. split; [reflexivity|].
    intros s step s1 Hstep. vm_compute in Hstep.
    injection Hstep as <- <-. eexists. reflexivity. }
  exists s'. split; [exact Hrun | exact Hcalls].
Defined.

(** C3, as stated, fails when a response carries a closing tag that
    nothing opens: no response of this LLM is final, yet the run of a
    verbose agent with a budget of three raises the error of rich after
    its first LLM call, when the step is displayed. *)
Lemma stray_tag_ends_run :
  (forall prompt w, exists response w',
      CryptoReActAgent.llm_client (Demo.rambling_agent 3) prompt w
      = (Ok response, w')
      /\ contains "Final Answer:" response = false)
  /\ fst (CryptoReActAgent.run (Demo.rambling_agent 3) "What is the price of BTC?"
            (Demo.fresh []))
     = Raise (Exn MarkupError
                "closing tag '[/b]' at position 4 doesn't match any open tag")
  /\ llm_calls (CryptoReActAgent.events
                  (snd (CryptoReActAgent.run (Demo.rambling_agent 3)
                          "What is the price of BTC?" (Demo.fresh []))))
     = 1.
Proof.
  split; [intros prompt w; exists Demo.stray_tag, w; split; reflexivity|].
  split; vm_compute; reflexivity.
Qed.

(** The LLM asks for a search on "bitcoin": the input is not JSON, it is
    wrapped as a query, the search tool is called and its result recorded. *)
Lemma action_dispatch_witness :
  exists s',
    CryptoReActAgent.iteration (Demo.agent 10) "What is the price of BTC?"
                               (Demo.fresh [Demo.search_bitcoin])
    = (Ok None, s')
    /\ CryptoReActAgent.history s'
       = [{| thought := "look it up"; action := Some "search";
             action_input := VDict [("query", VStr "bitcoin")];
             observation := Some (py_str (VDict [("query", VStr "bitcoin")])) |}]
    /\ CryptoReActAgent.events s'
       = [LLMCall (CryptoReActAgent.prompt_for (Demo.agent 10)
                     "What is the price of BTC?" []);
          ToolCall "search" [("query", VStr "bitcoin")]].
Proof.
  destruct (action_dispatch (Demo.agent 10) "What is the price of BTC?"
              (Demo.fresh [Demo.search_bitcoin]) Demo.search_bitcoin
              (Demo.start []) "search" (VDict [("query", VStr "bitcoin")]))
    as (s' & r & obs & Hrun & Hhist & _ & Hcall);
    [reflexivity | reflexivity | reflexivity |].
  destruct (Hcall ltac:(discriminate) eq_refl) as (_ & Hknown).
  destruct (Hknown Demo.echo_tool (or_introl eq_refl)) as (Hev & Hresult).
  hnf in Hresult. destruct Hresult as (-> & Hshown).
  assert (Hr : r = Ok None) by (vm_compute in Hshown; now injection Hshown).
  subst r. exists s'. split; [exact Hrun|]. split; [exact Hhist | exact Hev].
Defined.

(** C4, as stated, fails on an empty mapping: the parser has extracted the
    registered name "search" and the input [{}], yet no tool is called and
    the step has no observation. *)
Lemma empty_mapping_not_dispatched :
  let s' := snd (CryptoReActAgent.iteration (Demo.agent 10)
                   "What is the price of BTC?" (Demo.fresh [Demo.search_nothing])) in
  contains "Final Answer:" Demo.search_nothing = false
  /\ CryptoReActAgent._parse_action Demo.search_nothing
     = Ok (Some "search", VDict [])
  /\ In ("search", Demo.echo_tool) (CryptoReActAgent.tools (Demo.agent 10))
  /\ CryptoReActAgent.history s'
     = [{| thought := "look it up"; action := Some "search";
           action_input := VDict []; observation := None |}]
  /\ CryptoReActAgent.events s'
     = [LLMCall (CryptoReActAgent.prompt_for (Demo.agent 10)
                   "What is the price of BTC?" [])].
Proof.
  repeat apply conj; [reflexivity | reflexivity | left; reflexivity
                     | vm_compute; reflexivity | vm_compute; reflexivity].
Qed.

(** A run of two iterations: after the second one the history has two
    steps, within the budget of two. *)
Lemma history_within_budget_witness :
  exists si,
    CryptoReActAgent.run_states (Demo.agent 2) "What is the price of BTC?"
      (Demo.fresh [Demo.search_bitcoin; Demo.search_nothing]) !! 2
    = Some si
    /\ length (CryptoReActAgent.history si) <= 2
    /\ (Z.of_nat (length (CryptoReActAgent.history si)) <= 2)%Z.
Proof.
  destruct (history_within_budget (Demo.agent 2) "What is the price of BTC?"
              (Demo.fresh [Demo.search_bitcoin; Demo.search_nothing]))
    as (_ & _ & Hbound & _).
  eexists. split; [vm_compute; reflexivity|].
  match goal with |- length (CryptoReActAgent.history ?si) <= _ /\ _ =>
    destruct (Hbound 2 si ltac:(vm_compute; reflexivity)) as (Hi & _ & Hz)
  end.
  split; [exact Hi | exact (Hz ltac:(discriminate))].
Defined.


(** * Further properties *)

(** ** The ReAct loop: what a run can and cannot do *)

Section ReActFurther.
Context {W : Type} `{Runtime W}.
Import CryptoReActAgent.

Variable agent : self W.
Variable question : string.

Lemma tool_calls_app (es es' : list event) :
  tool_calls (es ++ es') = tool_calls es + tool_calls es'.
Proof. induction es as [|e es IH]; simpl; [reflexivity | rewrite IH; lia]. Qed.

(** A response that contains the marker has a second piece. *)
Lemma final_answer_piece (response : string) :
  contains "Final Answer:" response = true ->
  exists piece, list_index (split "Final Answer:" response) 1 = Ok piece.
Proof.
  intros Hc. apply contains_find in Hc; [|discriminate].
  destruct Hc as (i & Hi). unfold list_index.
  rewrite (split_second _ final_answer_marker_nonempty _ _ Hi).
  eexists; reflexivity.
Qed.

(** What making a step adds to the record of calls: at most one tool
    call. *)
Lemma make_step_effects (response : string) (s : state W) :
  exists step s' new,
    make_step agent response s = (Ok step, s')
    /\ history s' = history s
    /\ events s' = events s ++ new
    /\ llm_calls new = 0
    /\ tool_calls new <= 1.
Proof.
  rewrite make_step_eq.
  destruct (parse_response response) as [[thought action] action_input].
  destruct (truthy_str action && truthy action_input).
  - rewrite _execute_tool_eq.
    destruct (tools_lookup (tools agent) _) as [tool|].
    + destruct action_input;
        try (eexists _, s, []; rewrite app_nil_r;
             repeat apply conj; try reflexivity; simpl; lia).
      cbv zeta. destruct (tool_run tool d (world s)) as [[result|e] w2];
        eexists _, _, [ToolCall _ _]; cbn [history events];
        repeat apply conj; try reflexivity; simpl; lia.
    + eexists _, s, []. rewrite app_nil_r.
      repeat apply conj; try reflexivity; simpl; lia.
  - eexists _, s, []. rewrite app_nil_r.
    repeat apply conj; try reflexivity; simpl; lia.
Qed.

(** The display draws panels, and raises only what the console raises. *)
Lemma _display_step_raises (step : AgentStep) (w w' : W) (e : exn) :
  _display_step agent step w = (Raise e, w') ->
  exists text w0, console_print (Panel text) w0 = (Raise e, w').
Proof.
  unfold _display_step, when. destruct (verbose agent); [|discriminate].
  unfold bind at 1.
  destruct (console_print (Panel (thought step)) w) as [[u|e1] w1] eqn:E1.
  2:{ intros [= <- <-]. eauto. }
  unfold bind at 1.
  destruct (truthy_str (action step)).
  - destruct (console_print (Panel (action_panel step)) w1) as [[u2|e2] w2] eqn:E2.
    2:{ intros [= <- <-]. eauto. }
    destruct (truthy_str (observation step)); [|discriminate].
    intros Hd. eauto.
  - unfold ret at 1.
    destruct (truthy_str (observation step)); [|discriminate].
    intros Hd. eauto.
Qed.

(** What one iteration adds to the record of calls: the LLM call, then at
    most one tool call; what it does to the history; and where an
    exception comes from. *)
Lemma iteration_effects (s : state W) :
  let prompt := prompt_for agent question (history s) in
  let r := fst (iteration agent question s) in
  let s' := snd (iteration agent question s) in
  exists new,
    events s' = events s ++ LLMCall prompt :: new
    /\ llm_calls new = 0
    /\ tool_calls new <= 1
    /\ match r with
       | Ok None => exists step, history s' = history s ++ [step]
       | Ok (Some _) => history s' = history s /\ new = []
       | Raise e =>
           (history s' = history s /\ new = []
            /\ llm_client agent prompt (world s) = (Raise e, world s'))
           \/ (history s' = history s /\ new = []
               /\ exists answer w,
                   console_print (PanelMarkdown answer) w = (Raise e, world s'))
           \/ ((exists step, history s' = history s ++ [step])
               /\ exists text w, console_print (Panel text) w = (Raise e, world s'))
       end.
Proof.
  cbv zeta. rewrite iteration_eq. cbv zeta.
  destruct (llm_client agent _ (world s)) as [[response|e] w1] eqn:Hllm.
  2:{ exists []. cbn [fst snd called events history world].
      repeat apply conj; auto. }
  destruct (contains "Final Answer:" response) eqn:Hc.
  { destruct (final_answer_piece response Hc) as (piece & ->).
    destruct (console_print _ w1) as [[u|e] w2] eqn:Hshow;
      exists []; cbn [fst snd with_world called events history world];
      repeat apply conj; auto.
    right; left. repeat apply conj; eauto. }
  match goal with |- context [make_step agent response ?s1] =>
    destruct (make_step_effects response s1)
      as (step & s2 & new & -> & Hh & Hev & Hl & Ht) end.
  unfold displayed.
  destruct (_display_step agent step (world s2)) as [[u|e] w3] eqn:Hd;
    exists new; cbn [fst snd with_world appended called events history world] in *;
    rewrite Hev, Hh, <- app_assoc; (split; [reflexivity|]);
    (split; [exact Hl|]); (split; [exact Ht|]); [eauto|].
  right; right. split; [eauto|].
  exact (_display_step_raises step _ _ e Hd).
Qed.

(** One turn of the loop. *)
Lemma loop_step (n : nat) (s : state W) :
  loop agent question (S n) s
  = match iteration agent question s with
    | (Ok (Some final_answer), s1) => (Ok final_answer, s1)
    | (Ok None, s1) => loop agent question n s1
    | (Raise e, s1) => (Raise e, s1)
    end.
Proof.
  cbn [loop]. unfold bind.
  destruct (iteration agent question s) as [[[a|]|e] s1]; reflexivity.
Qed.

Lemma loop_raises (n : nat) (s : state W) (e : exn) (s' : state W) :
  loop agent question n s = (Raise e, s') ->
  (exists prompt w es,
      llm_client agent prompt w = (Raise e, world s')
      /\ events s' = es ++ [LLMCall prompt])
  \/ (exists r w, console_print r w = (Raise e, world s')).
Proof.
  revert s; induction n as [|n IH]; intros s; [discriminate|].
  rewrite loop_step.
  pose proof (iteration_effects s) as He. cbv zeta in He.
  destruct (iteration agent question s) as [[[a|]|e0] s1];
    cbn [fst snd] in He; [discriminate | apply IH |].
  intros [= <- <-].
  destruct He as (new & Hev & _ & _ & [(_ & -> & Hllm) | [(_ & _ & Hc) | (_ & Hc)]]).
  - left. eexists _, _, _. split; [exact Hllm | exact Hev].
  - right. destruct Hc as (answer & w & Hc). eauto.
  - right. destruct Hc as (text & w & Hc). eauto.
Qed.

(** X1. Only the LLM client and the console make a run raise: when [run]
    raises, either the LLM client has raised that very exception, and its
    call is the last thing the run did, or the console has raised it while
    drawing.  Errors of the tools, of the parser and of [split(...)[1]]
    never come out. *)
Theorem run_raises_from_llm_or_console (s : state W) (e : exn) (s' : state W) :
  run agent question s = (Raise e, s') ->
  (exists prompt w es,
      llm_client agent prompt w = (Raise e, world s')
      /\ events s' = es ++ [LLMCall prompt])
  \/ (exists r w, console_print r w = (Raise e, world s')).
Proof.
  rewrite run_eq.
  destruct (console_print (Panel (question_banner question)) (world s))
    as [[u|e0] w0] eqn:Hb.
  - apply loop_raises.
  - intros [= <- <-]. right. cbn [world]. eauto.
Qed.

(** X2. An LLM failure is not retried: when the banner of the run has been
    drawn and the first call of the LLM raises, [run] raises the same
    exception after that single call, with an empty history. *)
Theorem llm_failure_aborts_run (s : state W) (e : exn) (w0 w1 : W) :
  (0 < max_iterations agent)%Z ->
  console_print (Panel (question_banner question)) (world s) = (Ok tt, w0) ->
  llm_client agent (prompt_for agent question []) w0 = (Raise e, w1) ->
  run agent question s
  = (Raise e,
     {| world := w1; history := [];
        events := events s ++ [LLMCall (prompt_for agent question [])] |}).
Proof.
  intros Hmax Hbanner Hllm. rewrite (run_after_banner_loop agent question s w0 Hbanner).
  destruct (Z.to_nat (max_iterations agent)) as [|n] eqn:En; [lia|].
  cbn [loop]. unfold bind at 1. rewrite iteration_eq. cbv zeta.
  cbn [history world]. rewrite Hllm. reflexivity.
Qed.

Lemma loop_call_bounds (n : nat) (s : state W) :
  let s' := snd (loop agent question n s) in
  exists new,
    events s' = events s ++ new
    /\ llm_calls new <= n
    /\ tool_calls new <= llm_calls new
    /\ length (history s') <= length (history s) + llm_calls new
    /\ length (history s) + llm_calls new <= length (history s') + 1.
Proof.
  revert s; induction n as [|n IH]; intros s; cbv zeta.
  { exists []. cbn [loop ret snd]. rewrite app_nil_r.
    repeat apply conj; [reflexivity | simpl; lia ..]. }
  rewrite loop_step.
  pose proof (iteration_effects s) as He. cbv zeta in He.
  destruct (iteration agent question s) as [[[a|]|e0] s1];
    cbn [fst snd] in He; destruct He as (new & Hev & Hl & Ht & Hh).
  - destruct Hh as (Hh & ->). exists [LLMCall (prompt_for agent question (history s))].
    cbn [snd]. rewrite Hev, Hh.
    repeat apply conj; [reflexivity | simpl; lia ..].
  - destruct Hh as (step & Hh).
    destruct (IH s1) as (new' & Hev' & Hl' & Ht' & Hh1 & Hh2).
    exists (LLMCall (prompt_for agent question (history s)) :: new ++ new').
    rewrite Hev', Hev.
    rewrite Hh in Hh1, Hh2. rewrite length_app in Hh1, Hh2. cbn [length] in Hh1, Hh2.
    rewrite <- app_assoc. cbn [app llm_calls tool_calls is_llm_call is_tool_call].
    rewrite llm_calls_app, tool_calls_app.
    repeat apply conj; [reflexivity | lia ..].
  - exists (LLMCall (prompt_for agent question (history s)) :: new).
    cbn [snd]. rewrite Hev.
    cbn [llm_calls tool_calls is_llm_call is_tool_call].
    destruct Hh as [(Hh & -> & _) | [(Hh & -> & _) | ((step & Hh) & _)]];
      rewrite Hh; try (rewrite length_app; cbn [length]);
      repeat apply conj; first [reflexivity | simpl; lia].
Qed.

(** X3. In every run, whatever the LLM, the tools and the console do: the
    LLM is called at most [max_iterations] times, no more tools are called
    than the LLM was, and the history ends with as many steps as there were
    LLM calls, or one step less. *)
Theorem run_call_bounds (s : state W) :
  let s' := snd (run agent question s) in
  exists new,
    events s' = events s ++ new
    /\ llm_calls new <= Z.to_nat (max_iterations agent)
    /\ tool_calls new <= llm_calls new
    /\ length (history s') <= llm_calls new
    /\ llm_calls new <= length (history s') + 1.
Proof.
  cbv zeta. rewrite run_eq.
  destruct (console_print (Panel (question_banner question)) (world s))
    as [[u|e0] w0].
  - match goal with |- context [loop agent question ?n ?s0] =>
      destruct (loop_call_bounds n s0) as (new & Hev & Hl & Ht & Hh1 & Hh2) end.
    exists new. cbn [events history length] in *. repeat apply conj; auto; lia.
  - exists []. cbn [snd events history length llm_calls tool_calls].
    rewrite app_nil_r. repeat apply conj; auto; lia.
Qed.

(** X26. A question whose banner the console refuses ends the run before
    the loop: [run] raises the exception of the console, the LLM is not
    called, and the history has been emptied. *)
Theorem undrawn_question_ends_run (s : state W) (e : exn) (w0 : W) :
  console_print (Panel (question_banner question)) (world s) = (Raise e, w0) ->
  run agent question s
  = (Raise e, {| world := w0; history := []; events := events s |}).
Proof.
  intros Hb. rewrite run_eq, Hb. reflexivity.
Qed.
End ReActFurther.

(** ** The parser of the ReAct loop *)

Section ParserFurther.
Context {W : Type} `{Runtime W}.
Import CryptoReActAgent.

Lemma parse_lines_plain (lines : list string) (a : option string) (v : pyval) :
  Forall plain_line lines -> parse_lines lines a v = Ok (a, v).
Proof.
  intros Hl; revert a v; induction Hl as [|line lines [Ha Hi] _ IH]; intros a v;
    [reflexivity|].
  cbn [parse_lines]. rewrite Ha, Hi. apply IH.
Qed.

Lemma parse_lines_app (l1 l2 : list string) (a : option string) (v : pyval) :
  parse_lines (l1 ++ l2) a v
  = res_bind (parse_lines l1 a v) (fun p => parse_lines l2 (fst p) (snd p)).
Proof.
  revert a v; induction l1 as [|line l1 IH]; intros a v; [reflexivity|].
  cbn [app parse_lines].
  destruct (startswith "Action:" line).
  { destruct (list_index _ 1); [apply IH | reflexivity]. }
  destruct (startswith "Action Input:" line); [|apply IH].
  destruct (list_index _ 1) as [t|e]; [|reflexivity]. cbn [res_bind].
  destruct (json_loads (strip t)) as [doc|e]; [apply IH|].
  destruct (exn_cls e); first [apply IH | reflexivity].
Qed.

Lemma parse_lines_keeps_action (lines : list string) (a0 a : option string)
      (v0 v : pyval) :
  Forall (fun l => startswith "Action:" l = false) lines ->
  parse_lines lines a0 v0 = Ok (a, v) -> a = a0.
Proof.
  intros Hl; revert a0 v0; induction Hl as [|line lines Ha _ IH]; intros a0 v0.
  { intros [= <- _]. reflexivity. }
  cbn [parse_lines]. rewrite Ha.
  destruct (startswith "Action Input:" line); [|apply IH].
  destruct (list_index _ 1) as [t|e]; [|discriminate]. cbn [res_bind].
  destruct (json_loads (strip t)) as [doc|e]; [apply IH|].
  destruct (exn_cls e); first [apply IH | discriminate].
Qed.

Lemma startswith_find (sep s : string) :
  startswith sep s = true -> find sep s = Some 0.
Proof. intros Hs. destruct s; cbn [find]; now rewrite Hs. Qed.

(** X4. When a response has several lines that start with "Action:", the
    action name is read from the last of them: it is the trimmed text that
    follows the marker on that line, up to another "Action:" on the same
    line. *)
Theorem last_action_line_wins (text line : string) (pre post : list string)
        (a : option string) (v : pyval) :
  split nl (strip text) = pre ++ line :: post ->
  startswith "Action:" line = true ->
  Forall (fun l => startswith "Action:" l = false) post ->
  _parse_action text = Ok (a, v) ->
  a = Some (strip (up_to_marker "Action:" (after_marker "Action:" 0 line))).
Proof.
  intros Hsplit Hline Hpost. unfold _parse_action.
  rewrite Hsplit, parse_lines_app.
  destruct (parse_lines pre None VNone) as [[a1 v1]|e]; [|discriminate].
  cbn [res_bind fst snd parse_lines]. rewrite Hline.
  unfold list_index.
  rewrite (split_second "Action:" ltac:(discriminate) line 0
             (startswith_find _ _ Hline)).
  cbn [res_bind]. intros Hp.
  apply (parse_lines_keeps_action post _ a v1 v Hpost Hp).
Qed.
(** A line that is not an input line leaves the input as it was. *)
Lemma parse_lines_keeps_input (lines : list string) (a0 a : option string)
      (v0 v : pyval) :
  Forall (fun l => startswith "Action:" l = true
                   \/ startswith "Action Input:" l = false) lines ->
  parse_lines lines a0 v0 = Ok (a, v) -> v = v0.
Proof.
  intros Hl; revert a0 v0; induction Hl as [|line lines Hline _ IH]; intros a0 v0.
  { intros [= _ <-]. reflexivity. }
  cbn [parse_lines].
  destruct (startswith "Action:" line) eqn:Ea.
  { destruct (list_index _ 1) as [t|e]; [|discriminate]. cbn [res_bind]. apply IH. }
  destruct Hline as [Hline|Hline]; [discriminate|]. rewrite Hline. apply IH.
Qed.
End ParserFurther.

Section DegradedStep.
Context {W : Type} `{Runtime W}.
Import CryptoReActAgent.

Variable agent : self W.
Variable question : string.

(** X5. A response that is not final and has no line starting with
    "Action:" or "Action Input:" costs one LLM call and no tool call: the
    step appended has the thought only, no action, no input and no
    observation.  A verbose agent then draws the panel of the thought and
    nothing else; the iteration goes on to the next one, or raises what the
    console raised on that panel. *)
Theorem response_without_action (s : state W) (response : string) (w1 : W) :
  let prompt := prompt_for agent question (history s) in
  let step :=
    {| thought :=
         strip (replace "Thought:" EmptyString (up_to_marker "Action:" response));
       action := None; action_input := VNone; observation := None |} in
  llm_client agent prompt (world s) = (Ok response, w1) ->
  contains "Final Answer:" response = false ->
  Forall plain_line (split nl (strip response)) ->
  _display_step agent step w1
  = when (verbose agent) (console_print (Panel (thought step))) w1
  /\ iteration agent question s
     = (match fst (_display_step agent step w1) with
        | Ok _ => Ok None
        | Raise e => Raise e
        end,
        {| world := snd (_display_step agent step w1);
           history := history s ++ [step];
           events := events s ++ [LLMCall prompt] |}).
Proof.
  intros prompt step Hllm Hc Hplain. split.
  { unfold _display_step, when. destruct (verbose agent); [|reflexivity].
    unfold bind, ret. cbn [step action observation truthy_str thought].
    destruct (console_print _ w1) as [[[]|e] w2]; reflexivity. }
  rewrite iteration_eq. cbv zeta. fold prompt. rewrite Hllm, Hc.
  rewrite make_step_eq.
  unfold parse_response, list_index, _parse_action.
  rewrite split_head by discriminate. cbn [res_bind].
  rewrite (parse_lines_plain _ _ _ Hplain). cbn [res_bind fst snd].
  cbn [truthy_str andb]. fold step. unfold displayed.
  cbn [called world].
  destruct (_display_step agent step w1) as [[u|e] w2]; reflexivity.
Qed.
End DegradedStep.

(** ** The workflow, end to end *)

Section WorkflowFurther.
Context {W : Type} `{Runtime W}.
Import CryptoAnalysisGraph.

Variable g : self W.

(** The indicators, when they can be derived, are the three entries, with a
    signal among the three labels. *)
Lemma derive_indicators_entries (v : pyval) (ind : list (string * pyval)) :
  derive_indicators v = Ok ind ->
  exists trend signal status,
    ind = [("trend", VStr trend); ("signal", VStr signal);
           ("volume_status", VStr status)]
    /\ is_label (VStr signal).
Proof.
  unfold derive_indicators, is_label.
  destruct v; try discriminate. cbn [py_get res_bind].
  unfold num_gt.
  destruct (as_float (default (VInt 0) (dict_lookup d "price_change_percentage_24h")))
    as [x|]; [|discriminate].
  destruct (as_float (default (VInt 0) (dict_lookup d "total_volume")))
    as [y|]; cbn [res_bind].
  - destruct (float_gt x (lit 5)); [|destruct (float_gt x (lit 0));
      [|destruct (float_gt x (lit (-5)))]];
      cbn [res_bind dict_set String.eqb Ascii.eqb Bool.eqb];
      intros [= <-]; eexists _, _, _; (split; [reflexivity|]); auto.
  - destruct (float_gt x (lit 5)); [|destruct (float_gt x (lit 0));
      [|destruct (float_gt x (lit (-5)))]]; discriminate.
Qed.

(** The five stages of a run, one after the other, once the banner of the
    collect stage is drawn. *)
Lemma workflow_chain (symbol action : string) (w0 w1 : W) :
  announce_collect g (VStr symbol) w0 = (Ok tt, w1) ->
  exists price_data w2 indicators sentiment w3 decision w4 w5,
    let s0 := initial_state symbol action in
    let s1 := <["price_data" := price_data]> s0 in
    let s2 := <["technical_indicators" := VDict indicators]> s1 in
    let s3 := <["sentiment_data" := sentiment]> s2 in
    let s4 := <["decision" := VStr decision]> s3 in
    collect_data_node g s0 w0 = (Ok s1, w2)
    /\ technical_analysis_node g s1 w2 = (Ok s2, w2)
    /\ sentiment_analysis_node g s2 w2 = (Ok s3, w3)
    /\ generate_decision_node g s3 w3 = (Ok s4, w4)
    /\ notification_node g s4 w4 = (Ok s4, w5)
    /\ workflow g s0 w0 = (Ok s4, w5)
    /\ make_result symbol s4
       = Ok {| ar_symbol := symbol;
               recommendation :=
                 default (VStr "HOLD") (dict_lookup indicators "signal");
               confidence := 0.75;
               reasoning := VStr decision;
               data := [("price_data", price_data);
                        ("technical_indicators", VDict indicators);
                        ("sentiment_data", sentiment)] |}.
Proof.
  intros Hannounce.
  set (s0 := initial_state symbol action).
  assert (Hsym0 : s0 !! "symbol" = Some (VStr symbol))
    by apply initial_state_symbol.
  pose proof (collect_data_node_shape g s0 w0) as Hc.
  rewrite Hsym0, Hannounce in Hc. destruct Hc as (pd & w2 & Hc & _).
  set (s1 := <["price_data" := pd]> s0) in *.
  destruct (technical_analysis_node_shape g s1 w2) as (ind & Ht).
  set (s2 := <["technical_indicators" := VDict ind]> s1) in *.
  assert (Hsym2 : s2 !! "symbol" = Some (VStr symbol)).
  { subst s2 s1. rewrite !lookup_insert_ne by discriminate. exact Hsym0. }
  pose proof (sentiment_analysis_node_shape g s2 w2) as Hs.
  rewrite Hsym2 in Hs. destruct Hs as (sd & w3 & Hs).
  set (s3 := <["sentiment_data" := sd]> s2) in *.
  assert (Hsym3 : s3 !! "symbol" = Some (VStr symbol)).
  { subst s3. rewrite lookup_insert_ne by discriminate. exact Hsym2. }
  pose proof (generate_decision_node_shape g s3 w3) as Hd.
  rewrite Hsym3 in Hd. destruct Hd as (d & w4 & Hd).
  set (s4 := <["decision" := VStr d]> s3) in *.
  destruct (notification_node_shape g s4 w4) as (w5 & Hn).
  exists pd, w2, ind, sd, w3, d, w4, w5. cbv zeta.
  fold s0 s1 s2 s3 s4.
  assert (Hw : workflow g s0 w0 = (Ok s4, w5)).
  { unfold workflow, bind. rewrite Hc, Ht, Hs, Hd, Hn. reflexivity. }
  repeat (split; [assumption|]).
  rewrite (make_result_of symbol s4 ind).
  - unfold state_get. subst s4. rewrite lookup_insert_eq.
    subst s3. rewrite !lookup_insert_ne by discriminate. rewrite lookup_insert_eq.
    subst s2 s1. rewrite !lookup_insert_ne by discriminate. rewrite lookup_insert_eq.
    reflexivity.
  - subst s4 s3 s2. rewrite !lookup_insert_ne by discriminate.
    apply lookup_insert_eq.
Qed.

(** The workflow raises what the banner of the collect stage raises. *)
Lemma workflow_banner_raises (symbol action : string) (w0 w1 : W) (e : exn) :
  announce_collect g (VStr symbol) w0 = (Raise e, w1) ->
  workflow g (initial_state symbol action) w0 = (Raise e, w1).
Proof.
  intros Hannounce.
  pose proof (collect_data_node_shape g (initial_state symbol action) w0) as Hc.
  rewrite initial_state_symbol, Hannounce in Hc.
  unfold workflow, bind. now rewrite Hc.
Qed.

(** A run whose two banners are drawn. *)
Lemma run_chain (symbol action : string) (w w0 w1 : W) :
  console_print (Panel (start_banner symbol)) w = (Ok tt, w0) ->
  announce_collect g (VStr symbol) w0 = (Ok tt, w1) ->
  exists price_data w2 indicators sentiment w3 decision w4 w5,
    let s0 := initial_state symbol action in
    let s1 := <["price_data" := price_data]> s0 in
    let s2 := <["technical_indicators" := VDict indicators]> s1 in
    let s3 := <["sentiment_data" := sentiment]> s2 in
    let s4 := <["decision" := VStr decision]> s3 in
    collect_data_node g s0 w0 = (Ok s1, w2)
    /\ technical_analysis_node g s1 w2 = (Ok s2, w2)
    /\ sentiment_analysis_node g s2 w2 = (Ok s3, w3)
    /\ generate_decision_node g s3 w3 = (Ok s4, w4)
    /\ run g symbol action w
       = (Ok {| ar_symbol := symbol;
                recommendation :=
                  default (VStr "HOLD") (dict_lookup indicators "signal");
                confidence := 0.75;
                reasoning := VStr decision;
                data := [("price_data", price_data);
                         ("technical_indicators", VDict indicators);
                         ("sentiment_data", sentiment)] |}, w5).
Proof.
  intros Hbanner Hannounce.
  destruct (workflow_chain symbol action w0 w1 Hannounce)
    as (pd & w2 & ind & sd & w3 & d & w4 & w5 & Hc & Ht & Hs & Hd & _ & Hw & Hres).
  exists pd, w2, ind, sd, w3, d, w4, w5. cbv zeta.
  repeat (split; [assumption|]).
  rewrite (run_after_banner g symbol action w w0 Hbanner), Hw, Hres. reflexivity.
Qed.

Lemma returned_eq {A S : Type} (a b : A) (s s' : S) :
  (Ok a, s) = (Ok b, s') -> a = b.
Proof. intros Heq. now injection Heq. Qed.

Lemma insert_value_inj (state : AgentState) (k : string) (a b : pyval) :
  <[k := a]> state = <[k := b]> state -> a = b.
Proof.
  intros Heq. assert (Hl : <[k := a]> state !! k = <[k := b]> state !! k)
    by now rewrite Heq.
  rewrite !lookup_insert_eq in Hl. now injection Hl.
Qed.

(** What the technical node stores is derived from the price data, or is
    empty. *)
Lemma technical_analysis_node_stores (state : AgentState) (w w' : W)
      (ind : list (string * pyval)) :
  technical_analysis_node g state w
  = (Ok (<["technical_indicators" := VDict ind]> state), w') ->
  match derive_indicators (state_get state "price_data" (VDict [])) with
  | Ok derived => ind = derived
  | Raise _ => ind = []
  end.
Proof.
  unfold technical_analysis_node, try_except, bind, lift_res, ret.
  destruct (derive_indicators _) as [derived|e]; intros Heq;
    apply returned_eq, insert_value_inj in Heq; now injection Heq.
Qed.

(** X6. A run of the workflow raises exactly when one of its two banners
    cannot be drawn: the banner of the run, or the banner of the collect
    stage of a verbose agent.  Otherwise it returns, whatever the tools and
    the LLM return or raise: the result carries the symbol asked for, the
    confidence 0.75, a recommendation that is "BUY", "HOLD" or "SELL", and
    the three data entries, of which the indicators are a mapping whose
    signal, when there is one, is the recommendation. *)
Theorem run_returns_unless_banner_raises (symbol action : string) (w : W) :
  match console_print (Panel (start_banner symbol)) w with
  | (Raise e, w0) => run g symbol action w = (Raise e, w0)
  | (Ok _, w0) =>
      match announce_collect g (VStr symbol) w0 with
      | (Raise e, w1) => run g symbol action w = (Raise e, w1)
      | (Ok _, w1) =>
          exists r w' price_data indicators sentiment,
            run g symbol action w = (Ok r, w')
            /\ ar_symbol r = symbol
            /\ confidence r = 0.75%Q
            /\ is_label (recommendation r)
            /\ data r = [("price_data", price_data);
                         ("technical_indicators", VDict indicators);
                         ("sentiment_data", sentiment)]
            /\ recommendation r
               = default (VStr "HOLD") (dict_lookup indicators "signal")
      end
  end.
Proof.
  destruct (console_print (Panel (start_banner symbol)) w) as [[[]|e] w0] eqn:Hb.
  2:{ unfold run. unfold bind at 1. now rewrite Hb. }
  destruct (announce_collect g (VStr symbol) w0) as [[[]|e] w1] eqn:Ha.
  2:{ rewrite (run_after_banner g symbol action w w0 Hb).
      now rewrite (workflow_banner_raises symbol action w0 w1 e Ha). }
  destruct (run_chain symbol action w w0 w1 Hb Ha)
    as (pd & w2 & ind & sd & w3 & d & w4 & w5 & _ & Ht & _ & _ & Hrun).
  eexists _, w5, pd, ind, sd. split; [exact Hrun|]. cbn [ar_symbol confidence
    recommendation data]. repeat apply conj; try reflexivity.
  apply technical_analysis_node_stores in Ht.
  destruct (derive_indicators _) as [derived|e] eqn:Ed; subst ind.
  - destruct (derive_indicators_entries _ _ Ed) as (t & sg & st & -> & Hl).
    exact Hl.
  - right; left; reflexivity.
Qed.

(** X7. The arguments of a run stay as they were given and the two fields
    no stage owns are never filled: when the workflow ends, the state still
    has the symbol, the action, an empty [analysis_result] and no
    message. *)
Theorem workflow_leaves_unowned_fields
        (symbol action : string) (w w' : W) (final : AgentState) :
  workflow g (initial_state symbol action) w = (Ok final, w') ->
  final !! "symbol" = Some (VStr symbol)
  /\ final !! "action" = Some (VStr action)
  /\ final !! "analysis_result" = Some (VStr EmptyString)
  /\ final !! "messages" = Some (VList []).
Proof.
  intros Hw.
  destruct (announce_collect g (VStr symbol) w) as [[[]|e] w1] eqn:Ha.
  2:{ rewrite (workflow_banner_raises symbol action w w1 e Ha) in Hw.
      discriminate. }
  destruct (workflow_chain symbol action w w1 Ha)
    as (pd & w2 & ind & sd & w3 & d & w4 & w5 & _ & _ & _ & _ & _ & Hw' & _).
  rewrite Hw' in Hw. apply returned_eq in Hw. subst final.
  unfold initial_state.
  repeat apply conj; rewrite !lookup_insert_ne by discriminate;
    apply lookup_insert_eq.
Qed.

(** X8. When the LLM fails in the decision stage the run is not aborted:
    once its banners are drawn it returns, and the reasoning of the result
    is the text "Error generating decision". *)
Theorem llm_failure_is_reported (symbol action : string) (w w0 w1 : W) :
  console_print (Panel (start_banner symbol)) w = (Ok tt, w0) ->
  announce_collect g (VStr symbol) w0 = (Ok tt, w1) ->
  (forall prompt w2, exists e w3, llm_client g prompt w2 = (Raise e, w3)) ->
  exists r w',
    run g symbol action w = (Ok r, w')
    /\ reasoning r = VStr "Error generating decision".
Proof.
  intros Hb Ha Hllm.
  destruct (run_chain symbol action w w0 w1 Hb Ha)
    as (pd & w2 & ind & sd & w3 & d & w4 & w5 & _ & _ & _ & Hd & Hrun).
  eexists _, w5. split; [exact Hrun|]. cbn [reasoning]. f_equal.
  revert Hd. unfold generate_decision_node, state_item, bind, try_except, ret.
  rewrite !lookup_insert_ne by discriminate. rewrite initial_state_symbol.
  match goal with |- context [llm_client g ?p w3] =>
    destruct (Hllm p w3) as (e & w' & ->) end.
  intros Heq. apply returned_eq, insert_value_inj in Heq. now injection Heq.
Qed.

(** X9. When the news tool fails for the symbol the run is not aborted:
    once its banners are drawn it returns, with an empty
    [sentiment_data]. *)
Theorem news_failure_leaves_sentiment_empty (symbol action : string) (w w0 w1 : W) :
  console_print (Panel (start_banner symbol)) w = (Ok tt, w0) ->
  announce_collect g (VStr symbol) w0 = (Ok tt, w1) ->
  (forall w2, exists e w3, news_tool g (VStr symbol) w2 = (Raise e, w3)) ->
  exists r w',
    run g symbol action w = (Ok r, w')
    /\ dict_lookup (data r) "sentiment_data" = Some (VDict []).
Proof.
  intros Hb Ha Hnews.
  destruct (run_chain symbol action w w0 w1 Hb Ha)
    as (pd & w2 & ind & sd & w3 & d & w4 & w5 & _ & _ & Hs & _ & Hrun).
  eexists _, w5. split; [exact Hrun|]. cbn [data dict_lookup String.eqb Ascii.eqb Bool.eqb].
  f_equal.
  revert Hs. unfold sentiment_analysis_node, state_item, bind, try_except, ret.
  rewrite !lookup_insert_ne by discriminate. rewrite initial_state_symbol.
  destruct (Hnews w2) as (e & w' & ->).
  intros Heq. apply returned_eq, insert_value_inj in Heq. now symmetry.
Qed.

(** X28. A decision that the console of a verbose agent refuses to draw is
    lost: the LLM has answered, yet the reasoning of the result is the
    text "Error generating decision". *)
Theorem undrawn_decision_is_replaced (symbol action : string) (w w0 w1 : W) :
  console_print (Panel (start_banner symbol)) w = (Ok tt, w0) ->
  announce_collect g (VStr symbol) w0 = (Ok tt, w1) ->
  (forall prompt w2, exists text w3 e w4,
      llm_client g prompt w2 = (Ok text, w3)
      /\ show_decision g text w3 = (Raise e, w4)) ->
  exists r w',
    run g symbol action w = (Ok r, w')
    /\ reasoning r = VStr "Error generating decision".
Proof.
  intros Hb Ha Hllm.
  destruct (run_chain symbol action w w0 w1 Hb Ha)
    as (pd & w2 & ind & sd & w3 & d & w4 & w5 & _ & _ & _ & Hd & Hrun).
  eexists _, w5. split; [exact Hrun|]. cbn [reasoning]. f_equal.
  revert Hd. unfold generate_decision_node, state_item, bind, try_except, ret.
  rewrite !lookup_insert_ne by discriminate. rewrite initial_state_symbol.
  match goal with |- context [llm_client g ?p w3] =>
    destruct (Hllm p w3) as (text & w' & e & w'' & -> & ->) end.
  intros Heq. apply returned_eq, insert_value_inj in Heq. now injection Heq.
Qed.
End WorkflowFurther.

Section WorkflowData.
Context {W : Type} `{Runtime W}.
Import CryptoAnalysisGraph.

Variable g : self W.

(** The collect stage when the price tool has returned and the table has
    been drawn. *)
Lemma collect_data_node_drawn (state : AgentState) (symbol price_data : pyval)
      (w0 w1 w2 w3 : W) :
  state !! "symbol" = Some symbol ->
  announce_collect g symbol w0 = (Ok tt, w1) ->
  price_tool g symbol w1 = (Ok price_data, w2) ->
  show_prices g symbol price_data w2 = (Ok tt, w3) ->
  collect_data_node g state w0 = (Ok (<["price_data" := price_data]> state), w3).
Proof.
  intros Hsym Ha Htool Hshow.
  unfold collect_data_node, state_item, bind, try_except, ret.
  rewrite Hsym, Ha, Htool, Hshow. reflexivity.
Qed.

(** The collect stage when the table cannot be drawn. *)
Lemma collect_data_node_undrawn (state : AgentState) (symbol price_data : pyval)
      (w0 w1 w2 w3 : W) (e : exn) :
  state !! "symbol" = Some symbol ->
  announce_collect g symbol w0 = (Ok tt, w1) ->
  price_tool g symbol w1 = (Ok price_data, w2) ->
  show_prices g symbol price_data w2 = (Raise e, w3) ->
  collect_data_node g state w0 = (Ok (<["price_data" := VDict []]> state), w3).
Proof.
  intros Hsym Ha Htool Hshow.
  unfold collect_data_node, state_item, bind, try_except, ret.
  rewrite Hsym, Ha, Htool, Hshow. reflexivity.
Qed.

Lemma hold_range (x : pyfloat) :
  above (-5) x -> at_most 5 x ->
  (above 0 x /\ at_most 5 x) \/ (above (-5) x /\ at_most 0 x).
Proof.
  destruct x as [|pos|q]; cbn [above at_most]; [tauto | congruence |].
  intros Hlo Hhi. destruct (Qlt_le_dec (inject_Z 0) q); [left | right]; auto.
Qed.

(** What the run reads when the collect stage has stored [price_data]. *)
Lemma run_on_collected (symbol action : string) (w w0 w1 w3 : W)
      (price_data : pyval) :
  console_print (Panel (start_banner symbol)) w = (Ok tt, w0) ->
  announce_collect g (VStr symbol) w0 = (Ok tt, w1) ->
  collect_data_node g (initial_state symbol action) w0
  = (Ok (<["price_data" := price_data]> (initial_state symbol action)), w3) ->
  exists r w' indicators,
    run g symbol action w = (Ok r, w')
    /\ dict_lookup (data r) "price_data" = Some price_data
    /\ dict_lookup (data r) "technical_indicators" = Some (VDict indicators)
    /\ recommendation r = default (VStr "HOLD") (dict_lookup indicators "signal")
    /\ technical_analysis_node g
         (<["price_data" := price_data]> (initial_state symbol action)) w3
       = (Ok (<["technical_indicators" := VDict indicators]>
                (<["price_data" := price_data]> (initial_state symbol action))), w3).
Proof.
  intros Hb Ha Hcollect.
  destruct (run_chain g symbol action w w0 w1 Hb Ha)
    as (pd' & w2' & ind & sd & w3' & d & w4 & w5 & Hc & Ht & _ & _ & Hrun).
  rewrite Hcollect in Hc.
  assert (Hw : w3 = w2') by congruence. subst w2'.
  apply returned_eq, insert_value_inj in Hc. subst pd'.
  eexists _, w5, ind. split; [exact Hrun|].
  repeat apply conj; try reflexivity. exact Ht.
Qed.

(** X10. The recommendation of a run is the signal of the rule on what the
    price tool returned.  Let the console draw the two banners and, for a
    verbose agent, the table of the price data.  For a mapping with a
    numeric 24h change [x] (and a numeric volume) the result carries that
    mapping as [price_data] and recommends "BUY" when x > 5, "SELL" when
    x <= -5 and "HOLD" when -5 < x <= 5, whatever the news and the LLM
    say. *)
Theorem recommendation_follows_price_data
        (symbol action : string) (w w0 w1 w2 w3 : W) (pd : list (string * pyval))
        (x y : pyfloat) :
  console_print (Panel (start_banner symbol)) w = (Ok tt, w0) ->
  announce_collect g (VStr symbol) w0 = (Ok tt, w1) ->
  price_tool g (VStr symbol) w1 = (Ok (VDict pd), w2) ->
  show_prices g (VStr symbol) (VDict pd) w2 = (Ok tt, w3) ->
  as_float (price_change_of pd) = Some x ->
  as_float (volume_of pd) = Some y ->
  exists r w',
    run g symbol action w = (Ok r, w')
    /\ dict_lookup (data r) "price_data" = Some (VDict pd)
    /\ (above 5 x -> recommendation r = VStr "BUY")
    /\ (above (-5) x /\ at_most 5 x -> recommendation r = VStr "HOLD")
    /\ (at_most (-5) x -> recommendation r = VStr "SELL").
Proof.
  intros Hb Ha Htool Hshow Hx Hy.
  destruct (run_on_collected symbol action w w0 w1 w3 (VDict pd) Hb Ha)
    as (r & w' & ind & Hrun & Hpd & _ & Hrec & Ht).
  { apply (collect_data_node_drawn _ (VStr symbol) (VDict pd) w0 w1 w2 w3);
      [apply initial_state_symbol | assumption ..]. }
  destruct (technical_analysis_numeric g
              (<["price_data" := VDict pd]> (initial_state symbol action)) w3 pd x y)
    as (trend & signal & Hnum & Hbuy & Hup & Hdown & Hsell);
    [unfold state_get; now rewrite lookup_insert_eq | exact Hx | exact Hy |].
  rewrite Hnum in Ht. apply returned_eq, insert_value_inj in Ht.
  injection Ht as <-. cbn in Hrec.
  exists r, w'. split; [exact Hrun|]. split; [exact Hpd|].
  rewrite Hrec. repeat apply conj.
  - intros Hc. now destruct (Hbuy Hc) as [_ ->].
  - intros [Hlo Hhi]. destruct (hold_range x Hlo Hhi) as [Hc|Hc].
    + now destruct (Hup Hc) as [_ ->].
    + now destruct (Hdown Hc) as [_ ->].
  - intros Hc. now destruct (Hsell Hc) as [_ ->].
Qed.

(** X11. A 24h change or a volume that is not a number (a null of the
    API, a text) does not stop the run: with the banners and the table
    drawn as for X10, the price data is kept, the indicators are left
    empty and the recommendation falls back to "HOLD". *)
Theorem non_numeric_data_falls_back_to_hold
        (symbol action : string) (w w0 w1 w2 w3 : W) (pd : list (string * pyval)) :
  console_print (Panel (start_banner symbol)) w = (Ok tt, w0) ->
  announce_collect g (VStr symbol) w0 = (Ok tt, w1) ->
  price_tool g (VStr symbol) w1 = (Ok (VDict pd), w2) ->
  show_prices g (VStr symbol) (VDict pd) w2 = (Ok tt, w3) ->
  as_float (price_change_of pd) = None \/ as_float (volume_of pd) = None ->
  exists r w',
    run g symbol action w = (Ok r, w')
    /\ recommendation r = VStr "HOLD"
    /\ dict_lookup (data r) "price_data" = Some (VDict pd)
    /\ dict_lookup (data r) "technical_indicators" = Some (VDict []).
Proof.
  intros Hb Ha Htool Hshow Hbad.
  destruct (run_on_collected symbol action w w0 w1 w3 (VDict pd) Hb Ha)
    as (r & w' & ind & Hrun & Hpd & Hti & Hrec & Ht).
  { apply (collect_data_node_drawn _ (VStr symbol) (VDict pd) w0 w1 w2 w3);
      [apply initial_state_symbol | assumption ..]. }
  apply technical_analysis_node_stores in Ht.
  assert (Hraise : exists e, derive_indicators (VDict pd) = Raise e).
  { unfold derive_indicators. cbn [py_get res_bind]. unfold num_gt.
    fold (price_change_of pd) (volume_of pd).
    destruct Hbad as [-> | Hv]; [eexists; reflexivity|].
    destruct (as_float (price_change_of pd)) as [x|]; [|eexists; reflexivity].
    rewrite Hv.
    destruct (float_gt x (lit 5)); [|destruct (float_gt x (lit 0));
      [|destruct (float_gt x (lit (-5)))]]; eexists; reflexivity. }
  destruct Hraise as (e & He).
  assert (Hget : state_get (<["price_data" := VDict pd]> (initial_state symbol action))
                    "price_data" (VDict []) = VDict pd)
    by (unfold state_get; now rewrite lookup_insert_eq).
  rewrite Hget, He in Ht. subst ind.
  exists r, w'. split; [exact Hrun|]. split; [exact Hrec|].
  split; [exact Hpd | exact Hti].
Qed.

(** X27. A table of the price data that the console of a verbose agent
    cannot draw costs the price data: the price tool has returned, yet the
    result has an empty [price_data], the indicators of a zero change and a
    zero volume, and the recommendation "HOLD".  The same happens when what
    the price tool returned is not a mapping, which has no items for the
    table. *)
Theorem undrawn_table_empties_price_data
        (symbol action : string) (w w0 w1 w2 w3 : W) (price_data : pyval) (e : exn) :
  console_print (Panel (start_banner symbol)) w = (Ok tt, w0) ->
  announce_collect g (VStr symbol) w0 = (Ok tt, w1) ->
  price_tool g (VStr symbol) w1 = (Ok price_data, w2) ->
  show_prices g (VStr symbol) price_data w2 = (Raise e, w3) ->
  exists r w',
    run g symbol action w = (Ok r, w')
    /\ recommendation r = VStr "HOLD"
    /\ dict_lookup (data r) "price_data" = Some (VDict [])
    /\ dict_lookup (data r) "technical_indicators"
       = Some (VDict [("trend", VStr "Downtrend"); ("signal", VStr "HOLD");
                      ("volume_status", VStr "Normal")]).
Proof.
  intros Hb Ha Htool Hshow.
  destruct (run_on_collected symbol action w w0 w1 w3 (VDict []) Hb Ha)
    as (r & w' & ind & Hrun & Hpd & Hti & Hrec & Ht).
  { apply (collect_data_node_undrawn _ (VStr symbol) price_data w0 w1 w2 w3 e);
      [apply initial_state_symbol | assumption ..]. }
  rewrite technical_analysis_no_data in Ht by apply lookup_insert_eq.
  apply returned_eq, insert_value_inj in Ht. injection Ht as <-.
  exists r, w'. split; [exact Hrun|]. split; [exact Hrec|].
  split; [exact Hpd | exact Hti].
Qed.

Lemma res_map_titles (articles : list pyval) :
  Forall is_dict articles ->
  res_map (fun article => py_get article "title" (VStr EmptyString)) articles
  = Ok (map title_of articles).
Proof.
  induction 1 as [|article articles Hd _ IH]; [reflexivity|].
  cbn [res_map map]. rewrite IH.
  destruct article; try contradiction. reflexivity.
Qed.

(** X12. The sentiment built from the news counts all the articles and
    keeps the titles of the first three, in order (an article without a
    title gives the empty text); the overall sentiment is always "Neutral".
    Only the first three articles have to be mappings. *)
Theorem sentiment_of_articles (news : list (string * pyval)) (articles : list pyval) :
  default (VList []) (dict_lookup news "articles") = VList articles ->
  Forall is_dict (take 3 articles) ->
  sentiment_of (VDict news)
  = Ok (VDict [("news_count", VInt (Z.of_nat (length articles)));
               ("overall_sentiment", VStr "Neutral");
               ("news_headlines", VList (map title_of (take 3 articles)))])
  /\ length (map title_of (take 3 articles)) <= 3.
Proof.
  intros Harts Hd. split.
  - unfold sentiment_of. cbn [py_get res_bind]. rewrite Harts.
    cbn [py_len py_slice_to py_iter res_bind].
    rewrite (res_map_titles _ Hd). reflexivity.
  - rewrite length_map, length_take. lia.
Qed.

(** X13. The notify stage hands one summary to the console, built from the
    symbol, the decision, the signal and the trend of the state ("N/A" for
    what is missing), and returns the state it was given, also when the
    console raises on the summary: the notifier reports that failure and
    the stage ignores the report.  Without a symbol in the state no
    summary is handed to the console, and nothing is raised either. *)
Theorem notification_prints_summary (state : AgentState) (w : W)
        (indicators : list (string * pyval)) :
  state_get state "technical_indicators" (VDict []) = VDict indicators ->
  notification_node g state w
  = (Ok state,
     match state !! "symbol" with
     | Some symbol =>
         snd (console_print
                (Panel (notification_message symbol
                          (state_get state "decision" (VStr "N/A"))
                          (default (VStr "N/A") (dict_lookup indicators "signal"))
                          (default (VStr "N/A") (dict_lookup indicators "trend"))))
                w)
     | None => w
     end).
Proof.
  intros Hti.
  unfold notification_node, state_item. unfold bind at 1.
  unfold try_except at 1. unfold bind at 1.
  destruct (state !! "symbol") as [symbol|]; [|reflexivity].
  unfold ret at 1. unfold bind at 1. unfold lift_res at 1. rewrite Hti.
  cbn [py_get]. unfold bind at 1. unfold lift_res at 1. unfold bind at 1.
  rewrite run_on_console by discriminate.
  destruct (console_print _ w) as [[u|e] w']; reflexivity.
Qed.
End WorkflowData.

(** ** The notification tools *)

Section NotificationFurther.
Context {W : Type} `{Runtime W} `{Services W}.

(** X14. [NotificationTool.run] never raises, for any channel: it returns a
    mapping that either reports a delivery (success = True, with the
    message, on the channel asked for when that is slack or discord and on
    "console" otherwise) or reports a failure (success = False, with an
    error text and the channel asked for).  A failure is reported on slack
    and discord, and on the other channels only when the console has raised
    on the message. *)
Theorem notification_run_reports
        (tool : NotificationTool.self) (message channel : string) (w : W) :
  exists d w',
    NotificationTool.run tool message channel w = (Ok (VDict d), w')
    /\ ((dict_lookup d "success" = Some (VBool true)
         /\ dict_lookup d "message" = Some (VStr message)
         /\ dict_lookup d "channel"
            = Some (VStr (if String.eqb channel "slack" then "slack"
                          else if String.eqb channel "discord" then "discord"
                          else "console")))
        \/ (dict_lookup d "success" = Some (VBool false)
            /\ (exists error, dict_lookup d "error" = Some (VStr error))
            /\ dict_lookup d "channel" = Some (VStr channel)
            /\ (channel = "slack" \/ channel = "discord"
                \/ exists e, console_print (Panel message) w = (Raise e, w')))).
Proof.
  destruct (String.eqb_spec channel "slack") as [->|Ns].
  { unfold NotificationTool.run, try_except. cbn [String.eqb Ascii.eqb Bool.eqb].
    unfold NotificationTool._send_slack.
    destruct (String.eqb (NotificationTool.slack_webhook tool) EmptyString).
    - eexists _, _. split; [reflexivity|]. right.
      repeat apply conj; eauto.
    - unfold try_except, bind, ret.
      destruct (requests_post _ _ w) as [[u|e] w1];
        eexists _, _; (split; [reflexivity|]);
        [left | right]; repeat apply conj; eauto. }
  destruct (String.eqb_spec channel "discord") as [->|Nd].
  { unfold NotificationTool.run, try_except. cbn [String.eqb Ascii.eqb Bool.eqb].
    unfold NotificationTool._send_discord.
    destruct (String.eqb (NotificationTool.discord_webhook tool) EmptyString).
    - eexists _, _. split; [reflexivity|]. right.
      repeat apply conj; eauto.
    - unfold try_except, bind, ret.
      destruct (requests_post _ _ w) as [[u|e] w1];
        eexists _, _; (split; [reflexivity|]);
        [left | right]; repeat apply conj; eauto. }
  rewrite (run_on_console tool message channel w Ns Nd).
  destruct (console_print (Panel message) w) as [[u|e] w'] eqn:Hshow;
    eexists _, w'; (split; [reflexivity|]); [left | right];
    repeat apply conj; eauto.
Qed.

(** X15. A webhook channel that is not configured reports the failure
    "Webhook not configured" and touches nothing: no request is sent and
    nothing is printed. *)
Theorem unconfigured_webhook_is_reported
        (tool : NotificationTool.self) (message : string) (w : W) :
  (NotificationTool.slack_webhook tool = EmptyString ->
   NotificationTool.run tool message "slack" w
   = (Ok (VDict [("success", VBool false); ("channel", VStr "slack");
                 ("error", VStr "Webhook not configured")]), w))
  /\ (NotificationTool.discord_webhook tool = EmptyString ->
      NotificationTool.run tool message "discord" w
      = (Ok (VDict [("success", VBool false); ("channel", VStr "discord");
                    ("error", VStr "Webhook not configured")]), w)).
Proof.
  split; intros Hw;
    unfold NotificationTool.run, NotificationTool._send_slack,
      NotificationTool._send_discord, try_except;
    cbn [String.eqb Ascii.eqb Bool.eqb]; rewrite Hw; reflexivity.
Qed.

(** X16. The e-mail tool never raises: it returns a mapping with a success
    flag.  Without a user or a password no SMTP session is opened and the
    error is "Email credentials not configured"; with both, one session is
    opened, for a message whose sender is [from_email], or the SMTP user
    when [from_email] is absent or empty, and the flag tells whether the
    session went through. *)
Theorem email_run_reports
        (tool : EmailNotificationTool.self) (to subject body : string)
        (from_email : option string) (w : W) :
  let sender :=
    match from_email with
    | Some address => if String.eqb address EmptyString
                      then EmailNotificationTool.smtp_user tool else address
    | None => EmailNotificationTool.smtp_user tool
    end in
  let msg := VDict [("From", VStr sender); ("To", VStr to);
                    ("Subject", VStr subject); ("body", VStr body)] in
  if String.eqb (EmailNotificationTool.smtp_user tool) EmptyString
     || String.eqb (EmailNotificationTool.smtp_password tool) EmptyString
  then
    EmailNotificationTool.run tool to subject body from_email w
    = (Ok (VDict [("success", VBool false);
                  ("error", VStr "Email credentials not configured")]), w)
  else
    exists d,
      EmailNotificationTool.run tool to subject body from_email w
      = (Ok (VDict d),
         snd (smtp_send (EmailNotificationTool.smtp_host tool)
                        (EmailNotificationTool.smtp_port tool)
                        (EmailNotificationTool.smtp_user tool)
                        (EmailNotificationTool.smtp_password tool) msg w))
      /\ dict_lookup d "success"
         = Some (VBool (match fst (smtp_send (EmailNotificationTool.smtp_host tool)
                                     (EmailNotificationTool.smtp_port tool)
                                     (EmailNotificationTool.smtp_user tool)
                                     (EmailNotificationTool.smtp_password tool) msg w)
                        with Ok _ => true | Raise _ => false end)).
Proof.
  cbv zeta. unfold EmailNotificationTool.run.
  destruct (_ || _); [reflexivity|].
  unfold try_except, bind, ret.
  assert (Hs : (if truthy_str from_email then default EmptyString from_email
                else EmailNotificationTool.smtp_user tool)
               = match from_email with
                 | Some address => if String.eqb address EmptyString
                                   then EmailNotificationTool.smtp_user tool
                                   else address
                 | None => EmailNotificationTool.smtp_user tool
                 end).
  { destruct from_email as [address|]; [|reflexivity].
    cbn [truthy_str]. destruct (String.eqb address EmptyString); reflexivity. }
  rewrite Hs.
  destruct (smtp_send _ _ _ _ _ w) as [[u|e] w1];
    eexists; split; reflexivity.
Qed.
End NotificationFurther.

(** ** The data tools *)

Section ToolsFurther.
Context {W : Type} `{Runtime W} `{Services W}.

Lemma article_title (templates : list string) (i : nat) :
  title_of (CryptoNewsTool.article templates i)
  = VStr (nth (i mod length templates) templates EmptyString).
Proof. reflexivity. Qed.

(** X17. The news tool, for a symbol that is a text: the count it reports
    is the number of articles it returns, which is [limit] for an integer
    limit (none for a negative one) and none at all, rather than an error,
    for a limit that is not an integer; the title of the i-th article is
    the template number i mod 5. *)
Theorem news_tool_articles (symbol : string) (limit : pyval) :
  exists articles,
    CryptoNewsTool.run (VStr symbol) limit
    = Ok (VDict [("symbol", VStr (str_upper symbol));
                 ("article_count", VInt (Z.of_nat (length articles)));
                 ("articles", VList articles)])
    /\ length articles
       = match limit with
         | VInt n => Z.to_nat n
         | VBool b => if b then 1 else 0
         | _ => 0
         end
    /\ forall i article, articles !! i = Some article ->
         title_of article
         = VStr (nth (i mod 5) (CryptoNewsTool.news_templates (VStr symbol))
                     EmptyString).
Proof.
  unfold CryptoNewsTool.run.
  assert (Hgen : forall n,
    let articles :=
      map (CryptoNewsTool.article (CryptoNewsTool.news_templates (VStr symbol)))
          (seq 0 n) in
    length articles = n
    /\ forall i article, articles !! i = Some article ->
         title_of article
         = VStr (nth (i mod 5) (CryptoNewsTool.news_templates (VStr symbol))
                     EmptyString)).
  { intros n articles. subst articles. split.
    - now rewrite length_map, length_seq.
    - intros i article Hi. rewrite list_lookup_fmap in Hi.
      destruct (seq 0 n !! i) as [j|] eqn:Ej; [|discriminate].
      apply lookup_seq in Ej. destruct Ej as [-> _].
      injection Hi as <-. apply article_title. }
  destruct limit as [| b | n | | | |]; cbn [py_range res_bind py_upper];
    try (exists []; repeat apply conj;
         [reflexivity | reflexivity | intros i a Hi; discriminate]).
  - destruct (Hgen (if b then 1 else 0)) as [Hlen Htitles].
    eexists. split; [reflexivity|]. split; [exact Hlen | exact Htitles].
  - destruct (Hgen (Z.to_nat n)) as [Hlen Htitles].
    eexists. split; [reflexivity|]. split; [exact Hlen | exact Htitles].
Qed.

(** X18. The price tool and a failed request: a [RequestException] gives
    the mock record for the symbol (its 24h change is the double 1.2 and
    its volume 50e9) and nothing is raised; any other exception of the
    request is not caught and leaves the tool. *)
Theorem price_tool_on_failed_request
        (tool : CryptoPriceTool.self) (symbol coin_id : string) (w w1 : W) (e : exn) :
  CryptoPriceTool._get_coin_id (VStr symbol) = Ok coin_id ->
  requests_get_json (CryptoPriceTool.base_url +:+ "/coins/" +:+ coin_id)
                    CryptoPriceTool.request_params
                    (CryptoPriceTool.request_headers tool) w
  = (Raise e, w1) ->
  if is_request_exception e then
    exists record,
      CryptoPriceTool.run tool (VStr symbol) w = (Ok (VDict record), w1)
      /\ dict_lookup record "symbol" = Some (VStr (str_upper symbol))
      /\ price_change_of record = VFloat double_1_2
      /\ volume_of record = VInt 50000000000
  else
    CryptoPriceTool.run tool (VStr symbol) w = (Raise e, w1).
Proof.
  intros Hid Hreq.
  unfold CryptoPriceTool.run, try_except_class, bind, lift_res.
  rewrite Hid, Hreq.
  destruct (is_request_exception e); [|reflexivity].
  eexists. split; [reflexivity|]. repeat apply conj; reflexivity.
Qed.

(** Every text has a coin id: the one of the table, or its lower case. *)
Lemma _get_coin_id_text (symbol : string) :
  CryptoPriceTool._get_coin_id (VStr symbol)
  = Ok (default (str_lower symbol)
                (CryptoPriceTool.map_lookup CryptoPriceTool.symbol_map
                                            (str_upper symbol))).
Proof. reflexivity. Qed.

(** The answers of the search tool. *)
Lemma search_run_shape
        (tool : TavilySearchTool.self) (query : pyval) (n : Z) (w : W) :
  exists d w' mock,
    TavilySearchTool.run tool query (VInt n) w = (Ok (VDict d), w')
    /\ dict_lookup d "query" = Some query
    /\ TavilySearchTool._mock_search query (VInt n) = Ok (VDict mock)
    /\ (exists results,
          dict_lookup mock "results" = Some (VList results)
          /\ length results = Z.to_nat n)
    /\ (TavilySearchTool.api_key tool = EmptyString -> d = mock /\ w' = w)
    /\ (TavilySearchTool.api_key tool <> EmptyString ->
        match requests_post_json TavilySearchTool.base_url
                (TavilySearchTool.request_payload tool query (VInt n)) w with
        | (Ok data, w1) =>
            w' = w1
            /\ match TavilySearchTool.live_results query data with
               | Ok found => found = VDict d
               | Raise _ => d = mock
               end
        | (Raise _, w1) => w' = w1 /\ d = mock
        end).
Proof.
  assert (Hmock : exists mock,
    TavilySearchTool._mock_search query (VInt n) = Ok (VDict mock)
    /\ dict_lookup mock "query" = Some query
    /\ exists results,
         dict_lookup mock "results" = Some (VList results)
         /\ length results = Z.to_nat n).
  { eexists. split; [reflexivity|]. split; [reflexivity|].
    eexists. split; [reflexivity|]. now rewrite length_map, length_seq. }
  destruct Hmock as (mock & Hmock & Hmq & Hmr).
  unfold TavilySearchTool.run.
  destruct (String.eqb_spec (TavilySearchTool.api_key tool) EmptyString) as [Hk|Hk].
  { exists mock, w, mock. unfold lift_res. rewrite Hmock.
    repeat apply conj; auto; intros Hk'; contradiction. }
  unfold try_except, bind, lift_res.
  destruct (requests_post_json _ _ w) as [[data|e] w1] eqn:Ereq.
  - destruct (TavilySearchTool.live_results query data) as [found|e] eqn:Elive.
    + assert (Hshape : exists d, found = VDict d /\ dict_lookup d "query" = Some query).
      { revert Elive. unfold TavilySearchTool.live_results.
        destruct (py_get data "answer" _); [|discriminate]. cbn [res_bind].
        destruct (py_get data "results" _); [|discriminate]. cbn [res_bind].
        destruct (py_iter _); [|discriminate]. cbn [res_bind].
        destruct (res_map _ _); [|discriminate]. cbn [res_bind].
        intros [= <-]. eexists; split; reflexivity. }
      destruct Hshape as (d & -> & Hq).
      exists d, w1, mock.
      repeat apply conj; auto;
        first [intros Hk'; contradiction | intros _; split; reflexivity].
    + exists mock, w1, mock. rewrite Hmock.
      repeat apply conj; auto;
        first [intros Hk'; contradiction | intros _; split; reflexivity].
  - exists mock, w1, mock. rewrite Hmock.
    repeat apply conj; auto;
      first [intros Hk'; contradiction | intros _; split; reflexivity].
Qed.

(** X19. The search tool, for an integer [max_results], never raises and
    always answers with a mapping that carries the query.  Without an API
    key no request is made and the answer is the mock one, with
    [max_results] results; with a key, the answer is read from the reply of
    the service, and is the mock one when the request fails or the reply
    cannot be read. *)
Theorem search_tool_always_answers
        (tool : TavilySearchTool.self) (query : pyval) (n : Z) (w : W) :
  exists d w' mock,
    TavilySearchTool.run tool query (VInt n) w = (Ok (VDict d), w')
    /\ dict_lookup d "query" = Some query
    /\ TavilySearchTool._mock_search query (VInt n) = Ok (VDict mock)
    /\ (exists results,
          dict_lookup mock "results" = Some (VList results)
          /\ length results = Z.to_nat n)
    /\ (TavilySearchTool.api_key tool = EmptyString -> d = mock /\ w' = w)
    /\ (TavilySearchTool.api_key tool <> EmptyString ->
        match requests_post_json TavilySearchTool.base_url
                (TavilySearchTool.request_payload tool query (VInt n)) w with
        | (Ok data, w1) =>
            w' = w1
            /\ match TavilySearchTool.live_results query data with
               | Ok found => found = VDict d
               | Raise _ => d = mock
               end
        | (Raise _, w1) => w' = w1 /\ d = mock
        end).
Proof. apply search_run_shape. Qed.
End ToolsFurther.

(** ** The agents with the tools of the repository *)

Section WiredFurther.
Context {W : Type} `{Runtime W} `{Services W}.

Variable verbose : bool.
Variable llm : string -> M W string.
Variable price : CryptoPriceTool.self.
Variable notifier : NotificationTool.self.

(** X20. With the price service unreachable (every request ends in a
    [RequestException]) the workflow still returns once its banners and,
    for a verbose agent, the table of the mock record are drawn; and what
    it says does not depend on the symbol: the trend is "Uptrend", the
    volume "High" and the recommendation "HOLD", the signal of the mock
    record. *)
Theorem offline_analysis_says_hold (symbol action : string) (w w0 w1 : W) :
  let g := graph_with_tools verbose llm price notifier in
  console_print (Panel (CryptoAnalysisGraph.start_banner symbol)) w = (Ok tt, w0) ->
  CryptoAnalysisGraph.announce_collect g (VStr symbol) w0 = (Ok tt, w1) ->
  (forall url params headers w2, exists e w3,
      requests_get_json url params headers w2 = (Raise e, w3)
      /\ is_request_exception e = true) ->
  (forall record w2,
      CryptoPriceTool.mock_record (VStr symbol) = Ok record ->
      exists w3,
        CryptoAnalysisGraph.show_prices g (VStr symbol) record w2 = (Ok tt, w3)) ->
  exists r w',
    CryptoAnalysisGraph.run g symbol action w = (Ok r, w')
    /\ recommendation r = VStr "HOLD"
    /\ dict_lookup (data r) "technical_indicators"
       = Some (VDict [("trend", VStr "Uptrend"); ("signal", VStr "HOLD");
                      ("volume_status", VStr "High")]).
Proof.
  intros g Hb Ha Hdown Htable.
  assert (Hmock : exists record w2,
    CryptoAnalysisGraph.price_tool g (VStr symbol) w1 = (Ok (VDict record), w2)
    /\ CryptoPriceTool.mock_record (VStr symbol) = Ok (VDict record)
    /\ as_float (price_change_of record) = Some double_1_2
    /\ as_float (volume_of record) = Some (FFin (inject_Z 50000000000))).
  { cbn [g graph_with_tools CryptoAnalysisGraph.price_tool].
    unfold CryptoPriceTool.run, try_except_class, bind, lift_res.
    rewrite _get_coin_id_text.
    match goal with |- context [requests_get_json ?u ?p ?h w1] =>
      destruct (Hdown u p h w1) as (e & w2 & -> & ->) end.
    eexists _, w2. split; [reflexivity|]. repeat split. }
  destruct Hmock as (record & w2 & Htool & Hrecord & Hx & Hy).
  destruct (Htable (VDict record) w2 Hrecord) as (w3 & Hshow).
  destruct (run_on_collected g symbol action w w0 w1 w3 (VDict record) Hb Ha)
    as (r & w' & ind & Hrun & _ & Hti & Hrec & Ht).
  { apply (collect_data_node_drawn g _ (VStr symbol) (VDict record) w0 w1 w2 w3);
      [apply initial_state_symbol | assumption ..]. }
  destruct (technical_analysis_numeric g
              (<["price_data" := VDict record]>
                 (CryptoAnalysisGraph.initial_state symbol action))
              w3 record double_1_2 (FFin (inject_Z 50000000000)))
    as (trend & signal & Hnum & _ & Hup & _);
    [unfold state_get; now rewrite lookup_insert_eq | exact Hx | exact Hy |].
  destruct Hup as [-> ->]; [split; [reflexivity | discriminate]|].
  rewrite Hnum in Ht. apply returned_eq, insert_value_inj in Ht.
  injection Ht as <-.
  exists r, w'. split; [exact Hrun|]. split; [exact Hrec | exact Hti].
Qed.

(** X21. With the news tool of the repository the sentiment of a run whose
    banners are drawn is the same for every symbol but for its name: five
    articles counted, the overall sentiment "Neutral", and the first three
    template headlines. *)
Theorem sentiment_of_repository_news (symbol action : string) (w w0 w1 : W) :
  let g := graph_with_tools verbose llm price notifier in
  console_print (Panel (CryptoAnalysisGraph.start_banner symbol)) w = (Ok tt, w0) ->
  CryptoAnalysisGraph.announce_collect g (VStr symbol) w0 = (Ok tt, w1) ->
  exists r w',
    CryptoAnalysisGraph.run g symbol action w = (Ok r, w')
    /\ dict_lookup (data r) "sentiment_data"
       = Some (VDict
           [("news_count", VInt 5);
            ("overall_sentiment", VStr "Neutral");
            ("news_headlines",
              VList [VStr (symbol +:+ " reaches new milestone as institutional adoption grows");
                     VStr ("Analysts predict bullish trend for " +:+ symbol
                           +:+ " in coming weeks");
                     VStr ("Major exchange lists " +:+ symbol +:+ " trading pairs")])]).
Proof.
  intros g Hb Ha.
  destruct (run_chain g symbol action w w0 w1 Hb Ha)
    as (pd & w2 & ind & sd & w3 & d & w4 & w5 & _ & _ & Hs & _ & Hrun).
  eexists _, w5. split; [exact Hrun|].
  cbn [data dict_lookup String.eqb Ascii.eqb Bool.eqb]. f_equal.
  revert Hs.
  unfold CryptoAnalysisGraph.sentiment_analysis_node,
    CryptoAnalysisGraph.state_item, bind, try_except, ret.
  rewrite !lookup_insert_ne by discriminate.
  rewrite initial_state_symbol.
  cbn [g graph_with_tools CryptoAnalysisGraph.news_tool lift_res].
  intros Heq. apply returned_eq, insert_value_inj in Heq. now symmetry.
Qed.
End WiredFurther.

Section WiredAgent.
Context {W : Type} `{Runtime W} `{Services W}.
Import CryptoReActAgent.

Variable budget : Z.
Variable verbose : bool.
Variable llm : string -> M W string.
Variable tavily : TavilySearchTool.self.
Variable coingecko : CryptoPriceTool.self.

(** X22. An action input that is not JSON is wrapped by the parser under
    the single keyword [query].  Only the search tool has such a parameter:
    it answers with a mapping that carries the text as its query.  The
    price tool and the news tool are called with a keyword they do not
    have, so the observation is the text of that error of the interpreter,
    and no request is made. *)
Theorem wrapped_query_fits_search_only
        (text line : string) (pre post : list string) (e : exn)
        (a : option string) (v : pyval) (s : state W) :
  let agent := agent_with_tools budget verbose llm tavily coingecko in
  let input_text :=
    strip (up_to_marker "Action Input:" (after_marker "Action Input:" 0 line)) in
  split nl (strip text) = pre ++ line :: post ->
  startswith "Action:" line = false ->
  startswith "Action Input:" line = true ->
  Forall (fun l => startswith "Action:" l = true
                   \/ startswith "Action Input:" l = false) post ->
  json_loads input_text = Raise e ->
  exn_cls e = JSONDecodeError ->
  _parse_action text = Ok (a, v) ->
  v = VDict [("query", VStr input_text)]
  /\ (exists d w',
        _execute_tool agent "search" v s
        = (Ok (py_str (VDict d)),
           {| world := w'; history := history s;
              events := events s ++ [ToolCall "search" [("query", VStr input_text)]] |})
        /\ dict_lookup d "query" = Some (VStr input_text))
  /\ _execute_tool agent "get_crypto_price" v s
     = (Ok ("Error executing get_crypto_price: "
            +:+ call_error CryptoPriceTool.run_module CryptoPriceTool.run_name
                       (UnexpectedKeyword "query")),
        {| world := world s; history := history s;
           events := events s
                     ++ [ToolCall "get_crypto_price" [("query", VStr input_text)]] |})
  /\ _execute_tool agent "get_crypto_news" v s
     = (Ok ("Error executing get_crypto_news: "
            +:+ call_error CryptoNewsTool.run_module CryptoNewsTool.run_name
                       (UnexpectedKeyword "query")),
        {| world := world s; history := history s;
           events := events s
                     ++ [ToolCall "get_crypto_news" [("query", VStr input_text)]] |}).
Proof.
  intros agent input_text Hsplit Hnot Hline Hpost Hjson Hcls Hparse.
  assert (Hv : v = VDict [("query", VStr input_text)]).
  { revert Hparse. unfold _parse_action.
    rewrite Hsplit, parse_lines_app.
    destruct (parse_lines pre None VNone) as [[a1 v1]|e1]; [|discriminate].
    cbn [res_bind fst snd parse_lines]. rewrite Hnot, Hline.
    unfold list_index.
    rewrite (split_second "Action Input:" ltac:(discriminate) line 0
               (startswith_find _ _ Hline)).
    cbn [res_bind]. fold input_text. rewrite Hjson, Hcls.
    apply parse_lines_keeps_input. exact Hpost. }
  subst v. split; [reflexivity|]. repeat apply conj.
  - rewrite _execute_tool_eq.
    cbn [agent agent_with_tools tools tools_lookup String.eqb Ascii.eqb Bool.eqb
         search tool_run].
    cbv zeta. unfold TavilySearchTool.call.
    cbn [first_unexpected existsb orb String.eqb Ascii.eqb Bool.eqb
         dict_lookup default].
    change (from_option id (VInt 5) None) with (VInt 5).
    destruct (search_run_shape tavily (VStr input_text) 5 (world s))
      as (d & w' & mock & Hrun & Hq & _).
    rewrite Hrun. exists d, w'. split; [reflexivity | exact Hq].
  - rewrite _execute_tool_eq. reflexivity.
  - rewrite _execute_tool_eq. reflexivity.
Qed.
End WiredAgent.

(** ** More on the run and on the price tool *)

Section RunStart.
Context {W : Type} `{Runtime W}.
Import CryptoReActAgent.

Variable agent : self W.
Variable question : string.

Lemma loop_events_extend (n : nat) (s : state W) :
  exists rest, events (snd (loop agent question n s)) = events s ++ rest.
Proof.
  destruct (loop_call_bounds agent question n s) as (new & Hev & _).
  exists new. exact Hev.
Qed.

(** X23. What a previous run left in the history never reaches the LLM:
    with a positive budget, the first thing a run does once its banner is
    drawn is to call the LLM on the prompt of an empty history, whatever
    the state it starts from. *)
Theorem run_starts_from_empty_history (s : state W) (w0 : W) :
  (0 < max_iterations agent)%Z ->
  console_print (Panel (question_banner question)) (world s) = (Ok tt, w0) ->
  exists rest,
    events (snd (run agent question s))
    = events s ++ LLMCall (prompt_for agent question []) :: rest.
Proof.
  intros Hmax Hbanner. rewrite (run_after_banner_loop agent question s w0 Hbanner).
  destruct (Z.to_nat (max_iterations agent)) as [|n] eqn:En; [lia|].
  rewrite loop_step.
  set (s0 := {| world := w0; history := []; events := events s |}).
  pose proof (iteration_effects agent question s0) as He. cbv zeta in He.
  destruct (iteration agent question s0) as [[[a|]|e] s1];
    cbn [fst snd] in He; destruct He as (new & Hev & _).
  - exists new. exact Hev.
  - destruct (loop_events_extend n s1) as (rest & Hrest).
    exists (new ++ rest). rewrite Hrest, Hev.
    cbn [s0 history events]. now rewrite <- app_assoc.
  - exists new. exact Hev.
Qed.
End RunStart.

Section PriceLive.
Context {W : Type} `{Runtime W} `{Services W}.

(** X24. The price tool when the service answers: the record it returns has
    the twelve fields, in the order of the code, with the symbol in upper
    case; its 24h change is [market_data.price_change_percentage_24h] of the
    answer and its volume [market_data.total_volume.usd], each 0 when
    absent.  This needs the answer to have the shape the code reads and the
    current price to be printable for the log line. *)
Theorem price_tool_live_record
        (tool : CryptoPriceTool.self) (symbol coin_id : string) (w w1 : W)
        (data : pyval) (record : list (string * pyval)) (line : string) :
  CryptoPriceTool._get_coin_id (VStr symbol) = Ok coin_id ->
  requests_get_json (CryptoPriceTool.base_url +:+ "/coins/" +:+ coin_id)
                    CryptoPriceTool.request_params
                    (CryptoPriceTool.request_headers tool) w
  = (Ok data, w1) ->
  CryptoPriceTool.live_record (VStr symbol) data = Ok (VDict record) ->
  format_money (default VNone (dict_lookup record "current_price")) = Ok line ->
  CryptoPriceTool.run tool (VStr symbol) w = (Ok (VDict record), w1)
  /\ map fst record
     = ["symbol"; "name"; "current_price"; "market_cap"; "total_volume";
        "price_change_24h"; "price_change_percentage_24h"; "market_cap_rank";
        "high_24h"; "low_24h"; "ath"; "atl"]
  /\ dict_lookup record "symbol" = Some (VStr (str_upper symbol))
  /\ exists market_data,
       py_get data "market_data" (VDict []) = Ok (VDict market_data)
       /\ price_change_of record
          = default (VInt 0) (dict_lookup market_data "price_change_percentage_24h")
       /\ Ok (volume_of record)
          = CryptoPriceTool.usd_of (VDict market_data) "total_volume".
Proof.
  intros Hid Hreq Hlive Hfmt. split.
  { unfold CryptoPriceTool.run, try_except_class, bind, lift_res, ret.
    rewrite Hid, Hreq, Hlive, Hfmt. reflexivity. }
  revert Hlive. unfold CryptoPriceTool.live_record.
  destruct (py_get data "market_data" (VDict [])) as [md|e] eqn:Emd;
    [|discriminate]. cbn [res_bind py_upper].
  destruct (py_get data "name" _) as [name|e]; [|discriminate]. cbn [res_bind].
  destruct md as [| | | | | |market_data];
    try (unfold CryptoPriceTool.usd_of; cbn [py_get res_bind]; discriminate).
  destruct (CryptoPriceTool.usd_of _ "current_price") as [v1|e]; [|discriminate].
  cbn [res_bind].
  destruct (CryptoPriceTool.usd_of _ "market_cap") as [v2|e]; [|discriminate].
  cbn [res_bind].
  destruct (CryptoPriceTool.usd_of _ "total_volume") as [v3|e] eqn:Evol;
    [|discriminate].
  cbn [res_bind py_get].
  destruct (CryptoPriceTool.usd_of _ "high_24h") as [v4|e]; [|discriminate].
  cbn [res_bind].
  destruct (CryptoPriceTool.usd_of _ "low_24h") as [v5|e]; [|discriminate].
  cbn [res_bind].
  destruct (CryptoPriceTool.usd_of _ "ath") as [v6|e]; [|discriminate].
  cbn [res_bind].
  destruct (CryptoPriceTool.usd_of _ "atl") as [v7|e]; [|discriminate].
  cbn [res_bind].
  intros [= <-]. split; [reflexivity|]. split; [reflexivity|].
  exists market_data. split; [reflexivity|].
  split; [reflexivity | symmetry; exact Evol].
Qed.

(** X25. An answer of the price service that is not a JSON object is not
    replaced by the mock record: reading it raises an [AttributeError],
    which is no [RequestException], so the tool raises. *)
Theorem malformed_answer_is_not_mocked
        (tool : CryptoPriceTool.self) (symbol coin_id : string) (w w1 : W)
        (data : pyval) :
  CryptoPriceTool._get_coin_id (VStr symbol) = Ok coin_id ->
  requests_get_json (CryptoPriceTool.base_url +:+ "/coins/" +:+ coin_id)
                    CryptoPriceTool.request_params
                    (CryptoPriceTool.request_headers tool) w
  = (Ok data, w1) ->
  ~ is_dict data ->
  exists e,
    CryptoPriceTool.run tool (VStr symbol) w = (Raise e, w1)
    /\ exn_cls e = AttributeError.
Proof.
  intros Hid Hreq Hshape.
  unfold CryptoPriceTool.run, try_except_class, bind, lift_res.
  rewrite Hid, Hreq.
  destruct data; try (eexists; split; reflexivity).
  exfalso. apply Hshape. exact I.
Qed.
End PriceLive.

(** * Examples of the further properties *)

(** The script of the LLM is empty: its first call raises, and so does the
    run. *)
Lemma run_raises_from_llm_or_console_witness :
  (exists prompt w w',
      Demo.scripted_llm prompt w
      = (Raise (Exn OtherException "script exhausted"), w'))
  \/ (exists r w w',
        Demo.print r w = (Raise (Exn OtherException "script exhausted"), w')).
Proof.
  destruct (run_raises_from_llm_or_console (Demo.agent 3) "What is the price of BTC?"
              (Demo.fresh [])
              (Exn OtherException "script exhausted")
              (snd (CryptoReActAgent.run (Demo.agent 3) "What is the price of BTC?"
                      (Demo.fresh []))))
    as [(prompt & w & es & Hllm & _) | (r & w & Hprint)];
    [vm_compute; reflexivity | left | right].
  - exists prompt, w. eexists. exact Hllm.
  - exists r, w. eexists. exact Hprint.
Defined.

Lemma llm_failure_aborts_run_witness :
  fst (CryptoReActAgent.run (Demo.agent 3) "What is the price of BTC?"
         (Demo.fresh []))
  = Raise (Exn OtherException "script exhausted").
Proof.
  rewrite (llm_failure_aborts_run (Demo.agent 3) "What is the price of BTC?"
             (Demo.fresh []) (Exn OtherException "script exhausted")
             (Demo.drawn [Panel "[bold]What is the price of BTC?[/bold]"])
             (Demo.drawn [Panel "[bold]What is the price of BTC?[/bold]"]));
    [reflexivity | reflexivity | vm_compute; reflexivity | reflexivity].
Defined.

(** The question itself carries a closing tag that nothing opens. *)
Lemma undrawn_question_ends_run_witness :
  CryptoReActAgent.run (Demo.agent 3) "[/x]" (Demo.fresh [Demo.answer_42])
  = (Raise (Exn MarkupError
              "closing tag '[/x]' at position 6 doesn't match any open tag"),
     Demo.fresh [Demo.answer_42]).
Proof.
  rewrite (undrawn_question_ends_run (Demo.agent 3) "[/x]"
             (Demo.fresh [Demo.answer_42])
             (Exn MarkupError
                "closing tag '[/x]' at position 6 doesn't match any open tag")
             (Demo.start [Demo.answer_42]));
    [reflexivity | vm_compute; reflexivity].
Defined.

(** A response that only muses. *)
Lemma response_without_action_witness :
  exists s',
    CryptoReActAgent.iteration (Demo.agent 3) "What is the price of BTC?"
                               (Demo.fresh [Lab.musing])
    = (Ok None, s')
    /\ CryptoReActAgent.history s'
       = [{| thought := "I wonder what the user means."; action := None;
             action_input := VNone; observation := None |}]
    /\ Demo.console (CryptoReActAgent.world s')
       = [Panel "I wonder what the user means."].
Proof.
  destruct (response_without_action (Demo.agent 3) "What is the price of BTC?"
              (Demo.fresh [Lab.musing]) Lab.musing (Demo.start []))
    as [_ Hit]; [reflexivity | reflexivity | repeat constructor |].
  exists (snd (CryptoReActAgent.iteration (Demo.agent 3) "What is the price of BTC?"
                 (Demo.fresh [Lab.musing]))).
  rewrite Hit. split; [|split]; vm_compute; reflexivity.
Defined.

(** The fields no stage owns, after the workflow on BTC. *)
Lemma workflow_leaves_unowned_fields_witness :
  exists final w',
    CryptoAnalysisGraph.workflow (Demo.graph (Demo.constant_llm "HOLD"))
      (CryptoAnalysisGraph.initial_state "BTC" "analyze") (Demo.start [])
    = (Ok final, w')
    /\ final !! "symbol" = Some (VStr "BTC")
    /\ final !! "action" = Some (VStr "analyze")
    /\ final !! "messages" = Some (VList []).
Proof.
  destruct (CryptoAnalysisGraph.workflow (Demo.graph (Demo.constant_llm "HOLD"))
              (CryptoAnalysisGraph.initial_state "BTC" "analyze") (Demo.start []))
    as [[final|e] w'] eqn:Hw; [|vm_compute in Hw; discriminate].
  exists final, w'. split; [reflexivity|].
  destruct (workflow_leaves_unowned_fields (Demo.graph (Demo.constant_llm "HOLD"))
              "BTC" "analyze" (Demo.start []) w' final Hw)
    as (Hsymbol & Haction & _ & Hmessages).
  repeat split; assumption.
Defined.

(** The LLM is unreachable: the reasoning says so. *)
Lemma llm_failure_is_reported_witness :
  exists r w',
    CryptoAnalysisGraph.run (Demo.graph Lab.failing_llm) "BTC" "analyze" (Demo.start [])
    = (Ok r, w')
    /\ reasoning r = VStr "Error generating decision".
Proof.
  apply (llm_failure_is_reported (Demo.graph Lab.failing_llm) "BTC" "analyze"
           (Demo.start [])
           (Demo.drawn [Panel "[bold]Starting analysis for BTC[/bold]"])
           (Demo.drawn (Lab.banners "BTC")));
    [vm_compute; reflexivity | vm_compute; reflexivity |].
  intros prompt w0. eexists _, _. reflexivity.
Defined.

(** The LLM answers, with a tag that nothing opens: the answer is lost. *)
Lemma undrawn_decision_is_replaced_witness :
  exists r w',
    CryptoAnalysisGraph.run (Demo.graph (Demo.constant_llm Lab.tagged_decision))
                            "BTC" "analyze" (Demo.start [])
    = (Ok r, w')
    /\ reasoning r = VStr "Error generating decision".
Proof.
  apply (undrawn_decision_is_replaced
           (Demo.graph (Demo.constant_llm Lab.tagged_decision)) "BTC" "analyze"
           (Demo.start [])
           (Demo.drawn [Panel "[bold]Starting analysis for BTC[/bold]"])
           (Demo.drawn (Lab.banners "BTC")));
    [vm_compute; reflexivity | vm_compute; reflexivity |].
  intros prompt w2.
  exists Lab.tagged_decision, w2,
    (Exn MarkupError "closing tag '[/b]' at position 4 doesn't match any open tag"),
    w2.
  split; reflexivity.
Defined.

Lemma news_failure_leaves_sentiment_empty_witness :
  exists r w',
    CryptoAnalysisGraph.run
      (Lab.graph_of (Lab.quoting Lab.rally) Demo.failing_tool (Demo.constant_llm "BUY"))
      "BTC" "analyze" (Demo.start [])
    = (Ok r, w')
    /\ dict_lookup (data r) "sentiment_data" = Some (VDict []).
Proof.
  apply (news_failure_leaves_sentiment_empty
           (Lab.graph_of (Lab.quoting Lab.rally) Demo.failing_tool
                         (Demo.constant_llm "BUY")) "BTC" "analyze" (Demo.start [])
           (Demo.drawn [Panel "[bold]Starting analysis for BTC[/bold]"])
           (Demo.drawn (Lab.banners "BTC")));
    [vm_compute; reflexivity | vm_compute; reflexivity |].
  intros w0. eexists _, _. reflexivity.
Defined.

(** A rally of +7.5 %: BUY. *)
Lemma recommendation_follows_price_data_witness :
  exists r w',
    CryptoAnalysisGraph.run
      (Lab.graph_of (Lab.quoting Lab.rally) Demo.empty_news (Demo.constant_llm "SELL"))
      "BTC" "analyze" (Demo.start [])
    = (Ok r, w')
    /\ recommendation r = VStr "BUY".
Proof.
  destruct (recommendation_follows_price_data
              (Lab.graph_of (Lab.quoting Lab.rally) Demo.empty_news
                            (Demo.constant_llm "SELL"))
              "BTC" "analyze" (Demo.start [])
              (Demo.drawn [Panel "[bold]Starting analysis for BTC[/bold]"])
              (Demo.drawn (Lab.banners "BTC")) (Demo.drawn (Lab.banners "BTC"))
              (Demo.drawn (Lab.banners "BTC" ++ [Lab.table_of "BTC" Lab.rally]))
              Lab.rally (FFin (15 # 2)) (FFin (inject_Z 50000000000)))
    as (r & w' & Hrun & _ & Hbuy & _);
    [vm_compute; reflexivity | vm_compute; reflexivity | reflexivity
    | vm_compute; reflexivity | reflexivity | reflexivity |].
  exists r, w'. split; [exact Hrun|]. apply Hbuy. reflexivity.
Defined.

(** The same rally, with a name that the table cannot show: HOLD, and no
    price data. *)
Lemma undrawn_table_empties_price_data_witness :
  exists r w',
    CryptoAnalysisGraph.run
      (Lab.graph_of (Lab.quoting Lab.tagged_rally) Demo.empty_news
                    (Demo.constant_llm "SELL"))
      "BTC" "analyze" (Demo.start [])
    = (Ok r, w')
    /\ recommendation r = VStr "HOLD"
    /\ dict_lookup (data r) "price_data" = Some (VDict []).
Proof.
  destruct (undrawn_table_empties_price_data
              (Lab.graph_of (Lab.quoting Lab.tagged_rally) Demo.empty_news
                            (Demo.constant_llm "SELL"))
              "BTC" "analyze" (Demo.start [])
              (Demo.drawn [Panel "[bold]Starting analysis for BTC[/bold]"])
              (Demo.drawn (Lab.banners "BTC")) (Demo.drawn (Lab.banners "BTC"))
              (Demo.drawn (Lab.banners "BTC"))
              (VDict Lab.tagged_rally)
              (Exn MarkupError
                 "closing tag '[/x]' at position 0 doesn't match any open tag"))
    as (r & w' & Hrun & Hrec & Hpd & _);
    [vm_compute; reflexivity | vm_compute; reflexivity | reflexivity
    | vm_compute; reflexivity |].
  exists r, w'. repeat split; assumption.
Defined.

(** The API gives null for the change: HOLD, with no indicators. *)
Lemma non_numeric_data_falls_back_to_hold_witness :
  exists r w',
    CryptoAnalysisGraph.run
      (Lab.graph_of (Lab.quoting Lab.null_change) Demo.empty_news
                    (Demo.constant_llm "SELL"))
      "BTC" "analyze" (Demo.start [])
    = (Ok r, w')
    /\ recommendation r = VStr "HOLD"
    /\ dict_lookup (data r) "technical_indicators" = Some (VDict []).
Proof.
  destruct (non_numeric_data_falls_back_to_hold
              (Lab.graph_of (Lab.quoting Lab.null_change) Demo.empty_news
                            (Demo.constant_llm "SELL"))
              "BTC" "analyze" (Demo.start [])
              (Demo.drawn [Panel "[bold]Starting analysis for BTC[/bold]"])
              (Demo.drawn (Lab.banners "BTC")) (Demo.drawn (Lab.banners "BTC"))
              (Demo.drawn (Lab.banners "BTC" ++ [Lab.table_of "BTC" Lab.null_change]))
              Lab.null_change)
    as (r & w' & Hrun & Hrec & _ & Hti);
    [vm_compute; reflexivity | vm_compute; reflexivity | reflexivity
    | vm_compute; reflexivity | left; reflexivity |].
  exists r, w'. repeat split; assumption.
Defined.

(** The summary of a state that has only its symbol. *)
Lemma notification_prints_summary_witness :
  CryptoAnalysisGraph.notification_node
    (Demo.graph (Demo.constant_llm "HOLD")) (<["symbol" := VStr "BTC"]> ∅)
    (Demo.start [])
  = (Ok (<["symbol" := VStr "BTC"]> ∅),
     Demo.drawn [Panel (CryptoAnalysisGraph.notification_message
                          (VStr "BTC") (VStr "N/A") (VStr "N/A") (VStr "N/A"))]).
Proof.
  rewrite (notification_prints_summary (Demo.graph (Demo.constant_llm "HOLD"))
             (<["symbol" := VStr "BTC"]> ∅) (Demo.start []) []);
    [|vm_compute; reflexivity].
  f_equal.
Defined.

Lemma offline_analysis_says_hold_witness :
  exists r w',
    CryptoAnalysisGraph.run (Lab.graph (Demo.constant_llm "BUY now")) "DOGE" "analyze"
                            (Demo.start [])
    = (Ok r, w')
    /\ recommendation r = VStr "HOLD".
Proof.
  destruct (offline_analysis_says_hold true (Demo.constant_llm "BUY now")
              Lab.coingecko Demo.no_webhooks "DOGE" "analyze" (Demo.start [])
              (Demo.drawn [Panel "[bold]Starting analysis for DOGE[/bold]"])
              (Demo.drawn (Lab.banners "DOGE")))
    as (r & w' & Hrun & Hrec & _).
  { vm_compute; reflexivity. }
  { vm_compute; reflexivity. }
  { intros url params headers w0. eexists _, _. split; reflexivity. }
  { intros record w2 [= <-].
    match goal with |- exists w3, ?show = _ =>
      destruct show as [[[]|e] w3] eqn:Hshow end;
      [eexists; reflexivity | vm_compute in Hshow; discriminate]. }
  exists r, w'. split; [exact Hrun | exact Hrec].
Defined.

(** The headlines of the repository's news for BTC. *)
Lemma sentiment_of_repository_news_witness :
  exists r w' headlines,
    CryptoAnalysisGraph.run (Lab.graph (Demo.constant_llm "BUY now")) "BTC" "analyze"
                            (Demo.start [])
    = (Ok r, w')
    /\ dict_lookup (data r) "sentiment_data"
       = Some (VDict [("news_count", VInt 5);
                      ("overall_sentiment", VStr "Neutral");
                      ("news_headlines", VList headlines)])
    /\ headlines !! 2 = Some (VStr "Major exchange lists BTC trading pairs").
Proof.
  destruct (sentiment_of_repository_news true (Demo.constant_llm "BUY now")
              Lab.coingecko Demo.no_webhooks "BTC" "analyze" (Demo.start [])
              (Demo.drawn [Panel "[bold]Starting analysis for BTC[/bold]"])
              (Demo.drawn (Lab.banners "BTC")))
    as (r & w' & Hrun & Hsd);
    [vm_compute; reflexivity | vm_compute; reflexivity |].
  exists r, w'. eexists. split; [exact Hrun|]. split; [exact Hsd | reflexivity].
Defined.

(** The LLM asks the price tool for "BTC" in plain text. *)
Lemma wrapped_query_fits_search_only_witness :
  CryptoReActAgent._parse_action (W := Demo.world) Lab.price_bitcoin
  = Ok (Some "get_crypto_price", VDict [("query", VStr "BTC")])
  /\ fst (CryptoReActAgent._execute_tool (Lab.agent 3) "get_crypto_price"
            (VDict [("query", VStr "BTC")]) (Demo.fresh []))
     = Ok "Error executing get_crypto_price: CryptoPriceTool.run() got an unexpected keyword argument 'query'".
Proof.
  assert (Hparse :
    CryptoReActAgent._parse_action (W := Demo.world) Lab.price_bitcoin
    = Ok (Some "get_crypto_price", VDict [("query", VStr "BTC")]))
    by reflexivity.
  split; [exact Hparse|].
  destruct (wrapped_query_fits_search_only 3 true Demo.scripted_llm
              Lab.tavily Lab.coingecko Lab.price_bitcoin "Action Input: BTC"
              ["Action: get_crypto_price"] []
              (Exn JSONDecodeError "Expecting value")
              (Some "get_crypto_price") (VDict [("query", VStr "BTC")])
              (Demo.fresh []))
    as (_ & _ & Hprice & _);
    [reflexivity | reflexivity | reflexivity | constructor | reflexivity
    | reflexivity | exact Hparse |].
  change (Lab.agent 3)
    with (agent_with_tools 3 true Demo.scripted_llm Lab.tavily Lab.coingecko).
  rewrite Hprice. reflexivity.
Defined.

Lemma run_starts_from_empty_history_witness :
  exists rest,
    CryptoReActAgent.events
      (snd (CryptoReActAgent.run (Demo.agent 3) "What is the price of BTC?"
              {| CryptoReActAgent.world := Demo.start [Demo.answer_42];
                 CryptoReActAgent.history :=
                   [{| thought := "old"; action := None; action_input := VNone;
                       observation := None |}];
                 CryptoReActAgent.events := [] |}))
    = [] ++ LLMCall (CryptoReActAgent.prompt_for (Demo.agent 3)
                       "What is the price of BTC?" []) :: rest.
Proof.
  apply (run_starts_from_empty_history (Demo.agent 3) "What is the price of BTC?"
           {| CryptoReActAgent.world := Demo.start [Demo.answer_42];
              CryptoReActAgent.history :=
                [{| thought := "old"; action := None; action_input := VNone;
                    observation := None |}];
              CryptoReActAgent.events := [] |}
           {| Demo.script := [Demo.answer_42];
              Demo.console := [Panel "[bold]What is the price of BTC?[/bold]"] |});
    [reflexivity | vm_compute; reflexivity].
Defined.

(** Two "Action:" lines: the second names the tool. *)
Lemma last_action_line_wins_witness :
  exists v,
    CryptoReActAgent._parse_action (W := Demo.world) Lab.two_actions
    = Ok (Some "get_crypto_price", v).
Proof.
  destruct (CryptoReActAgent._parse_action (W := Demo.world) Lab.two_actions)
    as [[a v]|e] eqn:Ep; [|vm_compute in Ep; discriminate].
  exists v. f_equal. f_equal.
  apply (last_action_line_wins (W := Demo.world) Lab.two_actions
           "Action: get_crypto_price" ["Action: search"] ["Action Input: {}"] a v);
    [reflexivity | reflexivity | repeat constructor | exact Ep].
Defined.

(** Four items, of which three headlines are kept; the second has no title
    and the fourth, which is not a mapping, is only counted. *)
Lemma sentiment_of_articles_witness :
  CryptoAnalysisGraph.sentiment_of (VDict [("articles", VList Lab.four_items)])
  = Ok (VDict [("news_count", VInt 4);
               ("overall_sentiment", VStr "Neutral");
               ("news_headlines",
                 VList [VStr "BTC up"; VStr EmptyString; VStr "ETH flat"])]).
Proof.
  destruct (sentiment_of_articles [("articles", VList Lab.four_items)]
              Lab.four_items eq_refl) as [Heq _];
    [repeat constructor | exact Heq].
Defined.

Lemma unconfigured_webhook_is_reported_witness :
  NotificationTool.run Demo.no_webhooks "BTC is up" "slack" (Demo.start [])
  = (Ok (VDict [("success", VBool false); ("channel", VStr "slack");
                ("error", VStr "Webhook not configured")]), Demo.start []).
Proof.
  destruct (unconfigured_webhook_is_reported Demo.no_webhooks "BTC is up"
              (Demo.start [])) as [Hslack _].
  apply Hslack. reflexivity.
Defined.

(** Seven articles: the sixth has the title of the first. *)
Lemma news_tool_articles_witness :
  exists articles article,
    CryptoNewsTool.run (W := Demo.world) (VStr "BTC") (VInt 7)
    = Ok (VDict [("symbol", VStr "BTC"); ("article_count", VInt 7);
                 ("articles", VList articles)])
    /\ articles !! 5 = Some article
    /\ title_of article
       = VStr "BTC reaches new milestone as institutional adoption grows".
Proof.
  destruct (news_tool_articles (W := Demo.world) "BTC" (VInt 7))
    as (articles & Hrun & Hlen & Htitles).
  assert (Hsix : exists article, articles !! 5 = Some article)
    by (apply lookup_lt_is_Some_2; rewrite Hlen; vm_compute; lia).
  destruct Hsix as (article & Hsix).
  exists articles, article. split.
  - rewrite Hrun, Hlen. reflexivity.
  - split; [exact Hsix|]. rewrite (Htitles 5 article Hsix). reflexivity.
Defined.

(** The network is down: the price tool quotes the mock record. *)
Lemma price_tool_on_failed_request_witness :
  exists record,
    CryptoPriceTool.run Lab.coingecko (VStr "btc") (Demo.start [])
    = (Ok (VDict record), Demo.start [])
    /\ dict_lookup record "symbol" = Some (VStr "BTC")
    /\ price_change_of record = VFloat double_1_2.
Proof.
  pose proof (price_tool_on_failed_request Lab.coingecko "btc" "bitcoin"
                (Demo.start []) (Demo.start [])
                (Exn OtherException "ConnectionError") eq_refl eq_refl) as Hmock.
  cbn in Hmock. destruct Hmock as (record & Hrun & Hsym & Hchange & _).
  exists record. repeat apply conj; assumption.
Defined.

(** The service answers for Bitcoin, up 6.25 %. *)
Lemma price_tool_live_record_witness :
  exists record,
    CryptoPriceTool.run (H0 := Lab.online) Lab.coingecko (VStr "btc") (Demo.start [])
    = (Ok (VDict record), Demo.start [])
    /\ price_change_of record = VFloat (FFin (25 # 4))
    /\ volume_of record = VInt 20000000000.
Proof.
  eexists.
  destruct (price_tool_live_record (H0 := Lab.online) Lab.coingecko "btc" "bitcoin"
              (Demo.start []) (Demo.start []) Lab.bitcoin_answer _ "50,000.00"
              eq_refl eq_refl eq_refl eq_refl)
    as (Hrun & _ & _ & md & _ & _ & _).
  split; [exact Hrun|]. split; reflexivity.
Defined.

Lemma malformed_answer_is_not_mocked_witness :
  exists e,
    CryptoPriceTool.run (H0 := Lab.confused) Lab.coingecko (VStr "btc") (Demo.start [])
    = (Raise e, Demo.start []).
Proof.
  destruct (malformed_answer_is_not_mocked (H0 := Lab.confused) Lab.coingecko
              "btc" "bitcoin" (Demo.start []) (Demo.start []) (VList [])
              eq_refl eq_refl) as (e & Hrun & _).
  { intros []. }
  exists e. exact Hrun.
Defined.
